(** * US-Messenger: real-time messaging and presence core

    A shallow embedding of the chat service's notification read state
    ([apps/notifications]), presence store ([apps/common/utils.py]),
    chat connection gateway ([apps/chat/consumers.py]) and message
    views ([apps/chat/views.py]), with the properties of the
    specification stated and settled against it.

    Conventions.  Timestamps are integers counting microseconds (the
    resolution of [datetime]); identifiers are integers; Python strings
    are [string]s; a database table is the list of its rows, in storage
    order.  Operations that read the clock take the current time as an
    argument. *)

From Stdlib Require Import ZArith Lia Bool List.
From Stdlib Require Import Ascii String Decimal DecimalString DecimalZ DecimalPos.
From stdpp Require Import base option list gmap strings sorting.

Open Scope string_scope.
Open Scope Z_scope.

(** ** Time *)

Definition seconds (n : Z) : Z := n * 1000000.
Definition minutes (n : Z) : Z := seconds (60 * n).

(** ** Notifications: [apps/notifications/models.py] and [views.py] *)

Module Notification.

Record t := mk {
  id : Z;
  created_at : Z;
  updated_at : Z;
  recipient : Z;
  notification_type : string;
  title : string;
  message : string;
  is_read : bool;
  read_at : option Z;
  related_room : option Z;
  related_message : option Z;
  related_user : option Z;
  extra_data : option string
}.

Definition set_is_read (b : bool) (n : t) : t :=
  mk (id n) (created_at n) (updated_at n) (recipient n)
     (notification_type n) (title n) (message n)
     b (read_at n)
     (related_room n) (related_message n) (related_user n) (extra_data n).

Definition set_read_at (r : option Z) (n : t) : t :=
  mk (id n) (created_at n) (updated_at n) (recipient n)
     (notification_type n) (title n) (message n)
     (is_read n) r
     (related_room n) (related_message n) (related_user n) (extra_data n).

Definition set_created_at (c : Z) (n : t) : t :=
  mk (id n) c (updated_at n) (recipient n)
     (notification_type n) (title n) (message n)
     (is_read n) (read_at n)
     (related_room n) (related_message n) (related_user n) (extra_data n).

(** The table of notifications. *)
Definition table := list t.

(** [UPDATE ... SET is_read, read_at WHERE id = pk]: what
    [save(update_fields=["is_read", "read_at"])] writes. *)
Definition update_is_read_read_at (self : t) (tbl : table) : table :=
  map (fun row =>
         if id row =? id self
         then set_read_at (read_at self) (set_is_read (is_read self) row)
         else row) tbl.

(** [BaseModel.save] called with [update_fields=["is_read", "read_at"]]:
    an instance whose primary key is falsy gets a fresh in-memory
    [created_at]; only the two named columns reach the row. *)
Definition save_is_read_read_at (now : Z) (self : t) (tbl : table)
  : t * table :=
  let self' := if id self =? 0 then set_created_at now self else self in
  (self', update_is_read_read_at self' tbl).

(** [Notification.mark_as_read] *)
Definition mark_as_read (now : Z) (self : t) (tbl : table) : t * table :=
  if negb (is_read self) then
    save_is_read_read_at now (set_read_at (Some now) (set_is_read true self)) tbl
  else (self, tbl).

(** [Notification.mark_as_unread] *)
Definition mark_as_unread (now : Z) (self : t) (tbl : table) : t * table :=
  if is_read self then
    save_is_read_read_at now (set_read_at None (set_is_read false self)) tbl
  else (self, tbl).

(** [NotificationViewSet.get_queryset]: the rows of the requesting user. *)
Definition in_queryset (user : Z) (row : t) : bool := recipient row =? user.

(** [QuerySet.update(is_read=True)] over the rows selected by [sel]:
    one column is written, [save] is not called. *)
Definition update_is_read_true (sel : t -> bool) (tbl : table) : table :=
  map (fun row => if sel row then set_is_read true row else row) tbl.

(** [NotificationViewSet.mark_all_read] *)
Definition mark_all_read (user : Z) (tbl : table) : table :=
  update_is_read_true
    (fun row => in_queryset user row && negb (is_read row)) tbl.

(** [NotificationViewSet.bulk_mark_read]: the new table and
    [updated_count]. *)
Definition bulk_mark_read (user : Z) (notification_ids : list Z) (tbl : table)
  : table * Z :=
  let sel row :=
    in_queryset user row
    && bool_decide (id row ∈ notification_ids) && negb (is_read row) in
  (update_is_read_true sel tbl, Z.of_nat (length (filter (fun row => sel row = true) tbl))).

(** [NotificationViewSet.unread_count] *)
Definition unread_count (user : Z) (tbl : table) : Z :=
  Z.of_nat (length (List.filter
                      (fun row => in_queryset user row && negb (is_read row)) tbl)).

(** Two rows that agree on every column but [is_read]. *)
Definition same_but_is_read (n n' : t) : Prop :=
  id n' = id n /\ created_at n' = created_at n /\ updated_at n' = updated_at n
  /\ recipient n' = recipient n
  /\ notification_type n' = notification_type n
  /\ title n' = title n /\ message n' = message n
  /\ read_at n' = read_at n
  /\ related_room n' = related_room n
  /\ related_message n' = related_message n
  /\ related_user n' = related_user n
  /\ extra_data n' = extra_data n.

End Notification.

(** ** Python values and exceptions *)

Module Py.

(** The exceptions the modelled code raises or catches. *)
Inductive exn :=
| JSONDecodeError
| AttributeError
| TypeError
| ValueError
| PydanticValidationError
| DoesNotExist
| DjangoValidationError (msg : string)
| ResponseError (msg : string).

(** A computation that returns or raises. *)
Definition result (A : Type) : Type := exn + A.

Definition ret {A} (a : A) : result A := inr a.
Definition raise {A} (e : exn) : result A := inl e.
Definition bind {A B} (c : result A) (k : A -> result B) : result B :=
  match c with
  | inl e => inl e
  | inr a => k a
  end.

(** A computation over a store of type [S]: it returns or raises, and
    the writes made before an exception stay. *)
Definition state (S A : Type) : Type := S -> result A * S.

Definition sret {S A} (a : A) : state S A := fun s => (inr a, s).
Definition sraise {S A} (e : exn) : state S A := fun s => (inl e, s).
Definition sbind {S A B} (c : state S A) (k : A -> state S B) : state S B :=
  fun s =>
    match c s with
    | (inl e, s') => (inl e, s')
    | (inr a, s') => k a s'
    end.

(** [str.isspace] on one character; characters are code points below 256. *)
Definition is_space (c : ascii) : bool :=
  let n := N_of_ascii c in
  ((9 <=? n) && (n <=? 13) || (28 <=? n) && (n <=? 32)
   || (n =? 133) || (n =? 160))%N.

Fixpoint lstrip (s : string) : string :=
  match s with
  | EmptyString => EmptyString
  | String c s' => if is_space c then lstrip s' else s
  end.

Fixpoint rstrip (s : string) : string :=
  match s with
  | EmptyString => EmptyString
  | String c s' =>
      match rstrip s' with
      | EmptyString => if is_space c then EmptyString else String c EmptyString
      | r => String c r
      end
  end.

(** [str.strip()] *)
Definition strip (s : string) : string := rstrip (lstrip s).

(** [str(n)] for an integer [n]. *)
Definition str_int (z : Z) : string := NilZero.string_of_int (Z.to_int z).

(** Underscores of an integer literal: allowed between two digits only. *)
Fixpoint drop_underscores (after_digit : bool) (s : string) : option string :=
  match s with
  | EmptyString => if after_digit then Some EmptyString else None
  | String c s' =>
      if Ascii.eqb c "_"
      then (if after_digit then drop_underscores false s' else None)
      else option_map (String c) (drop_underscores true s')
  end.

Definition digits (s : string) : option Decimal.uint :=
  match drop_underscores false s with
  | Some d => NilEmpty.uint_of_string d
  | None => None
  end.

(** [int(s)] for a string [s], base ten: surrounding whitespace, one
    optional sign, digits with single underscores between them. *)
Definition int (s : string) : result Z :=
  match strip s with
  | String c body =>
      if Ascii.eqb c "-" then
        match digits body with
        | Some d => ret (Z.of_int (Decimal.Neg d))
        | None => raise ValueError
        end
      else if Ascii.eqb c "+" then
        match digits body with
        | Some d => ret (Z.of_int (Decimal.Pos d))
        | None => raise ValueError
        end
      else
        match digits (String c body) with
        | Some d => ret (Z.of_int (Decimal.Pos d))
        | None => raise ValueError
        end
  | EmptyString => raise ValueError
  end.

(** [s.startswith(p)] *)
Fixpoint startswith (p s : string) : bool :=
  match p, s with
  | EmptyString, _ => true
  | String a p', String b s' => Ascii.eqb a b && startswith p' s'
  | String _ _, EmptyString => false
  end.

End Py.

Notation "'let*' x ':=' c 'in' k" := (Py.bind c (fun x => k))
  (at level 10, x pattern, c at level 100, k at level 200).
Notation "'do*' x ':=' c 'in' k" := (Py.sbind c (fun x => k))
  (at level 10, x pattern, c at level 100, k at level 200).

(** ** The Redis server, as the presence utilities use it *)

Module Redis.

(** A key holds a string or a set of strings. *)
Inductive value :=
| VString (s : string)
| VSet (members : gset string).

Record entry := mk_entry { val : value; expires_at : option Z }.

Abbreviation db := (gmap string entry).

(** A key with a time-to-live is gone once its deadline is reached. *)
Definition live (now : Z) (e : entry) : bool :=
  match expires_at e with
  | None => true
  | Some deadline => now <? deadline
  end.

Definition get (now : Z) (d : db) (key : string) : option entry :=
  match d !! key with
  | Some e => if live now e then Some e else None
  | None => None
  end.

Definition wrongtype : Py.exn :=
  Py.ResponseError "WRONGTYPE Operation against a key holding the wrong kind of value".

(** [SETEX key ttl value], [ttl] in seconds. *)
Definition setex (now : Z) (key : string) (ttl : Z) (v : string)
  : Py.state db bool :=
  fun d => (inr true, <[key := mk_entry (VString v) (Some (now + seconds ttl))]> d).

(** [SADD key member]: the number of members added. *)
Definition sadd (now : Z) (key member : string) : Py.state db Z :=
  fun d =>
    match get now d key with
    | None => (inr 1, <[key := mk_entry (VSet {[member]}) None]> d)
    | Some (mk_entry (VSet s) ex) =>
        (inr (if bool_decide (member ∈ s) then 0 else 1),
         <[key := mk_entry (VSet ({[member]} ∪ s)) ex]> d)
    | Some (mk_entry (VString _) _) => (inl wrongtype, d)
    end.

(** [EXPIRE key ttl]: whether the key exists. *)
Definition expire (now : Z) (key : string) (ttl : Z) : Py.state db bool :=
  fun d =>
    match get now d key with
    | Some e => (inr true, <[key := mk_entry (val e) (Some (now + seconds ttl))]> d)
    | None => (inr false, d)
    end.

(** [DEL key]: the number of keys removed. *)
Definition delete (now : Z) (key : string) : Py.state db Z :=
  fun d =>
    match get now d key with
    | Some _ => (inr 1, base.delete key d)
    | None => (inr 0, base.delete key d)
    end.

(** [EXISTS key]: the number of keys that exist. *)
Definition exists_ (now : Z) (key : string) : Py.state db Z :=
  fun d =>
    match get now d key with
    | Some _ => (inr 1, d)
    | None => (inr 0, d)
    end.

(** [SREM key member]; a set that becomes empty is removed. *)
Definition srem (now : Z) (key member : string) : Py.state db Z :=
  fun d =>
    match get now d key with
    | None => (inr 0, d)
    | Some (mk_entry (VSet s) ex) =>
        let s' := s ∖ {[member]} in
        (inr (if bool_decide (member ∈ s) then 1 else 0),
         if bool_decide (s' = ∅) then base.delete key d
         else <[key := mk_entry (VSet s') ex]> d)
    | Some (mk_entry (VString _) _) => (inl wrongtype, d)
    end.

(** [SMEMBERS key] *)
Definition smembers (now : Z) (key : string) : Py.state db (gset string) :=
  fun d =>
    match get now d key with
    | None => (inr ∅, d)
    | Some (mk_entry (VSet s) _) => (inr s, d)
    | Some (mk_entry (VString _) _) => (inl wrongtype, d)
    end.

(** Glob matching for patterns made of literal characters and [*]. *)
Fixpoint glob (pattern : string) : string -> bool :=
  match pattern with
  | EmptyString => fun s => match s with EmptyString => true | _ => false end
  | String c p' =>
      if Ascii.eqb c "*" then
        fix star (s : string) : bool :=
          glob p' s
          || match s with
             | EmptyString => false
             | String _ s' => star s'
             end
      else
        fun s =>
          match s with
          | String a s' => Ascii.eqb c a && glob p' s'
          | EmptyString => false
          end
  end.

(** The keys that exist and match a pattern, each once. *)
Definition scan_keys (now : Z) (pattern : string) (d : db) : list string :=
  List.filter (fun key => match get now d key with
                          | Some _ => glob pattern key
                          | None => false
                          end)
              (elements (dom d)).

(** [scan_iter(pattern)] *)
Definition scan_iter (now : Z) (pattern : string) : Py.state db (list string) :=
  fun d => (inr (scan_keys now pattern d), d).

End Redis.

(** ** Presence tracking: [apps/common/utils.py] *)

Module Presence.

Definition get_user_presence_key (user_id : Z) : string :=
  String.append "presence:user:" (Py.str_int user_id).

Definition get_room_presence_key (room_id : Z) : string :=
  String.append "presence:room:" (Py.str_int room_id).

(** [set_user_online]; [if room_id:] skips both [None] and [0]. *)
Definition set_user_online (now : Z) (user_id : Z) (room_id : option Z)
  : Py.state Redis.db unit :=
  let key := get_user_presence_key user_id in
  do* _ := Redis.setex now key 60 "online" in
  match room_id with
  | Some r =>
      if r =? 0 then Py.sret tt
      else
        let room_key := get_room_presence_key r in
        do* _ := Redis.sadd now room_key (Py.str_int user_id) in
        do* _ := Redis.expire now room_key 60 in
        Py.sret tt
  | None => Py.sret tt
  end.

(** The loop of [set_user_offline] over the scanned keys. *)
Fixpoint srem_each (now : Z) (room_keys : list string) (member : string)
  : Py.state Redis.db unit :=
  match room_keys with
  | [] => Py.sret tt
  | room_key :: rest =>
      do* _ := Redis.srem now room_key member in
      srem_each now rest member
  end.

(** [set_user_offline] *)
Definition set_user_offline (now : Z) (user_id : Z) : Py.state Redis.db unit :=
  let key := get_user_presence_key user_id in
  do* _ := Redis.delete now key in
  let pattern := "presence:room:*" in
  do* room_keys := Redis.scan_iter now pattern in
  srem_each now room_keys (Py.str_int user_id).

(** The list comprehension [[int(uid) for uid in ...]]. *)
Fixpoint int_each (uids : list string) : Py.result (list Z) :=
  match uids with
  | [] => Py.ret []
  | uid :: rest =>
      let* n := Py.int uid in
      let* ns := int_each rest in
      Py.ret (n :: ns)
  end.

(** [get_online_users_in_room]; a set is listed in no particular order. *)
Definition get_online_users_in_room (now : Z) (room_id : Z)
  : Py.state Redis.db (list Z) :=
  let room_key := get_room_presence_key room_id in
  do* members := Redis.smembers now room_key in
  fun d => (int_each (elements members), d).

(** [is_user_online]: the count returned by [EXISTS]. *)
Definition is_user_online (now : Z) (user_id : Z) : Py.state Redis.db Z :=
  Redis.exists_ now (get_user_presence_key user_id).

(** One call of the program on the presence store. *)
Inductive step : Redis.db -> Redis.db -> Prop :=
| step_online now user_id room_id d :
    step d (set_user_online now user_id room_id d).2
| step_offline now user_id d :
    step d (set_user_offline now user_id d).2.

(** The stores this program produces from an empty server. *)
Inductive reachable : Redis.db -> Prop :=
| reachable_empty : reachable ∅
| reachable_step d d' : reachable d -> step d d' -> reachable d'.

(** The shape of such a store: a room key holds a set of printed
    user identifiers. *)
Definition room_entry_ok (e : Redis.entry) : Prop :=
  exists s, Redis.val e = Redis.VSet s /\ forall m, m ∈ s -> exists u, m = Py.str_int u.

Definition room_prefix : string := "presence:room:".

Definition well_formed (d : Redis.db) : Prop :=
  forall key e,
    d !! key = Some e -> Py.startswith room_prefix key = true -> room_entry_ok e.

(** What [SREM key member] does to the entry under [key]. *)
Definition srem_entry (now : Z) (member : string) (oe : option Redis.entry)
  : option Redis.entry :=
  match oe with
  | Some (Redis.mk_entry (Redis.VSet s) ex) =>
      if Redis.live now (Redis.mk_entry (Redis.VSet s) ex) then
        if bool_decide (s ∖ {[member]} = ∅) then None
        else Some (Redis.mk_entry (Redis.VSet (s ∖ {[member]})) ex)
      else oe
  | _ => oe
  end.

Definition holds_set (oe : option Redis.entry) : Prop :=
  forall e, oe = Some e -> exists s, Redis.val e = Redis.VSet s.

(** The members of the set under [key] at time [now]; none when the key
    is absent or expired. *)
Definition members_at (now : Z) (d : Redis.db) (key : string) : gset string :=
  match Redis.get now d key with
  | Some (Redis.mk_entry (Redis.VSet s) _) => s
  | _ => ∅
  end.

End Presence.

(** ** More Python helpers *)

Module PyStr.

(** [s[:n]] *)
Fixpoint take (n : nat) (s : string) : string :=
  match n, s with
  | S n', String c s' => String c (take n' s')
  | _, _ => EmptyString
  end.

(** Whether [sep] (one character) occurs in [s]: ["=" in param]. *)
Fixpoint contains_char (sep : ascii) (s : string) : bool :=
  match s with
  | EmptyString => false
  | String c s' => Ascii.eqb c sep || contains_char sep s'
  end.

(** [s.split(sep)] for a one-character separator: never empty. *)
Fixpoint split (sep : ascii) (s : string) : list string :=
  match s with
  | EmptyString => [EmptyString]
  | String c s' =>
      if Ascii.eqb c sep then EmptyString :: split sep s'
      else match split sep s' with
           | piece :: rest => String c piece :: rest
           | [] => [String c EmptyString]
           end
  end.

(** [s.split(sep, 1)] on a string that contains [sep]: the text before
    the first separator and the text after it. *)
Fixpoint split_once (sep : ascii) (s : string) : string * string :=
  match s with
  | EmptyString => (EmptyString, EmptyString)
  | String c s' =>
      if Ascii.eqb c sep then (EmptyString, s')
      else let '(k, v) := split_once sep s' in (String c k, v)
  end.

(** [dict(pairs).get(key)]: the last pair with that key wins. *)
Fixpoint dict_get {A} (key : string) (pairs : list (string * A)) : option A :=
  match pairs with
  | [] => None
  | (k, v) :: rest =>
      match dict_get key rest with
      | Some v' => Some v'
      | None => if String.eqb k key then Some v else None
      end
  end.

(** Only whitespace, or nothing at all. *)
Fixpoint all_space (s : string) : bool :=
  match s with
  | EmptyString => true
  | String c s' => Py.is_space c && all_space s'
  end.

(** Characters of a printed unsigned number. *)
Fixpoint all_digits (s : string) : bool :=
  match s with
  | EmptyString => true
  | String c s' =>
      (match NilEmpty.uint_of_string (String c EmptyString) with
       | Some _ => true
       | None => false
       end) && all_digits s'
  end.

End PyStr.

(** ** Models: [apps/accounts/models.py], [apps/chat/models.py] *)

Module User.

Record t := mk {
  id : Z;
  created_at : Z;
  updated_at : Z;
  email : string;
  first_name : string;
  last_name : string;
  is_online : bool;
  last_seen : option Z
}.

(** [User.get_full_name] *)
Definition get_full_name (self : t) : string :=
  match Py.strip (String.append (first_name self)
                                (String.append " " (last_name self))) with
  | EmptyString => email self
  | full_name => full_name
  end.

Definition set_presence (online : bool) (seen : option Z) (u : t) : t :=
  mk (id u) (created_at u) (updated_at u) (email u) (first_name u)
     (last_name u) online seen.

Definition set_created_at (c : Z) (u : t) : t :=
  mk (id u) c (updated_at u) (email u) (first_name u)
     (last_name u) (is_online u) (last_seen u).

End User.

Module ChatRoom.

Record t := mk {
  id : Z;
  created_at : Z;
  updated_at : Z;
  name : string;
  room_type : string;
  description : option string;
  is_active : bool;
  created_by : Z
}.

End ChatRoom.

Module RoomMembership.

Record t := mk {
  id : Z;
  created_at : Z;
  updated_at : Z;
  user : Z;
  room : Z;
  role : string;
  joined_at : Z;
  is_active : bool
}.

End RoomMembership.

Module Message.

Record t := mk {
  id : Z;
  created_at : Z;
  updated_at : Z;
  room : Z;
  sender : Z;
  content : string;
  message_type : string;
  is_edited : bool;
  edited_at : option Z;
  reply_to : option Z
}.

(** [Message.clean] *)
Definition clean (self : t) : Py.result unit :=
  if String.eqb (message_type self) "text"
     && String.eqb (Py.strip (content self)) EmptyString
  then Py.raise (Py.DjangoValidationError "Text messages must have content.")
  else Py.ret tt.

End Message.

Module Attachment.

(** [file] and [thumbnail] hold the stored name; an empty [file] is a
    record without a file. *)
Record t := mk {
  id : Z;
  created_at : Z;
  updated_at : Z;
  message : Z;
  file : string;
  filename : string;
  file_type : string;
  file_size : Z;
  mime_type : string;
  thumbnail : option string
}.

End Attachment.

(** ** The database *)

Module Db.

Record t := mk {
  users : list User.t;
  rooms : list ChatRoom.t;
  memberships : list RoomMembership.t;
  messages : list Message.t;
  attachments : list Attachment.t;
  notifications : list Notification.t;
  (** the last identifiers handed out by the sequences *)
  membership_seq : Z;
  message_seq : Z;
  attachment_seq : Z;
  notification_seq : Z
}.

Definition set_users (us : list User.t) (db : t) : t :=
  mk us (rooms db) (memberships db) (messages db) (attachments db)
     (notifications db) (membership_seq db) (message_seq db)
     (attachment_seq db) (notification_seq db).

Definition set_memberships (ms : list RoomMembership.t) (seq : Z) (db : t) : t :=
  mk (users db) (rooms db) ms (messages db) (attachments db)
     (notifications db) seq (message_seq db)
     (attachment_seq db) (notification_seq db).

Definition set_messages (ms : list Message.t) (seq : Z) (db : t) : t :=
  mk (users db) (rooms db) (memberships db) ms (attachments db)
     (notifications db) (membership_seq db) seq
     (attachment_seq db) (notification_seq db).

Definition set_attachments (ats : list Attachment.t) (seq : Z) (db : t) : t :=
  mk (users db) (rooms db) (memberships db) (messages db) ats
     (notifications db) (membership_seq db) (message_seq db)
     seq (notification_seq db).

Definition set_notifications (ns : list Notification.t) (seq : Z) (db : t) : t :=
  mk (users db) (rooms db) (memberships db) (messages db) (attachments db)
     ns (membership_seq db) (message_seq db)
     (attachment_seq db) seq.

(** [User.objects.get(id=...)] *)
Definition get_user (user_id : Z) (db : t) : Py.result User.t :=
  match List.find (fun u => User.id u =? user_id) (users db) with
  | Some u => Py.ret u
  | None => Py.raise Py.DoesNotExist
  end.

(** [Message.objects.get(id=...)] *)
Definition get_message (message_id : Z) (db : t) : Py.result Message.t :=
  match List.find (fun m => Message.id m =? message_id) (messages db) with
  | Some m => Py.ret m
  | None => Py.raise Py.DoesNotExist
  end.

(** The join of [filter(id=room_id, participants=user,
    memberships__is_active=True)]: both conditions travel through the
    membership table of the room and bear on the same membership row. *)
Definition active_membership (user_id room_id : Z) (m : RoomMembership.t) : bool :=
  (RoomMembership.room m =? room_id)
  && (RoomMembership.user m =? user_id)
  && RoomMembership.is_active m.

(** [Message.objects.create(...)]: the next identifier of the sequence,
    [created_at] and [updated_at] set to the current time, the model's
    defaults for the flags. *)
Definition create_message (now : Z) (room_id sender : Z) (content : string)
           (message_type : string) (reply_to : option Z) (db : t)
  : Message.t * t :=
  let new_id := message_seq db + 1 in
  let m := Message.mk new_id now now room_id sender content message_type
                      false None reply_to in
  (m, set_messages (messages db ++ [m]) new_id db).

(** [Attachment.objects.create(...)] without a file. *)
Definition create_attachment (now : Z) (message : Z)
           (filename file_type : string) (file_size : Z) (mime_type : string)
           (db : t) : Attachment.t * t :=
  let new_id := attachment_seq db + 1 in
  let a := Attachment.mk new_id now now message EmptyString filename file_type
                         file_size mime_type None in
  (a, set_attachments (attachments db ++ [a]) new_id db).

End Db.

(** ** JSON values, as [json.loads] returns them *)

Module Json.

(** A float is kept as its [repr]. *)
#[warnings="-register-all"] Inductive t :=
| Null
| Bool (b : bool)
| Int (z : Z)
| Float (repr : string)
| Str (s : string)
| Arr (items : list t)
| Obj (fields : list (string * t)).

(** Truth value of the Python object. *)
Definition truthy (j : t) : bool :=
  match j with
  | Null => false
  | Bool b => b
  | Int z => negb (z =? 0)
  | Float r => negb (String.eqb r "0.0" || String.eqb r "-0.0")
  | Str s => negb (String.eqb s EmptyString)
  | Arr items => match items with [] => false | _ => true end
  | Obj fields => match fields with [] => false | _ => true end
  end.

(** Lists and dicts cannot be dictionary keys. *)
Definition hashable (j : t) : bool :=
  match j with
  | Arr _ | Obj _ => false
  | _ => true
  end.

(** How an f-string prints a hashable value. *)
Definition format (j : t) : string :=
  match j with
  | Null => "None"
  | Bool true => "True"
  | Bool false => "False"
  | Int z => Py.str_int z
  | Float r => r
  | Str s => s
  | Arr _ | Obj _ => EmptyString
  end.

(** [data.get(key)] on a dict. *)
Definition get (key : string) (fields : list (string * t)) : t :=
  match PyStr.dict_get key fields with
  | Some v => v
  | None => Null
  end.

End Json.

(** ** The channel layer: groups and fan-out *)

Module Channels.

(** What [MessageSerializer(message).data] carries. *)
Record serialized_message := mk_serialized {
  s_id : Z;
  s_room : Z;
  s_sender : User.t;
  s_content : string;
  s_message_type : string;
  s_is_edited : bool;
  s_edited_at : option Z;
  s_reply_to : option Z;
  s_reply_to_content : option (Z * string * string);
  s_attachments : list Attachment.t;
  s_has_attachments : bool;
  s_attachment_count : Z;
  s_time_ago : string;
  s_created_at : Z;
  s_updated_at : Z
}.

(** The events sent to groups, by their [type]. *)
Inductive event :=
| user_joined (user_id : Z) (username : string)
| user_left (user_id : option Z) (username : string)
| chat_message (message : serialized_message)
| chat_attachment (message : serialized_message)
| user_typing (user_id : Z) (username : string) (is_typing : Json.t)
| user_presence_changed (user_id : Z) (username : string)
                        (is_online : bool) (last_seen : option Z)
| notification_message (notification : Notification.t).

Record layer := mk {
  (** group name to the channels attached to it *)
  groups : gmap string (gset string);
  (** every [group_send], oldest first *)
  published : list (string * event);
  (** every event handed to a channel, oldest first *)
  delivered : list (string * event)
}.

Definition empty : layer := mk ∅ [] [].

Definition members (group : string) (l : layer) : gset string :=
  default ∅ (groups l !! group).

(** [group_add(group, channel)] *)
Definition group_add (group channel : string) (l : layer) : layer :=
  mk (<[group := {[channel]} ∪ members group l]> (groups l))
     (published l) (delivered l).

(** [group_discard(group, channel)] *)
Definition group_discard (group channel : string) (l : layer) : layer :=
  mk (<[group := members group l ∖ {[channel]}]> (groups l))
     (published l) (delivered l).

(** [group_send(group, event)]: one copy for each channel attached now. *)
Definition group_send (group : string) (ev : event) (l : layer) : layer :=
  mk (groups l)
     (published l ++ [(group, ev)])
     (delivered l ++ map (fun channel => (channel, ev)) (elements (members group l))).

(** The events handed to one channel, oldest first. *)
Definition inbox (channel : string) (l : layer) : list event :=
  map snd (List.filter (fun d => String.eqb (fst d) channel) (delivered l)).

End Channels.

(** ** Group names and time formatting: [apps/common/utils.py] *)

Module Utils.

Definition get_user_channel_group (user_id : Z) : string :=
  String.append "notifications_" (Py.str_int user_id).

Definition get_room_channel_group (room_id : Z) : string :=
  String.append "chat_" (Py.str_int room_id).

Definition day : Z := seconds 86400.

(** [timedelta.days] and [timedelta.seconds] of a difference. *)
Definition days (diff : Z) : Z := diff / day.
Definition secs (diff : Z) : Z := (diff mod day) / seconds 1.

Definition plural (n : Z) : string := if 1 <? n then "s" else EmptyString.

Definition ago (n : Z) (unit : string) : string :=
  String.append (Py.str_int n)
    (String.append " " (String.append unit (String.append (plural n) " ago"))).

(** [get_time_ago]; the argument is [None] for a missing date. *)
Definition get_time_ago (now : Z) (dt : option Z) : string :=
  let diff := match dt with Some t => now - t | None => 0 end in
  if 365 <? days diff then ago (days diff / 365) "year"
  else if 30 <? days diff then ago (days diff / 30) "month"
  else if 0 <? days diff then ago (days diff) "day"
  else if 3600 <? secs diff then ago (secs diff / 3600) "hour"
  else if 60 <? secs diff then ago (secs diff / 60) "minute"
  else "Just now".

(** [get_pagination_info]; [//] rounds towards minus infinity, and
    division by a zero page size raises. *)
Record pagination_info := mk_info {
  total_count : Z;
  total_pages : Z;
  info_page_size : Z;
  current_page : Z;
  has_next : bool;
  has_previous : bool
}.

Definition get_pagination_info (count page_size page : Z)
  : option pagination_info :=
  if page_size =? 0 then None
  else
    let pages := (count + page_size - 1) / page_size in
    Some (mk_info count pages page_size page (page <? pages) (1 <? page)).

End Utils.

(** ** Ordered queries *)

Module Query.

Definition asc {A} (key : A -> Z) (a b : A) : Prop := key a <= key b.
Definition desc {A} (key : A -> Z) (a b : A) : Prop := key b <= key a.

#[global] Instance asc_dec {A} (key : A -> Z) a b : Decision (asc key a b).
Proof. unfold asc. apply _. Defined.

#[global] Instance desc_dec {A} (key : A -> Z) a b : Decision (desc key a b).
Proof. unfold desc. apply _. Defined.

(** [ORDER BY key] or [ORDER BY key DESC].  Rows with equal keys come
    in the order the sort leaves them; nothing below depends on it. *)
Definition order_by {A} (descending : bool) (key : A -> Z) (rows : list A)
  : list A :=
  if descending then merge_sort (desc key) rows
  else merge_sort (asc key) rows.

End Query.

(** ** What the server holds: database, presence store, channel layer *)

Module World.

Record t := mk {
  db : Db.t;
  redis : Redis.db;
  layer : Channels.layer
}.

Definition set_db (d : Db.t) (w : t) : t := mk d (redis w) (layer w).
Definition set_redis (r : Redis.db) (w : t) : t := mk (db w) r (layer w).
Definition set_layer (l : Channels.layer) (w : t) : t := mk (db w) (redis w) l.

End World.

(** ** Accounts: online flag, its signal and the token middleware
       ([apps/accounts/models.py], [signals.py], [middleware.py]) *)

Module Accounts.

(** [scope["user"]] *)
Inductive scope_user :=
| AnonymousUser
| Authenticated (u : User.t).

(** The rooms notified by [user_status_changed]: one [group_send] for
    each active membership of the user, latest joined first. *)
Fixpoint notify_rooms (instance : User.t) (ms : list RoomMembership.t)
         (l : Channels.layer) : Channels.layer :=
  match ms with
  | [] => l
  | m :: rest =>
      let room_group := String.append "chat_" (Py.str_int (RoomMembership.room m)) in
      notify_rooms instance rest
        (Channels.group_send room_group
           (Channels.user_presence_changed
              (User.id instance) (User.get_full_name instance)
              (User.is_online instance) (User.last_seen instance)) l)
  end.

(** [user_status_changed], the [post_save] receiver: it reads the row
    back after it was written and compares it with the instance. *)
Definition user_status_changed (instance : User.t) (created : bool)
           (w : World.t) : World.t :=
  if negb created && negb (User.id instance =? 0) then
    match Db.get_user (User.id instance) (World.db w) with
    | inr old_instance =>
        if negb (Bool.eqb (User.is_online old_instance) (User.is_online instance))
        then
          World.set_layer
            (notify_rooms instance
               (Query.order_by true RoomMembership.joined_at
                  (List.filter
                     (fun m => (RoomMembership.user m =? User.id instance)
                               && RoomMembership.is_active m)
                     (Db.memberships (World.db w))))
               (World.layer w))
            w
        else w
    | inl _ => w
    end
  else w.

(** [save(update_fields=["is_online", "last_seen"])]: the two columns of
    the row with that key are written, then [post_save] fires. *)
Definition save_presence (now : Z) (self : User.t) (w : World.t)
  : User.t * World.t :=
  let self := if User.id self =? 0 then User.set_created_at now self else self in
  let rows :=
    map (fun row =>
           if User.id row =? User.id self
           then User.set_presence (User.is_online self) (User.last_seen self) row
           else row)
        (Db.users (World.db w)) in
  let w := World.set_db (Db.set_users rows (World.db w)) w in
  (self, user_status_changed self false w).

(** [User.set_online] *)
Definition set_online (now : Z) (self : User.t) (w : World.t) : User.t * World.t :=
  save_presence now (User.set_presence true None self) w.

(** [User.set_offline] *)
Definition set_offline (now : Z) (self : User.t) (w : World.t) : User.t * World.t :=
  save_presence now (User.set_presence false (Some now) self) w.

(** The query-string parsing of [JWTAuthMiddleware.__call__]. *)
Definition query_params (query_string : string) : list (string * string) :=
  map (PyStr.split_once "=")
      (List.filter (PyStr.contains_char "=") (PyStr.split "&" query_string)).

Definition query_token (query_string : string) : option string :=
  if String.eqb query_string EmptyString then None
  else PyStr.dict_get "token" (query_params query_string).

Section Middleware.

(** [AccessToken(token_string).payload.get("user_id")]: [None] when
    the token is rejected, [Some None] when it carries no user. *)
Variable access_token_user_id : string -> option (option Z).

(** [get_user_from_token] *)
Definition get_user_from_token (token_string : string) (db : Db.t) : scope_user :=
  match access_token_user_id token_string with
  | Some (Some user_id) =>
      if user_id =? 0 then AnonymousUser
      else match Db.get_user user_id db with
           | inr user => Authenticated user
           | inl _ => AnonymousUser
           end
  | _ => AnonymousUser
  end.

(** [JWTAuthMiddleware.__call__]: the user put in the scope. *)
Definition jwt_auth_middleware (now : Z) (query_string : string) (w : World.t)
  : scope_user * World.t :=
  match query_token query_string with
  | Some token =>
      if String.eqb token EmptyString then (AnonymousUser, w)
      else
        match get_user_from_token token (World.db w) with
        | Authenticated user =>
            let '(user, w) := set_online now user w in
            (Authenticated user, w)
        | AnonymousUser => (AnonymousUser, w)
        end
  | None => (AnonymousUser, w)
  end.

End Middleware.

End Accounts.

(** ** The chat connection: [apps/chat/consumers.py] *)

Module Consumers.

(** The frames written to the client's socket. *)
Inductive frame :=
| f_error (message : string)
| f_success (message : string)
| f_message (data : Channels.serialized_message)
| f_attachment (data : Channels.serialized_message)
| f_user_joined (user_id : Z) (username : string)
| f_user_left (user_id : option Z) (username : string)
| f_typing (event : Channels.event)
| f_user_presence_changed (event : Channels.event)
| f_notification (data : Notification.t)
| f_pong (timestamp : Z).

(** [MessageData] and [AttachmentData] *)
Record MessageData := mk_message_data {
  content : string;
  reply_to : option Z
}.

Record AttachmentData := mk_attachment_data {
  message_id : option Z;
  filename : string;
  file_url : string;
  file_type : string;
  file_size : Z
}.

(** Subscripting a pydantic model, [attachment_data["filename"]]: the
    class defines no item access. *)
Definition getitem {A} (attachment_data : AttachmentData) (key : string)
  : Py.result A :=
  Py.raise Py.TypeError.

(** One connection. *)
Record t := mk {
  channel_name : string;
  room_id : option Z;
  room_group_name : option string;
  user : option Accounts.scope_user;
  accepted : bool;
  (** the code of [close], once called *)
  close_code : option Z;
  (** the frames sent, oldest first *)
  outbox : list frame
}.

(** [__init__] *)
Definition init (channel : string) : t := mk channel None None None false None [].

Definition send (f : frame) (c : t) : t :=
  mk (channel_name c) (room_id c) (room_group_name c) (user c)
     (accepted c) (close_code c) (outbox c ++ [f]).

Definition close (code : Z) (c : t) : t :=
  mk (channel_name c) (room_id c) (room_group_name c) (user c)
     (accepted c) (Some code) (outbox c).

Definition accept (c : t) : t :=
  mk (channel_name c) (room_id c) (room_group_name c) (user c)
     true (close_code c) (outbox c).

Definition send_error (message : string) (c : t) : t := send (f_error message) c.
Definition send_success (message : string) (c : t) : t := send (f_success message) c.

(** [is_room_member] *)
Definition is_room_member (user : User.t) (room_id : Z) (db : Db.t) : bool :=
  existsb (fun room =>
             (ChatRoom.id room =? room_id)
             && existsb (Db.active_membership (User.id user) room_id)
                        (Db.memberships db))
          (Db.rooms db).

(** [ChatConsumer.connect] for the room of the URL and the user of the
    scope. *)
Definition connect (now : Z) (url_room_id : Z)
           (scope_user : option Accounts.scope_user)
           (w : World.t) (c : t) : World.t * t :=
  let group := Utils.get_room_channel_group url_room_id in
  let c := mk (channel_name c) (Some url_room_id) (Some group) scope_user
              (accepted c) (close_code c) (outbox c) in
  match scope_user with
  | None | Some Accounts.AnonymousUser => (w, close 4001 c)
  | Some (Accounts.Authenticated user) =>
      if negb (is_room_member user url_room_id (World.db w)) then
        (w, close 4003 c)
      else
        let w := World.set_layer
                   (Channels.group_add group (channel_name c) (World.layer w)) w in
        let c := accept c in
        match Presence.set_user_online now (User.id user) (Some url_room_id)
                                       (World.redis w) with
        | (inr _, redis) =>
            let w := World.set_redis redis w in
            (World.set_layer
               (Channels.group_send group
                  (Channels.user_joined (User.id user) (User.get_full_name user))
                  (World.layer w)) w,
             c)
        | (inl _, redis) => (World.set_redis redis w, close 4000 c)
        end
  end.

(** [ChatConsumer.disconnect]; anything raised inside is logged and
    swallowed.  An [AnonymousUser] in the scope has an [id] but no
    [get_full_name]: building the event fails, after the group was
    left and before anything else. *)
Definition disconnect (now : Z) (close_code : Z) (w : World.t) (c : t)
  : World.t * t :=
  match room_group_name c, user c with
  | Some group, Some (Accounts.Authenticated u) =>
      let l := Channels.group_discard group (channel_name c) (World.layer w) in
      let l := Channels.group_send group
                 (Channels.user_left (Some (User.id u)) (User.get_full_name u)) l in
      let w := World.set_layer l w in
      (World.set_redis (Presence.set_user_offline now (User.id u) (World.redis w)).2 w, c)
  | Some group, Some Accounts.AnonymousUser =>
      (World.set_layer
         (Channels.group_discard group (channel_name c) (World.layer w)) w, c)
  | Some group, None =>
      let l := Channels.group_discard group (channel_name c) (World.layer w) in
      (World.set_layer
         (Channels.group_send group (Channels.user_left None "Unknown") l) w, c)
  | None, Some (Accounts.Authenticated u) =>
      (World.set_redis (Presence.set_user_offline now (User.id u) (World.redis w)).2 w, c)
  | None, _ => (w, c)
  end.

(** [create_message] *)
Definition create_message (now : Z) (room_id : Z) (sender : User.t)
           (content : string) (reply_to : option Z) (db : Db.t)
  : Message.t * Db.t :=
  let reply_to_obj :=
    match reply_to with
    | Some r =>
        if r =? 0 then None
        else match Db.get_message r db with
             | inr m => Some m
             | inl _ => None
             end
    | None => None
    end in
  Db.create_message now room_id (User.id sender) content "text"
                    (option_map Message.id reply_to_obj) db.

(** [create_attachment_message]: the message row is written, then the
    arguments of [Attachment.objects.create] are evaluated. *)
Definition create_attachment_message (now : Z) (room_id : Z) (sender : User.t)
           (attachment_data : AttachmentData) : Py.state Db.t Message.t :=
  fun db =>
    let '(message, db) :=
      Db.create_message now room_id (User.id sender) EmptyString "attachment" None db in
    match
      (let* filename := getitem (A:=string) attachment_data "filename" in
       let* file_type := getitem (A:=string) attachment_data "file_type" in
       let* size := getitem (A:=Z) attachment_data "file_size" in
       Py.ret (filename, file_type, size))
    with
    | inr (filename, file_type, size) =>
        let '(_, db) :=
          Db.create_attachment now (Message.id message) filename file_type size
                               "application/octet-stream" db in
        (inr message, db)
    | inl e => (inl e, db)
    end.

(** [serialize_message]: [MessageSerializer(message).data] for a message
    whose sender object is at hand. *)
Definition serialize_message (now : Z) (sender : User.t) (message : Message.t)
           (db : Db.t) : Py.result Channels.serialized_message :=
  let attachments :=
    Query.order_by false Attachment.created_at
      (List.filter (fun a => Attachment.message a =? Message.id message)
                   (Db.attachments db)) in
  let* reply_to_content :=
    match Message.reply_to message with
    | Some r =>
        let* replied := Db.get_message r db in
        let* replied_sender := Db.get_user (Message.sender replied) db in
        Py.ret (Some (Message.id replied,
                      PyStr.take 100 (Message.content replied),
                      User.get_full_name replied_sender))
    | None => Py.ret None
    end in
  Py.ret (Channels.mk_serialized
            (Message.id message) (Message.room message) sender
            (Message.content message) (Message.message_type message)
            (Message.is_edited message) (Message.edited_at message)
            (Message.reply_to message) reply_to_content
            attachments
            (match attachments with [] => false | _ => true end)
            (Z.of_nat (length attachments))
            (Utils.get_time_ago now (Some (Message.created_at message)))
            (Message.created_at message) (Message.updated_at message)).

(** The handlers of events sent to the room group: the frame each puts
    on the socket. *)
Definition on_event (ev : Channels.event) : option frame :=
  match ev with
  | Channels.chat_message m => Some (f_message m)
  | Channels.chat_attachment m => Some (f_attachment m)
  | Channels.user_joined user_id username => Some (f_user_joined user_id username)
  | Channels.user_left user_id username => Some (f_user_left user_id username)
  | Channels.user_typing _ _ _ => Some (f_typing ev)
  | Channels.user_presence_changed _ _ _ _ => Some (f_user_presence_changed ev)
  | Channels.notification_message _ => None
  end.

Section Receive.

(** [json.loads]: [None] for [JSONDecodeError]. *)
Variable json_loads : string -> option Json.t.

(** The pydantic models applied to the decoded dict: the text of the
    validation error, or the validated value. *)
Variable JoinMessage : list (string * Json.t) -> string + unit.
Variable LeaveMessage : list (string * Json.t) -> string + unit.
Variable MessageMessage : list (string * Json.t) -> string + MessageData.
Variable AttachmentMessage : list (string * Json.t) -> string + AttachmentData.
Variable TypingMessage : list (string * Json.t) -> string + list (string * Json.t).

(** [handle_join] *)
Definition handle_join (data : list (string * Json.t)) (w : World.t) (c : t)
  : World.t * t :=
  match JoinMessage data with
  | inr _ => (w, send_success "Joined room" c)
  | inl e => (w, send_error (String.append "Invalid join message: " e) c)
  end.

(** [handle_leave] *)
Definition handle_leave (data : list (string * Json.t)) (w : World.t) (c : t)
  : World.t * t :=
  match LeaveMessage data with
  | inr _ => (w, close 1000 (send_success "Leaving room" c))
  | inl e => (w, send_error (String.append "Invalid leave message: " e) c)
  end.

(** [handle_message] *)
Definition handle_message (now : Z) (data : list (string * Json.t))
           (w : World.t) (c : t) : World.t * t :=
  match MessageMessage data with
  | inl e => (w, send_error (String.append "Invalid message: " e) c)
  | inr message =>
      match room_id c, user c, room_group_name c with
      | Some room, Some (Accounts.Authenticated sender), Some group =>
          let '(db_message, db) :=
            create_message now room sender (content message)
                           (reply_to message) (World.db w) in
          let w := World.set_db db w in
          match serialize_message now sender db_message db with
          | inr message_data =>
              (World.set_layer
                 (Channels.group_send group (Channels.chat_message message_data)
                                      (World.layer w)) w,
               c)
          | inl _ => (w, send_error "Failed to send message" c)
          end
      | _, _, _ => (w, send_error "Failed to send message" c)
      end
  end.

(** [handle_attachment] *)
Definition handle_attachment (now : Z) (data : list (string * Json.t))
           (w : World.t) (c : t) : World.t * t :=
  match AttachmentMessage data with
  | inl e => (w, send_error (String.append "Invalid attachment message: " e) c)
  | inr message =>
      match room_id c, user c, room_group_name c with
      | Some room, Some (Accounts.Authenticated sender), Some group =>
          match create_attachment_message now room sender message (World.db w) with
          | (inr db_message, db) =>
              let w := World.set_db db w in
              match serialize_message now sender db_message db with
              | inr message_data =>
                  (World.set_layer
                     (Channels.group_send group
                        (Channels.chat_attachment message_data)
                        (World.layer w)) w,
                   c)
              | inl _ => (w, send_error "Failed to send attachment" c)
              end
          | (inl _, db) =>
              (World.set_db db w, send_error "Failed to send attachment" c)
          end
      | _, _, _ => (w, send_error "Failed to send attachment" c)
      end
  end.

(** [handle_typing]; what it does not catch reaches [receive]. *)
Definition handle_typing (data : list (string * Json.t)) (w : World.t) (c : t)
  : World.t * t :=
  match TypingMessage data with
  | inl e => (w, send_error (String.append "Invalid typing message: " e) c)
  | inr typing =>
      match user c, room_group_name c with
      | Some (Accounts.Authenticated u), Some group =>
          let is_typing :=
            match PyStr.dict_get "is_typing" typing with
            | Some v => v
            | None => Json.Bool true
            end in
          (World.set_layer
             (Channels.group_send group
                (Channels.user_typing (User.id u) (User.get_full_name u) is_typing)
                (World.layer w)) w,
           c)
      | _, _ => (w, send_error "Internal server error" c)
      end
  end.

(** [ChatConsumer.receive] *)
Definition receive (now : Z) (text_data : string) (w : World.t) (c : t)
  : World.t * t :=
  match json_loads text_data with
  | None => (w, send_error "Invalid JSON" c)
  | Some (Json.Obj data) =>
      let message_type := Json.get "type" data in
      if negb (Json.truthy message_type) then
        (w, send_error "Message type is required" c)
      else if negb (Json.hashable message_type) then
        (* [handlers.get] on an unhashable key *)
        (w, send_error "Internal server error" c)
      else
        match message_type with
        | Json.Str tag =>
            if String.eqb tag "join" then handle_join data w c
            else if String.eqb tag "leave" then handle_leave data w c
            else if String.eqb tag "message" then handle_message now data w c
            else if String.eqb tag "attachment" then handle_attachment now data w c
            else if String.eqb tag "typing" then handle_typing data w c
            else (w, send_error (String.append "Unknown message type: " tag) c)
        | _ =>
            (w, send_error (String.append "Unknown message type: "
                                          (Json.format message_type)) c)
        end
  | Some _ =>
      (* [data.get] on a value that is not a dict *)
      (w, send_error "Internal server error" c)
  end.

(** The frames of a connection, received one after the other, each
    at its time. *)
Fixpoint receive_each (frames : list (Z * string)) (w : World.t) (c : t)
  : World.t * t :=
  match frames with
  | [] => (w, c)
  | (now, text_data) :: rest =>
      let '(w, c) := receive now text_data w c in
      receive_each rest w c
  end.

(** A decoded frame routed to one of the five handlers. *)
Definition known_type (j : Json.t) : bool :=
  match j with
  | Json.Obj data =>
      match Json.get "type" data with
      | Json.Str s =>
          bool_decide (s ∈ ["join"; "leave"; "message"; "attachment"; "typing"])
      | _ => false
      end
  | _ => false
  end.

End Receive.

(** [NotificationConsumer.connect]: the consumer keeps its group name
    in [room_group_name]. *)
Definition notification_connect (scope_user : option Accounts.scope_user)
           (w : World.t) (c : t) : World.t * t :=
  let c := mk (channel_name c) (room_id c) (room_group_name c) scope_user
              (accepted c) (close_code c) (outbox c) in
  match scope_user with
  | None | Some Accounts.AnonymousUser => (w, close 4001 c)
  | Some (Accounts.Authenticated u) =>
      let group := Utils.get_user_channel_group (User.id u) in
      let c := mk (channel_name c) (room_id c) (Some group) scope_user
                  (accepted c) (close_code c) (outbox c) in
      (World.set_layer (Channels.group_add group (channel_name c) (World.layer w)) w,
       accept c)
  end.

(** [NotificationConsumer.disconnect] *)
Definition notification_disconnect (w : World.t) (c : t) : World.t * t :=
  match room_group_name c with
  | Some group =>
      (World.set_layer
         (Channels.group_discard group (channel_name c) (World.layer w)) w, c)
  | None => (w, c)
  end.

(** [NotificationConsumer.receive]: only [JSONDecodeError] is caught;
    [None] is an exception that leaves the method. *)
Definition notification_receive (json_loads : string -> option Json.t)
           (now : Z) (text_data : string) (c : t) : option t :=
  match json_loads text_data with
  | None => Some c
  | Some (Json.Obj data) =>
      match Json.get "type" data with
      | Json.Str tag =>
          if String.eqb tag "ping" then Some (send (f_pong now) c) else Some c
      | _ => Some c
      end
  | Some _ => None
  end.

(** [NotificationConsumer.notification_message] *)
Definition notification_on_event (ev : Channels.event) : option frame :=
  match ev with
  | Channels.notification_message n => Some (f_notification n)
  | _ => None
  end.

End Consumers.

(** ** Notification tasks: [apps/notifications/tasks.py] *)

Module NotificationTasks.

(** The optional keyword arguments of the two senders. *)
Record related := mk_related {
  related_room_id : option Z;
  related_message_id : option Z;
  related_user_id : option Z;
  extra_data : option string
}.

(** A row as [Notification.objects.create] and [bulk_create] write it. *)
Definition new_row (now : Z) (new_id recipient_id : Z)
           (notification_type title message : string) (kwargs : related)
  : Notification.t :=
  Notification.mk new_id now now recipient_id notification_type title message
                  false None
                  (related_room_id kwargs) (related_message_id kwargs)
                  (related_user_id kwargs) (extra_data kwargs).

(** [send_notification_async] *)
Definition send_notification_async (now : Z) (recipient_id : Z)
           (notification_type title message : string) (kwargs : related)
           (w : World.t) : World.t :=
  let db := World.db w in
  let new_id := Db.notification_seq db + 1 in
  let notification := new_row now new_id recipient_id notification_type
                              title message kwargs in
  let db := Db.set_notifications (Db.notifications db ++ [notification]) new_id db in
  World.set_layer
    (Channels.group_send (Utils.get_user_channel_group recipient_id)
                         (Channels.notification_message notification)
                         (World.layer w))
    (World.set_db db w).

(** The rows of [bulk_create], in the order of the recipients. *)
Fixpoint bulk_rows (now : Z) (seq : Z) (recipient_ids : list Z)
         (notification_type title message : string) (kwargs : related)
  : list Notification.t :=
  match recipient_ids with
  | [] => []
  | recipient_id :: rest =>
      new_row now (seq + 1) recipient_id notification_type title message kwargs
      :: bulk_rows now (seq + 1) rest notification_type title message kwargs
  end.

Fixpoint publish_each (ns : list Notification.t) (l : Channels.layer)
  : Channels.layer :=
  match ns with
  | [] => l
  | n :: rest =>
      publish_each rest
        (Channels.group_send
           (Utils.get_user_channel_group (Notification.recipient n))
           (Channels.notification_message n) l)
  end.

(** [send_bulk_notifications] *)
Definition send_bulk_notifications (now : Z) (recipient_ids : list Z)
           (notification_type title message : string) (kwargs : related)
           (w : World.t) : World.t :=
  let db := World.db w in
  let created := bulk_rows now (Db.notification_seq db) recipient_ids
                           notification_type title message kwargs in
  let db := Db.set_notifications
              (Db.notifications db ++ created)
              (Db.notification_seq db + Z.of_nat (length created)) db in
  World.set_layer (publish_each created (World.layer w)) (World.set_db db w).

(** [cleanup_old_notifications]: the rows kept and [deleted_count]. *)
Definition cleanup_old_notifications (now : Z) (tbl : list Notification.t)
  : list Notification.t * Z :=
  let cutoff_date := now - 90 * Utils.day in
  let old n := Notification.is_read n && (Notification.created_at n <? cutoff_date) in
  (List.filter (fun n => negb (old n)) tbl,
   Z.of_nat (length (List.filter old tbl))).

End NotificationTasks.

(** ** REST views on rooms and messages: [apps/chat/views.py],
       [apps/chat/serializers.py] *)

Module Views.

(** The API exceptions of [apps/common/exceptions.py], and the two
    raised below the views. *)
Inductive api_error :=
| NotFound (detail : string)
| PermissionDenied (detail : string)
| ValidationError (detail : string)
| OtherOrdering.

Definition response (A : Type) : Type := api_error + A.

(** [StandardResultsSetPagination] *)
Definition page_size : Z := 50.
Definition max_page_size : Z := 100.

(** [get_page_size]: the [page_size] parameter when it is a positive
    integer, cut at [max_page_size]. *)
Definition get_page_size (param : option string) : Z :=
  match param with
  | Some text =>
      match Py.int text with
      | inr n => if n <=? 0 then page_size else Z.min n max_page_size
      | inl _ => page_size
      end
  | None => page_size
  end.

(** [Paginator.num_pages], an empty first page being allowed. *)
Definition num_pages (count per_page : Z) : Z :=
  (Z.max 1 count + per_page - 1) / per_page.

(** [l[bottom:top]] *)
Definition slice {A} (bottom top : Z) (l : list A) : list A :=
  firstn (Z.to_nat (top - bottom)) (skipn (Z.to_nat bottom) l).

(** [paginate_queryset]: the rows of the requested page. *)
Definition paginate_queryset {A} (page page_size_param : option string)
           (rows : list A) : response (list A) :=
  let per_page := get_page_size page_size_param in
  let count := Z.of_nat (length rows) in
  let pages := num_pages count per_page in
  let number :=
    match page with
    | None => inr 1
    | Some text =>
        if String.eqb text EmptyString then inr 1
        else if String.eqb text "last" then inr pages
        else Py.int text
    end in
  match number with
  | inl _ => inl (NotFound "Invalid page.")
  | inr number =>
      if (number <? 1) || (pages <? number) then inl (NotFound "Invalid page.")
      else
        let bottom := (number - 1) * per_page in
        let top := Z.min (bottom + per_page) count in
        inr (slice bottom top rows)
  end.

(** The integer columns of [Message] one can order by. *)
Definition message_column (name : string) : option (Message.t -> Z) :=
  if String.eqb name "id" || String.eqb name "pk" then Some Message.id
  else if String.eqb name "created_at" then Some Message.created_at
  else if String.eqb name "updated_at" then Some Message.updated_at
  else if String.eqb name "room_id" then Some Message.room
  else if String.eqb name "sender_id" then Some Message.sender
  else None.

(** [messages.order_by(ordering)]: an optional minus sign, then the
    column.  [OtherOrdering] stands for every other argument, a column
    that is not an integer or a name the database rejects. *)
Definition order_by (ordering : string) (rows : list Message.t)
  : response (list Message.t) :=
  let '(descending, name) :=
    match ordering with
    | String c name => if Ascii.eqb c "-" then (true, name) else (false, ordering)
    | EmptyString => (false, ordering)
    end in
  match message_column name with
  | Some key => inr (Query.order_by descending key rows)
  | None => inl OtherOrdering
  end.

(** A membership row of the user in the room, active or not: what
    [participants=user] asks for. *)
Definition participant (user room_id : Z) (db : Db.t) : bool :=
  existsb (fun m => (RoomMembership.room m =? room_id)
                    && (RoomMembership.user m =? user))
          (Db.memberships db).

(** [ChatRoomViewSet.get_object]: an active room the user takes part in. *)
Definition get_room (user pk : Z) (db : Db.t) : response ChatRoom.t :=
  match List.find (fun room => (ChatRoom.id room =? pk)
                               && ChatRoom.is_active room
                               && participant user pk db)
                  (Db.rooms db) with
  | Some room => inr room
  | None => inl (NotFound "Not found.")
  end.

(** The query parameters of [ChatRoomViewSet.messages]. *)
Record messages_params := mk_params {
  p_search : option string;
  p_ordering : option string;
  p_page : option string;
  p_page_size : option string
}.

Section Messages.

(** The [icontains] search over content and sender, as the database
    evaluates it. *)
Variable search_matches : string -> Db.t -> Message.t -> bool.

(** [ChatRoomViewSet.messages] *)
Definition messages (user pk : Z) (params : messages_params) (db : Db.t)
  : response (list Message.t) :=
  match get_room user pk db with
  | inl e => inl e
  | inr room =>
      if negb (participant user (ChatRoom.id room) db) then
        inl (PermissionDenied "You are not a member of this room.")
      else
        let rows := List.filter (fun m => Message.room m =? ChatRoom.id room)
                                (Db.messages db) in
        let rows :=
          match p_search params with
          | Some search =>
              if String.eqb search EmptyString then rows
              else List.filter (search_matches search db) rows
          | None => rows
          end in
        let ordering := default "-created_at" (p_ordering params) in
        match order_by ordering rows with
        | inl e => inl e
        | inr rows => paginate_queryset (p_page params) (p_page_size params) rows
        end
  end.

End Messages.

(** [MessageViewSet.get_queryset]: the messages of active rooms in which
    the user holds an active membership. *)
Definition visible (user : Z) (db : Db.t) (m : Message.t) : bool :=
  existsb (fun room =>
             (ChatRoom.id room =? Message.room m)
             && ChatRoom.is_active room
             && existsb (Db.active_membership user (ChatRoom.id room))
                        (Db.memberships db))
          (Db.rooms db).

(** [MessageViewSet.get_object] *)
Definition get_message (user pk : Z) (db : Db.t) : response Message.t :=
  match List.find (fun m => (Message.id m =? pk) && visible user db m)
                  (Db.messages db) with
  | Some m => inr m
  | None => inl (NotFound "Not found.")
  end.

Definition edited (now : Z) (new_content : option string) (m : Message.t)
  : Message.t :=
  Message.mk (Message.id m) (Message.created_at m) now
             (Message.room m) (Message.sender m)
             (default (Message.content m) new_content)
             (Message.message_type m) true (Some now) (Message.reply_to m).

Section Edit.

(** The serializer's validation of a submitted [content]: [None] when
    it is rejected, else the value kept. *)
Variable content_field : string -> option string.

(** [MessageViewSet.edit] for a request body with at most [content]:
    the response and the database after it. *)
Definition edit (now : Z) (user pk : Z) (new_content : option string)
           (db : Db.t) : response Message.t * Db.t :=
  match get_message user pk db with
  | inl e => (inl e, db)
  | inr message =>
      if negb (Message.sender message =? user) then
        (inl (PermissionDenied "You can only edit your own messages."), db)
      else if minutes 15 <? now - Message.created_at message then
        (inl (PermissionDenied "Messages can only be edited within 15 minutes."), db)
      else
        match
          match new_content with
          | Some text => option_map Some (content_field text)
          | None => Some None
          end
        with
        | None => (inl (ValidationError "content"), db)
        | Some validated =>
            let message' := edited now validated message in
            (inr message',
             Db.set_messages
               (map (fun row => if Message.id row =? Message.id message
                                then message' else row)
                    (Db.messages db))
               (Db.message_seq db) db)
        end
  end.

End Edit.

(** The room roles that may delete the messages of others. *)
Definition moderator (user room_id : Z) (db : Db.t) : bool :=
  existsb (fun m => (RoomMembership.user m =? user)
                    && (RoomMembership.room m =? room_id)
                    && (String.eqb (RoomMembership.role m) "admin"
                        || String.eqb (RoomMembership.role m) "owner")
                    && RoomMembership.is_active m)
          (Db.memberships db).

(** [message.delete()]: the row goes, with its attachments and the
    notifications about it; replies to it lose their reference. *)
Definition delete_message (message_id : Z) (db : Db.t) : Db.t :=
  Db.mk (Db.users db) (Db.rooms db) (Db.memberships db)
        (map (fun m =>
                if bool_decide (Message.reply_to m = Some message_id)
                then Message.mk (Message.id m) (Message.created_at m)
                                (Message.updated_at m) (Message.room m)
                                (Message.sender m) (Message.content m)
                                (Message.message_type m) (Message.is_edited m)
                                (Message.edited_at m) None
                else m)
             (List.filter (fun m => negb (Message.id m =? message_id))
                          (Db.messages db)))
        (List.filter (fun a => negb (Attachment.message a =? message_id))
                     (Db.attachments db))
        (List.filter (fun n => negb (bool_decide
                                       (Notification.related_message n = Some message_id)))
                     (Db.notifications db))
        (Db.membership_seq db) (Db.message_seq db) (Db.attachment_seq db)
        (Db.notification_seq db).

(** [MessageViewSet.soft_delete] *)
Definition soft_delete (user pk : Z) (db : Db.t) : response unit * Db.t :=
  match get_message user pk db with
  | inl e => (inl e, db)
  | inr message =>
      if negb (Message.sender message =? user)
         && negb (moderator user (Message.room message) db)
      then (inl (PermissionDenied "You can only delete your own messages."), db)
      else (inr tt, delete_message (Message.id message) db)
  end.

Definition set_active (now : Z) (active : bool) (m : RoomMembership.t)
  : RoomMembership.t :=
  RoomMembership.mk (RoomMembership.id m) (RoomMembership.created_at m) now
                    (RoomMembership.user m) (RoomMembership.room m)
                    (RoomMembership.role m) (RoomMembership.joined_at m) active.

Definition save_membership (m' : RoomMembership.t) (db : Db.t) : Db.t :=
  Db.set_memberships
    (map (fun row => if RoomMembership.id row =? RoomMembership.id m'
                     then m' else row)
         (Db.memberships db))
    (Db.membership_seq db) db.

(** [ChatRoomViewSet.join]; the room is looked up among the rooms the
    user already takes part in. *)
Definition join (now : Z) (user pk : Z) (db : Db.t)
  : response RoomMembership.t * Db.t :=
  match get_room user pk db with
  | inl e => (inl e, db)
  | inr room =>
      match List.find (fun m => (RoomMembership.user m =? user)
                                && (RoomMembership.room m =? ChatRoom.id room))
                      (Db.memberships db) with
      | Some membership =>
          if negb (RoomMembership.is_active membership) then
            let membership := set_active now true membership in
            (inr membership, save_membership membership db)
          else (inr membership, db)
      | None =>
          let new_id := Db.membership_seq db + 1 in
          let membership :=
            RoomMembership.mk new_id now now user (ChatRoom.id room)
                              "member" now true in
          (inr membership,
           Db.set_memberships (Db.memberships db ++ [membership]) new_id db)
      end
  end.

(** [ChatRoomViewSet.leave] *)
Definition leave (now : Z) (user pk : Z) (db : Db.t) : response unit * Db.t :=
  match get_room user pk db with
  | inl e => (inl e, db)
  | inr room =>
      match List.find (Db.active_membership user (ChatRoom.id room))
                      (Db.memberships db) with
      | Some membership =>
          (inr tt, save_membership (set_active now false membership) db)
      | None => (inl (NotFound "You are not a member of this room."), db)
      end
  end.

(** [MessageCreateSerializer.validate] on the declared type (absent:
    text) and content (absent: empty). *)
Definition validate_create (message_type content : option string)
  : response unit :=
  if String.eqb (default "text" message_type) "text"
     && String.eqb (Py.strip (default EmptyString content)) EmptyString
  then inl (ValidationError "Text messages must have content.")
  else inr tt.

End Views.

(** ** Vocabulary of the statements *)

Module Spec.

(** The user holds an active membership of the room. *)
Definition active_member (user room_id : Z) (db : Db.t) : Prop :=
  exists m, m ∈ Db.memberships db
            /\ RoomMembership.user m = user
            /\ RoomMembership.room m = room_id
            /\ RoomMembership.is_active m = true.

(** A connection that went through a successful [connect]. *)
Definition joined (c : Consumers.t) (room_id : Z) (u : User.t) : Prop :=
  Consumers.room_id c = Some room_id
  /\ Consumers.user c = Some (Accounts.Authenticated u)
  /\ Consumers.room_group_name c = Some (Utils.get_room_channel_group room_id).

(** The connection is open: accepted and not closed. *)
Definition open (c : Consumers.t) : Prop :=
  Consumers.accepted c = true /\ Consumers.close_code c = None.

(** [unique_together = ["user", "room"]], and the primary key. *)
Definition unique_membership (db : Db.t) : Prop :=
  forall m1 m2,
    m1 ∈ Db.memberships db -> m2 ∈ Db.memberships db ->
    (RoomMembership.user m1 = RoomMembership.user m2
     /\ RoomMembership.room m1 = RoomMembership.room m2)
    \/ RoomMembership.id m1 = RoomMembership.id m2 ->
    m1 = m2.

(** The room has a row in the table. *)
Definition room_exists (room_id : Z) (db : Db.t) : Prop :=
  exists room, room ∈ Db.rooms db /\ ChatRoom.id room = room_id.


(** What a frame can change. *)
Definition frame_effect (w w' : World.t) (c c' : Consumers.t) : Prop :=
  World.redis w' = World.redis w
  /\ Channels.groups (World.layer w') = Channels.groups (World.layer w)
  /\ Db.users (World.db w') = Db.users (World.db w)
  /\ Db.rooms (World.db w') = Db.rooms (World.db w)
  /\ Db.memberships (World.db w') = Db.memberships (World.db w)
  /\ Consumers.channel_name c' = Consumers.channel_name c
  /\ Consumers.room_id c' = Consumers.room_id c
  /\ Consumers.room_group_name c' = Consumers.room_group_name c
  /\ Consumers.user c' = Consumers.user c
  /\ Consumers.accepted c' = Consumers.accepted c
  /\ (Consumers.close_code c' = Consumers.close_code c \/ Consumers.close_code c' = Some 1000)
  /\ (Consumers.outbox c' = Consumers.outbox c \/ exists f, Consumers.outbox c' = (Consumers.outbox c ++ [f])%list).

(** The units [get_time_ago] counts in. *)
Definition time_units : list string := ["year"; "month"; "day"; "hour"; "minute"].

(** The history order of the specification: creation time, then
    identifier. *)
Definition history_le (a b : Message.t) : Prop :=
  Message.created_at a < Message.created_at b
  \/ (Message.created_at a = Message.created_at b /\ Message.id a <= Message.id b).

End Spec.

(** ** Pydantic models that accept the declared JSON types as they are *)

Module Pydantic.

Import Json.

Definition type_field (data : list (string * Json.t)) : string + unit :=
  match PyStr.dict_get "type" data with
  | None | Some (Str _) => inr tt
  | Some _ => inl "type: Input should be a valid string"
  end.

Definition JoinMessage (data : list (string * Json.t)) : string + unit :=
  type_field data.

Definition LeaveMessage (data : list (string * Json.t)) : string + unit :=
  type_field data.

Definition MessageMessage (data : list (string * Json.t))
  : string + Consumers.MessageData :=
  match type_field data, PyStr.dict_get "data" data with
  | inl e, _ => inl e
  | inr _, Some (Obj d) =>
      match PyStr.dict_get "content" d, PyStr.dict_get "reply_to" d with
      | Some (Str content), (None | Some Null) =>
          inr (Consumers.mk_message_data content None)
      | Some (Str content), Some (Int r) =>
          inr (Consumers.mk_message_data content (Some r))
      | Some (Str _), Some _ => inl "data.reply_to: Input should be a valid integer"
      | Some _, _ => inl "data.content: Input should be a valid string"
      | None, _ => inl "data.content: Field required"
      end
  | inr _, Some _ => inl "data: Input should be a valid dictionary"
  | inr _, None => inl "data: Field required"
  end.

Definition AttachmentMessage (data : list (string * Json.t))
  : string + Consumers.AttachmentData :=
  match type_field data, PyStr.dict_get "data" data with
  | inl e, _ => inl e
  | inr _, Some (Obj d) =>
      match PyStr.dict_get "filename" d, PyStr.dict_get "file_url" d,
            PyStr.dict_get "file_type" d, PyStr.dict_get "file_size" d with
      | Some (Str filename), Some (Str file_url), Some (Str file_type), Some (Int size) =>
          match PyStr.dict_get "message_id" d with
          | None | Some Null =>
              inr (Consumers.mk_attachment_data None filename file_url file_type size)
          | Some (Int m) =>
              inr (Consumers.mk_attachment_data (Some m) filename file_url file_type size)
          | Some _ => inl "data.message_id: Input should be a valid integer"
          end
      | _, _, _, _ => inl "data: invalid attachment"
      end
  | inr _, Some _ => inl "data: Input should be a valid dictionary"
  | inr _, None => inl "data: Field required"
  end.

Definition TypingMessage (data : list (string * Json.t))
  : string + list (string * Json.t) :=
  match type_field data, PyStr.dict_get "data" data with
  | inl e, _ => inl e
  | inr _, Some (Obj d) => inr d
  | inr _, None => inr []
  | inr _, Some _ => inl "data: Input should be a valid dictionary"
  end.

End Pydantic.

(** ** Sample data *)

Module Sample.

Definition alice : User.t := User.mk 1 0 0 "alice@example.org" "Alice" "Liddell" false None.
Definition bob : User.t := User.mk 2 0 0 "bob@example.org" "Bob" EmptyString false None.
Definition carol : User.t := User.mk 3 0 0 "carol@example.org" EmptyString EmptyString false None.

Definition lounge : ChatRoom.t := ChatRoom.mk 7 0 0 "Lounge" "group" None true 1.
Definition attic : ChatRoom.t := ChatRoom.mk 8 0 0 "Attic" "group" None false 1.

Definition memberships : list RoomMembership.t :=
  [ RoomMembership.mk 1 0 0 1 7 "owner" 0 true;
    RoomMembership.mk 2 0 0 2 7 "member" 0 true;
    RoomMembership.mk 3 0 0 3 7 "member" 0 false;
    RoomMembership.mk 4 0 0 1 8 "owner" 0 true ].

Definition first : Message.t := Message.mk 1 10 10 7 1 "first" "text" false None None.
Definition second : Message.t := Message.mk 2 20 20 7 2 "second" "text" false None None.
Definition stale : Message.t := Message.mk 3 30 30 8 1 "in the attic" "text" false None None.

Definition notice : Notification.t :=
  Notification.mk 1 5 5 1 "message" "Hello" "A new message" false None
                  (Some 7) (Some 1) (Some 2) None.

Definition db : Db.t :=
  Db.mk [alice; bob; carol] [lounge; attic] memberships [first; second; stale] []
        [notice] 4 3 0 1.

Definition world : World.t := World.mk db ∅ Channels.empty.

(** The same, while Alice's channel is attached to the lounge and Carol
    is online in another room. *)
Definition busy_world : World.t :=
  World.mk db (Presence.set_user_online 50 3 (Some 8) ∅).2
           (Channels.group_add (Utils.get_room_channel_group 7) "specific.alice"
                               Channels.empty).

(** Alice's connection to the lounge, after [connect]. *)
Definition connection : Consumers.t :=
  Consumers.mk "specific.alice" (Some 7) (Some (Utils.get_room_channel_group 7))
               (Some (Accounts.Authenticated alice)) true None [].

(** A decoder that returns one fixed value, and one that rejects. *)
Definition loads_as (j : Json.t) (text : string) : option Json.t := Some j.
Definition loads_none (text : string) : option Json.t := None.

Definition blank_message : list (string * Json.t) :=
  [("type", Json.Str "message");
   ("data", Json.Obj [("content", Json.Str "   ")])].

Definition reply_message : list (string * Json.t) :=
  [("type", Json.Str "message");
   ("data", Json.Obj [("content", Json.Str "hi"); ("reply_to", Json.Int 99)])].

Definition picture : list (string * Json.t) :=
  [("type", Json.Str "attachment");
   ("data", Json.Obj [("filename", Json.Str "cat.png");
                      ("file_url", Json.Str "https://example.org/cat.png");
                      ("file_type", Json.Str "image");
                      ("file_size", Json.Int 2048);
                      ("message_id", Json.Int 1)])].

(** A token validator that knows two tokens. *)
Definition access_token (token : string) : option (option Z) :=
  if String.eqb token "alice-token" then Some (Some 1)
  else if String.eqb token "carol-token" then Some (Some 3)
  else None.

(** A content validator that trims and accepts. *)
Definition content_field (text : string) : option string := Some (Py.strip text).

(** A search that matches on nothing. *)
Definition no_search (search : string) (db : Db.t) (m : Message.t) : bool := false.

End Sample.

(** * Properties *)

(** ** Python strings and integers *)

Module PyFacts.
Import Py PyStr.

Lemma digit_char c :
  NilEmpty.uint_of_string (String c EmptyString) <> None ->
  is_space c = false /\ Ascii.eqb c "_" = false
  /\ Ascii.eqb c "-" = false /\ Ascii.eqb c "+" = false.
Proof.
  destruct c as [[|] [|] [|] [|] [|] [|] [|] [|]]; cbn; intros H;
    try (exfalso; apply H; reflexivity); repeat split; reflexivity.
Qed.

Lemma all_digits_cons c s :
  all_digits (String c s) = true ->
  (is_space c = false /\ Ascii.eqb c "_" = false
   /\ Ascii.eqb c "-" = false /\ Ascii.eqb c "+" = false)
  /\ all_digits s = true.
Proof.
  cbn [all_digits]. intros [Hc Hs]%andb_true_iff. split; [|exact Hs].
  apply digit_char. intros E. rewrite E in Hc. discriminate.
Qed.

Lemma string_of_uint_all_digits d :
  all_digits (NilEmpty.string_of_uint d) = true.
Proof. induction d; cbn; auto. Qed.

Lemma rstrip_all_digits s : all_digits s = true -> rstrip s = s.
Proof.
  induction s as [|c s IH]; [reflexivity|].
  intros [(Hsp & _) Hs]%all_digits_cons.
  cbn [rstrip]. rewrite (IH Hs), Hsp. destruct s; reflexivity.
Qed.

Lemma drop_underscores_all_digits s :
  all_digits s = true -> drop_underscores true s = Some s.
Proof.
  induction s as [|c s IH]; [reflexivity|].
  intros [(_ & Hu & _) Hs]%all_digits_cons.
  cbn [drop_underscores]. rewrite Hu, (IH Hs). reflexivity.
Qed.

Lemma digits_string_of_uint d :
  d <> Nil -> digits (NilEmpty.string_of_uint d) = Some d.
Proof.
  intros Hd. unfold digits.
  pose proof (string_of_uint_all_digits d) as Hall.
  destruct (NilEmpty.string_of_uint d) as [|c s] eqn:E.
  - destruct d; cbn in E; congruence.
  - apply all_digits_cons in Hall as [(_ & Hu & _) Hs].
    cbn [drop_underscores]. rewrite Hu, (drop_underscores_all_digits s Hs).
    cbn [option_map]. rewrite <- E. apply NilEmpty.usu.
Qed.

Lemma int_of_printed_uint d :
  d <> Nil ->
  int (NilEmpty.string_of_uint d) = ret (Z.of_int (Decimal.Pos d))
  /\ int (String "-" (NilEmpty.string_of_uint d)) = ret (Z.of_int (Decimal.Neg d)).
Proof.
  intros Hd.
  pose proof (string_of_uint_all_digits d) as Hall.
  pose proof (digits_string_of_uint d Hd) as Hdig.
  pose proof (rstrip_all_digits _ Hall) as Hr.
  destruct (NilEmpty.string_of_uint d) as [|c s] eqn:E.
  { destruct d; cbn in E; congruence. }
  pose proof Hall as [(Hsp & _ & Hm & Hp) _]%all_digits_cons.
  split; unfold int, strip.
  - cbn [lstrip]. rewrite Hsp, Hr, Hm, Hp, Hdig. reflexivity.
  - cbn [lstrip]. replace (is_space "-") with false by reflexivity.
    cbn [rstrip]. cbn [rstrip] in Hr. rewrite Hr.
    replace (Ascii.eqb "-" "-") with true by reflexivity.
    rewrite Hdig. reflexivity.
Qed.

(** Parsing a printed integer gives the integer back. *)
Lemma int_str_int z : int (str_int z) = ret z.
Proof.
  unfold str_int. destruct z as [|p|p].
  - reflexivity.
  - pose proof (Unsigned.to_uint_nonnil p) as Hn.
    destruct (int_of_printed_uint _ Hn) as [H _].
    pose proof (DecimalZ.of_to (Z.pos p)) as Hz.
    cbn [Z.to_int NilZero.string_of_int]. unfold NilZero.string_of_uint.
    cbn [Z.to_int] in Hz. rewrite Hz in H. rewrite <- H.
    destruct (Pos.to_uint p); try reflexivity. congruence.
  - pose proof (Unsigned.to_uint_nonnil p) as Hn.
    destruct (int_of_printed_uint _ Hn) as [_ H].
    pose proof (DecimalZ.of_to (Z.neg p)) as Hz.
    cbn [Z.to_int NilZero.string_of_int]. unfold NilZero.string_of_uint.
    cbn [Z.to_int] in Hz. rewrite Hz in H. rewrite <- H.
    destruct (Pos.to_uint p); try reflexivity. congruence.
Qed.

Lemma str_int_inj a b : str_int a = str_int b -> a = b.
Proof.
  intros E. pose proof (int_str_int a) as Ha. rewrite E, int_str_int in Ha.
  unfold ret in Ha. congruence.
Qed.

Lemma startswith_append p s : startswith p (String.append p s) = true.
Proof.
  induction p as [|c p IH]; [reflexivity|].
  simpl. rewrite (Ascii.eqb_refl c). exact IH.
Qed.
End PyFacts.

Module PresenceFacts.
Import Py PyFacts Redis Presence.

Lemma room_key_prefix r : startswith room_prefix (get_room_presence_key r) = true.
Proof. apply startswith_append. Qed.

Lemma user_key_prefix u : startswith room_prefix (get_user_presence_key u) = false.
Proof. reflexivity. Qed.

Lemma user_key_ne_room_key u r : get_user_presence_key u <> get_room_presence_key r.
Proof.
  intros E. pose proof (room_key_prefix r) as H.
  rewrite <- E, user_key_prefix in H. discriminate.
Qed.

Lemma glob_star_end s :
  (fix star (s : string) : bool :=
     glob EmptyString s
     || match s with
        | EmptyString => false
        | String _ s' => star s'
        end) s = true.
Proof. induction s as [|c s IH]; [reflexivity|]. exact IH. Qed.

Lemma glob_literal c p s :
  Ascii.eqb c "*" = false ->
  glob (String c p) s
  = match s with
    | String a s' => Ascii.eqb c a && glob p s'
    | EmptyString => false
    end.
Proof.
  intros H.
  change (glob (String c p)) with
    (if Ascii.eqb c "*" then
       fix star (s : string) : bool :=
         glob p s || match s with EmptyString => false | String _ s' => star s' end
     else fun s => match s with
                   | String a s' => Ascii.eqb c a && glob p s'
                   | EmptyString => false
                   end).
  rewrite H. reflexivity.
Qed.

Lemma glob_room_pattern key :
  glob "presence:room:*" key = startswith room_prefix key.
Proof.
  unfold room_prefix.
  do 14 (rewrite glob_literal by reflexivity;
         destruct key as [|? key]; [reflexivity|];
         cbn [startswith];
         match goal with
         | |- context [Ascii.eqb ?a ?b && _] =>
             destruct (Ascii.eqb a b); cbn [andb]; [|reflexivity]
         end).
  apply glob_star_end.
Qed.

Lemma srem_entry_idem now m oe :
  srem_entry now m (srem_entry now m oe) = srem_entry now m oe.
Proof.
  destruct oe as [[[v|s] ex]|]; try reflexivity.
  assert (live now (mk_entry (VSet (s ∖ {[m]})) ex)
          = live now (mk_entry (VSet s) ex)) as Hlive by reflexivity.
  cbn [srem_entry].
  destruct (live now (mk_entry (VSet s) ex)) eqn:Hl.
  - case_bool_decide as He; [reflexivity|].
    cbn [srem_entry]. rewrite Hlive.
    replace (s ∖ {[m]} ∖ {[m]}) with (s ∖ {[m]})
      by (apply set_eq; intros x; rewrite !elem_of_difference; tauto).
    rewrite bool_decide_false by exact He. reflexivity.
  - cbn [srem_entry]. rewrite Hl. reflexivity.
Qed.

Lemma srem_entry_holds_set now m oe : holds_set oe -> holds_set (srem_entry now m oe).
Proof.
  intros H e. destruct oe as [[[v|s] ex]|]; cbn [srem_entry]; try apply H.
  destruct (live now _); [|apply H].
  case_bool_decide; intros [= <-]. eexists; reflexivity.
Qed.

Lemma srem_lookup now key m (d : db) :
  holds_set (d !! key) ->
  exists n d', srem now key m d = (inr n, d')
    /\ forall k, d' !! k = if decide (k = key) then srem_entry now m (d !! key) else d !! k.
Proof.
  intros Hs. unfold srem, get, srem_entry.
  destruct (d !! key) as [e|] eqn:E.
  - destruct (Hs e eq_refl) as [s Hv]. destruct e as [v ex]. cbn in Hv. subst v.
    destruct (live now (mk_entry (VSet s) ex)) eqn:Hl.
    + eexists _, _. split; [reflexivity|]. intros k.
      case_bool_decide; destruct (decide (k = key)) as [->|Hne].
      * apply lookup_delete_eq.
      * rewrite lookup_delete_ne by congruence. reflexivity.
      * apply lookup_insert_eq.
      * rewrite lookup_insert_ne by congruence. reflexivity.
    + eexists _, _. split; [reflexivity|]. intros k.
      destruct (decide (k = key)) as [->|Hne]; [exact E|reflexivity].
  - eexists _, _. split; [reflexivity|]. intros k.
    destruct (decide (k = key)) as [->|Hne]; [exact E|reflexivity].
Qed.

Lemma srem_each_lookup now m keys : forall d : db,
  (forall k, k ∈ keys -> holds_set (d !! k)) ->
  exists d', srem_each now keys m d = (inr tt, d')
    /\ forall k, d' !! k = if bool_decide (k ∈ keys)
                           then srem_entry now m (d !! k) else d !! k.
Proof.
  induction keys as [|key keys IH]; intros d Hs.
  - exists d. split; [reflexivity|]. intros k.
    rewrite bool_decide_false by apply not_elem_of_nil. reflexivity.
  - destruct (srem_lookup now key m d) as (n & d1 & E1 & L1).
    { apply Hs. left. }
    destruct (IH d1) as (d' & E' & L').
    { intros k Hk. rewrite L1. destruct (decide (k = key)) as [->|_].
      - apply srem_entry_holds_set, Hs. left.
      - apply Hs. right. exact Hk. }
    exists d'. split.
    { cbn [srem_each]. unfold sbind. rewrite E1. exact E'. }
    intros k. rewrite L', L1.
    destruct (decide (k = key)) as [->|Hne].
    + rewrite (bool_decide_true (key ∈ key :: keys)) by left.
      case_bool_decide; [apply srem_entry_idem|reflexivity].
    + case_bool_decide as Hin.
      * rewrite bool_decide_true by (right; exact Hin). reflexivity.
      * rewrite bool_decide_false; [reflexivity|].
        intros [?|?]%elem_of_cons; congruence.
Qed.

Lemma elem_of_scan_keys now pattern (d : db) key :
  key ∈ scan_keys now pattern d
  <-> exists e, get now d key = Some e /\ glob pattern key = true.
Proof.
  unfold scan_keys. rewrite list_elem_of_In, filter_In, <- list_elem_of_In.
  rewrite elem_of_elements, elem_of_dom. split.
  - intros [_ H]. destruct (get now d key) as [e|]; [eauto|discriminate].
  - intros (e & Hg & Hp). rewrite Hg. split; [|exact Hp].
    unfold get in Hg. destruct (d !! key); [eauto|discriminate].
Qed.

Lemma int_each_printed (l : list string) :
  (forall m, m ∈ l -> exists u, m = str_int u) ->
  exists us, Presence.int_each l = inr us
    /\ forall x, x ∈ us <-> str_int x ∈ l.
Proof.
  induction l as [|m l IH]; intros H.
  - exists []. split; [reflexivity|]. intros x. split; intros Hx; inversion Hx.
  - destruct (H m) as [u ->]; [left|].
    destruct IH as (us & E & Hus). { intros m Hm. apply H. right. exact Hm. }
    exists (u :: us). split.
    { cbn [Presence.int_each]. rewrite int_str_int. cbn. rewrite E. reflexivity. }
    intros x. rewrite !elem_of_cons, Hus. split.
    + intros [->|?]; auto.
    + intros [?%str_int_inj|?]; auto.
Qed.

Lemma room_entry_holds_set (d : db) key :
  well_formed d -> startswith room_prefix key = true -> holds_set (d !! key).
Proof.
  intros Hwf Hp e He. destruct (Hwf key e He Hp) as (s & Hs & _). eauto.
Qed.

(** [set_user_online] with a non-zero room on a well-formed store. *)
Lemma set_user_online_lookup now u r (d : db) :
  well_formed d -> r <> 0 ->
  exists s d',
    set_user_online now u (Some r) d = (inr tt, d')
    /\ d' !! get_user_presence_key u
       = Some (mk_entry (VString "online") (Some (now + seconds 60)))
    /\ d' !! get_room_presence_key r
       = Some (mk_entry (VSet ({[str_int u]} ∪ s)) (Some (now + seconds 60)))
    /\ (forall m, m ∈ s -> exists v, m = str_int v)
    /\ (forall k, k <> get_user_presence_key u -> k <> get_room_presence_key r ->
                  d' !! k = d !! k).
Proof.
  intros Hwf Hr. unfold set_user_online.
  rewrite (proj2 (Z.eqb_neq r 0) Hr).
  pose proof (user_key_ne_room_key u r) as Hne.
  unfold sbind, sret, sadd, expire, get, setex.
  rewrite lookup_insert_ne by exact Hne.
  destruct (d !! get_room_presence_key r) as [e|] eqn:E.
  - destruct (Hwf _ _ E (room_key_prefix r)) as (s & Hv & Hs).
    destruct e as [v ex]. cbn in Hv. subst v.
    destruct (live now (mk_entry (VSet s) ex)) eqn:Hl.
    + exists s. eexists. rewrite lookup_insert_eq. cbn [live expires_at val].
      replace (live now (mk_entry (VSet ({[str_int u]} ∪ s)) ex)) with true
        by (symmetry; exact Hl).
      split; [reflexivity|].
      split; [do 2 (rewrite lookup_insert_ne by congruence); apply lookup_insert_eq|].
      split; [apply lookup_insert_eq|]. split; [exact Hs|].
      intros k Hk1 Hk2. rewrite !lookup_insert_ne by congruence. reflexivity.
    + exists ∅. eexists. rewrite lookup_insert_eq. cbn [live expires_at val].
      split; [reflexivity|].
      split; [do 2 (rewrite lookup_insert_ne by congruence); apply lookup_insert_eq|].
      split; [rewrite lookup_insert_eq, (right_id_L ∅ (∪)); reflexivity|].
      split; [intros m Hm; exfalso; exact (not_elem_of_empty m Hm)|].
      intros k Hk1 Hk2. rewrite !lookup_insert_ne by congruence. reflexivity.
  - exists ∅. eexists. rewrite lookup_insert_eq. cbn [live expires_at val].
    split; [reflexivity|].
    split; [do 2 (rewrite lookup_insert_ne by congruence); apply lookup_insert_eq|].
    split; [rewrite lookup_insert_eq, (right_id_L ∅ (∪)); reflexivity|].
    split; [intros m Hm; exfalso; exact (not_elem_of_empty m Hm)|].
    intros k Hk1 Hk2. rewrite !lookup_insert_ne by congruence. reflexivity.
Qed.

Lemma well_formed_insert_user (d : db) u e :
  well_formed d -> well_formed (<[get_user_presence_key u := e]> d).
Proof.
  intros Hwf key e' He Hp.
  destruct (decide (key = get_user_presence_key u)) as [->|Hne].
  - rewrite user_key_prefix in Hp. discriminate.
  - rewrite lookup_insert_ne in He by congruence. exact (Hwf key e' He Hp).
Qed.

Lemma set_user_online_well_formed now u room (d : db) :
  well_formed d -> well_formed (set_user_online now u room d).2.
Proof.
  intros Hwf. destruct room as [r|].
  - destruct (Z.eq_dec r 0) as [->|Hr].
    + apply well_formed_insert_user, Hwf.
    + destruct (set_user_online_lookup now u r d Hwf Hr)
        as (s & d1 & E & Hu & Hroom & Hs & Hother).
      rewrite E. cbn [snd]. intros key e He Hp.
      destruct (decide (key = get_room_presence_key r)) as [->|Hk].
      * rewrite Hroom in He. injection He as <-.
        eexists. split; [reflexivity|].
        intros m [->%elem_of_singleton|Hm]%elem_of_union; eauto.
      * destruct (decide (key = get_user_presence_key u)) as [->|Hk'].
        { rewrite user_key_prefix in Hp. discriminate. }
        rewrite Hother in He by assumption. exact (Hwf key e He Hp).
  - apply well_formed_insert_user, Hwf.
Qed.

Lemma well_formed_delete (d : db) key : well_formed d -> well_formed (base.delete key d).
Proof.
  intros Hwf k e He Hp. apply lookup_delete_Some in He as [_ He]. exact (Hwf k e He Hp).
Qed.

Lemma set_user_offline_lookup now u (d : db) :
  well_formed d ->
  let d0 := base.delete (get_user_presence_key u) d in
  exists d',
    set_user_offline now u d = (inr tt, d')
    /\ forall k, d' !! k
                 = if bool_decide (k ∈ scan_keys now "presence:room:*" d0)
                   then srem_entry now (str_int u) (d0 !! k) else d0 !! k.
Proof.
  intros Hwf d0. unfold set_user_offline, Redis.delete, scan_iter, sbind.
  assert (forall k, k ∈ scan_keys now "presence:room:*" d0 -> holds_set (d0 !! k)) as Hs.
  { intros k (e & _ & Hg)%elem_of_scan_keys. rewrite glob_room_pattern in Hg.
    apply room_entry_holds_set; [|exact Hg]. apply well_formed_delete, Hwf. }
  destruct (srem_each_lookup now (str_int u) _ d0 Hs) as (d' & E & L).
  exists d'. split; [|exact L].
  destruct (get now d (get_user_presence_key u)); exact E.
Qed.

Lemma srem_entry_room_entry_ok now m (oe : option entry) e :
  (forall e0, oe = Some e0 -> room_entry_ok e0) ->
  srem_entry now m oe = Some e -> room_entry_ok e.
Proof.
  intros H. destruct oe as [[[v|s] ex]|]; cbn [srem_entry]; try apply H.
  destruct (live now _); [|apply H].
  case_bool_decide; intros [= <-].
  destruct (H _ eq_refl) as (s' & [= <-] & Hs').
  eexists. split; [reflexivity|]. intros x [Hx _]%elem_of_difference. auto.
Qed.

Lemma set_user_offline_well_formed now u (d : db) :
  well_formed d -> well_formed (set_user_offline now u d).2.
Proof.
  intros Hwf.
  destruct (set_user_offline_lookup now u d Hwf) as (d1 & E1 & L).
  rewrite E1. cbn [snd].
  pose proof (well_formed_delete d (get_user_presence_key u) Hwf) as Hwf0.
  intros key e He Hp. rewrite L in He.
  case_bool_decide.
  - eapply srem_entry_room_entry_ok; [|exact He]. intros e0 He0. exact (Hwf0 _ _ He0 Hp).
  - exact (Hwf0 _ _ He Hp).
Qed.

(** Every store the program produces is well formed. *)
Lemma reachable_well_formed (d : db) : reachable d -> well_formed d.
Proof.
  induction 1 as [|d d' _ IH Hstep].
  - intros key e He. rewrite lookup_empty in He. discriminate.
  - destruct Hstep as [now u room d|now u d].
    + exact (set_user_online_well_formed now u room d IH).
    + exact (set_user_offline_well_formed now u d IH).
Qed.

Lemma online_after_set_user_online now u r (d : db) :
  well_formed d -> r <> 0 ->
  exists d',
    set_user_online now u (Some r) d = (inr tt, d')
    /\ forall now', now <= now' < now + seconds 60 ->
         is_user_online now' u d' = (inr 1, d')
         /\ exists users, get_online_users_in_room now' r d' = (inr users, d')
                          /\ u ∈ users.
Proof.
  intros Hwf Hr.
  destruct (set_user_online_lookup now u r d Hwf Hr)
    as (s & d' & E & Hu & Hroom & Hs & _).
  exists d'. split; [exact E|]. intros now' Hnow.
  assert ((now' <? now + seconds 60) = true) as Hlt by (apply Z.ltb_lt; lia).
  split.
  - unfold is_user_online, exists_, get. rewrite Hu. cbn [live expires_at]. rewrite Hlt. reflexivity.
  - unfold get_online_users_in_room, smembers, sbind, get. rewrite Hroom.
    cbn [live expires_at]. rewrite Hlt.
    destruct (int_each_printed (elements ({[str_int u]} ∪ s))) as (users & Eu & Hus).
    { intros m [->%elem_of_singleton|Hm]%elem_of_elements%elem_of_union; eauto. }
    exists users. split; [rewrite Eu; reflexivity|].
    apply Hus, elem_of_elements, elem_of_union_l, elem_of_singleton. reflexivity.
Qed.

Lemma offline_after_set_user_offline now u (d : db) :
  well_formed d ->
  exists d',
    set_user_offline now u d = (inr tt, d')
    /\ forall now', now <= now' ->
         is_user_online now' u d' = (inr 0, d')
         /\ forall r, exists users,
              get_online_users_in_room now' r d' = (inr users, d') /\ u ∉ users.
Proof.
  intros Hwf.
  destruct (set_user_offline_lookup now u d Hwf) as (d' & E & L).
  pose proof (well_formed_delete d (get_user_presence_key u) Hwf) as Hwf0.
  exists d'. split; [exact E|]. intros now' Hnow. split.
  - unfold is_user_online, exists_, get. rewrite L, lookup_delete_eq.
    case_bool_decide; reflexivity.
  - intros r. unfold get_online_users_in_room, smembers, sbind, get. rewrite L.
    set (d0 := base.delete (get_user_presence_key u) d) in *.
    set (key := get_room_presence_key r).
    assert (forall s ex, d0 !! key = Some (mk_entry (VSet s) ex) ->
            exists users, (int_each (elements (s ∖ {[str_int u]})), d')
                          = (inr users, d') /\ u ∉ users)
      as Hrem.
    { intros s ex He. destruct (Hwf0 key _ He (room_key_prefix r)) as (s' & [= <-] & Hs').
      destruct (int_each_printed (elements (s ∖ {[str_int u]}))) as (users & Eu & Hus).
      { intros m [Hm _]%elem_of_elements%elem_of_difference. auto. }
      exists users. split; [rewrite Eu; reflexivity|].
      rewrite Hus, elem_of_elements, elem_of_difference.
      intros [_ Hn]. apply Hn, elem_of_singleton. reflexivity. }
    assert (exists users, (int_each (elements (∅ : gset string)), d')
                          = (inr users, d') /\ u ∉ users) as Hnil.
    { exists []. split; [reflexivity|]. apply not_elem_of_nil. }
    case_bool_decide as Hin.
    + apply elem_of_scan_keys in Hin as (e & Hg & _). unfold get in Hg.
      destruct (d0 !! key) as [[[v|s] ex]|] eqn:He; try discriminate.
      { destruct (Hwf0 key _ He (room_key_prefix r)) as (s' & [=] & _). }
      destruct (Hrem s ex eq_refl) as (users & Eu & Hu).
      cbn [srem_entry].
      destruct (live now (mk_entry (VSet s) ex)) eqn:Hl; [|discriminate].
      case_bool_decide; [exact Hnil|].
      destruct (live now' _); [eauto|exact Hnil].
    + destruct (d0 !! key) as [[[v|s] ex]|] eqn:He; [| |exact Hnil].
      { destruct (Hwf0 key _ He (room_key_prefix r)) as (s' & [=] & _). }
      destruct (live now' (mk_entry (VSet s) ex)) eqn:Hl'; [|exact Hnil].
      exfalso. apply Hin, elem_of_scan_keys.
      exists (mk_entry (VSet s) ex). split; [|rewrite glob_room_pattern; apply room_key_prefix].
      unfold get. fold key. rewrite He.
      replace (live now (mk_entry (VSet s) ex)) with true; [reflexivity|].
      symmetry. unfold live in *. cbn [expires_at] in *. destruct ex as [t|]; [|reflexivity].
      apply Z.ltb_lt. apply Z.ltb_lt in Hl'. lia.
Qed.
End PresenceFacts.

Module NotificationFacts.
Import Notification.

Lemma update_is_read_read_at_twice self tbl :
  update_is_read_read_at self (update_is_read_read_at self tbl)
  = update_is_read_read_at self tbl.
Proof.
  unfold update_is_read_read_at. rewrite map_map. apply map_ext. intros row.
  destruct (id row =? id self) eqn:E; cbn [id set_read_at set_is_read]; rewrite E; reflexivity.
Qed.

(** C8.  [mark_as_read] and [mark_as_unread] are idempotent: a second
    call, at any later time, returns the instance and the table of the
    first call unchanged; on a notification that is already read
    (resp. unread) the call changes nothing, so the read flag and the
    read timestamp stay as they are. *)
Theorem mark_read_unread_idempotent (now1 now2 : Z) (n : t) (tbl : table) :
  (let r := mark_as_read now1 n tbl in mark_as_read now2 r.1 r.2 = r)
  /\ (let r := mark_as_unread now1 n tbl in mark_as_unread now2 r.1 r.2 = r)
  /\ mark_as_read now2 (set_is_read true n) tbl = (set_is_read true n, tbl)
  /\ mark_as_unread now2 (set_is_read false n) tbl = (set_is_read false n, tbl).
Proof.
  repeat split.
  - unfold mark_as_read, save_is_read_read_at.
    destruct (is_read n) eqn:E; cbn [negb fst snd].
    + rewrite E. reflexivity.
    + destruct (id _ =? 0); reflexivity.
  - unfold mark_as_unread, save_is_read_read_at.
    destruct (is_read n) eqn:E; cbn [negb fst snd].
    + destruct (id _ =? 0); reflexivity.
    + rewrite E. reflexivity.
Qed.

Lemma same_but_is_read_set b n : same_but_is_read n (set_is_read b n).
Proof. repeat split. Qed.

Lemma same_but_is_read_refl n : same_but_is_read n n.
Proof. repeat split. Qed.

Lemma update_is_read_true_rows sel tbl :
  Forall2 (fun n n' => same_but_is_read n n'
                       /\ is_read n' = (sel n || is_read n))
          tbl (update_is_read_true sel tbl).
Proof.
  unfold update_is_read_true. induction tbl as [|n tbl IH]; constructor; [|exact IH].
  destruct (sel n).
  - split; [apply same_but_is_read_set|reflexivity].
  - split; [apply same_but_is_read_refl|reflexivity].
Qed.

(** C10.  [mark_all_read] and [bulk_mark_read] write the [is_read]
    column only: every row of the new table agrees with the row it
    replaces on every other column, [read_at] included, and is read
    exactly when it was selected or already read.  The single
    [mark_as_read] of a never-read notification, in contrast, sets
    [read_at] to the current time. *)
Theorem bulk_read_keeps_read_at (now : Z) (user : Z) (ids : list Z) (tbl : table) :
  Forall2 (fun n n' =>
             same_but_is_read n n'
             /\ is_read n' = ((recipient n =? user) && negb (is_read n) || is_read n))
          tbl (mark_all_read user tbl)
  /\ Forall2 (fun n n' =>
                same_but_is_read n n'
                /\ is_read n' = ((recipient n =? user) && bool_decide (id n ∈ ids)
                                 && negb (is_read n) || is_read n))
             tbl (bulk_mark_read user ids tbl).1
  /\ (forall n, read_at (mark_as_read now (set_read_at None (set_is_read false n)) tbl).1
                = Some now).
Proof.
  split; [|split].
  - apply (update_is_read_true_rows
             (fun row => in_queryset user row && negb (is_read row))).
  - apply (update_is_read_true_rows
             (fun row => in_queryset user row && bool_decide (id row ∈ ids)
                         && negb (is_read row))).
  - intros n. unfold mark_as_read, save_is_read_read_at. cbn.
    destruct (id n =? 0); reflexivity.
Qed.
End NotificationFacts.

Module AccountsFacts.
Import Accounts.

Lemma find_written_row (rows : list User.t) i b seen old :
  List.find (fun u => User.id u =? i)
            (map (fun row => if User.id row =? i
                             then User.set_presence b seen row else row) rows)
  = Some old ->
  User.is_online old = b.
Proof.
  induction rows as [|row rows IH]; cbn [map List.find]; [discriminate|].
  destruct (User.id row =? i) eqn:E.
  - cbn [User.id User.set_presence]. rewrite E. intros [= <-]. reflexivity.
  - rewrite E. exact IH.
Qed.

(** The receiver of [post_save] compares the instance with the row
    that the same save has just written: it never sees a change. *)
Lemma save_presence_silent now self w :
  save_presence now self w
  = (let self' := if User.id self =? 0 then User.set_created_at now self else self in
     (self',
      World.set_db
        (Db.set_users
           (map (fun row => if User.id row =? User.id self'
                            then User.set_presence (User.is_online self')
                                                   (User.last_seen self') row
                            else row)
                (Db.users (World.db w)))
           (World.db w)) w)).
Proof.
  unfold save_presence. cbv zeta. f_equal.
  unfold user_status_changed. cbn [negb andb].
  destruct (negb (User.id _ =? 0)); [|reflexivity].
  unfold Db.get_user. cbn [World.db World.set_db Db.users Db.set_users].
  destruct (List.find _ _) as [old|] eqn:E; [|reflexivity].
  cbn [Py.ret]. apply find_written_row in E. rewrite E.
  rewrite Bool.eqb_reflx. reflexivity.
Qed.

Lemma set_online_frame now self w :
  let r := set_online now self w in
  World.redis r.2 = World.redis w
  /\ World.layer r.2 = World.layer w
  /\ Db.memberships (World.db r.2) = Db.memberships (World.db w)
  /\ Db.rooms (World.db r.2) = Db.rooms (World.db w)
  /\ Db.messages (World.db r.2) = Db.messages (World.db w)
  /\ User.id r.1 = User.id self.
Proof.
  unfold set_online. rewrite save_presence_silent. cbv zeta. cbn [fst snd].
  repeat split. destruct (User.id _ =? 0); reflexivity.
Qed.

Lemma set_offline_frame now self w :
  let r := set_offline now self w in
  World.redis r.2 = World.redis w
  /\ World.layer r.2 = World.layer w
  /\ Db.memberships (World.db r.2) = Db.memberships (World.db w)
  /\ Db.rooms (World.db r.2) = Db.rooms (World.db w)
  /\ Db.messages (World.db r.2) = Db.messages (World.db w)
  /\ User.id r.1 = User.id self.
Proof.
  unfold set_offline. rewrite save_presence_silent. cbv zeta. cbn [fst snd].
  repeat split. destruct (User.id _ =? 0); reflexivity.
Qed.

Lemma jwt_auth_middleware_frame validator now query_string w :
  let r := jwt_auth_middleware validator now query_string w in
  World.redis r.2 = World.redis w
  /\ World.layer r.2 = World.layer w
  /\ Db.memberships (World.db r.2) = Db.memberships (World.db w)
  /\ Db.rooms (World.db r.2) = Db.rooms (World.db w)
  /\ Db.messages (World.db r.2) = Db.messages (World.db w).
Proof.
  unfold jwt_auth_middleware.
  destruct (query_token query_string) as [token|]; [|repeat split].
  destruct (String.eqb token EmptyString); [repeat split|].
  destruct (get_user_from_token validator token (World.db w)) as [|user]; [repeat split|].
  pose proof (set_online_frame now user w) as H. cbv zeta in *.
  destruct (set_online now user w) as [user' w']. cbn [fst snd] in *. tauto.
Qed.
End AccountsFacts.

Module ConsumerFacts.
Import Consumers Spec.

Lemma is_room_member_active_member user room_id db :
  is_room_member user room_id db = true -> active_member (User.id user) room_id db.
Proof.
  unfold is_room_member. intros (room & _ & H)%existsb_exists.
  apply andb_true_iff in H as [_ H]. apply existsb_exists in H as (m & Hin & Hm).
  unfold Db.active_membership in Hm.
  apply andb_true_iff in Hm as [[Hr Hu]%andb_true_iff Ha].
  exists m. rewrite list_elem_of_In. repeat split; [exact Hin| | |exact Ha].
  - apply Z.eqb_eq, Hu.
  - apply Z.eqb_eq, Hr.
Qed.

Section Receive.
Variable json_loads : string -> option Json.t.
Variable JoinMessage LeaveMessage : list (string * Json.t) -> string + unit.
Variable MessageMessage : list (string * Json.t) -> string + MessageData.
Variable AttachmentMessage : list (string * Json.t) -> string + AttachmentData.
Variable TypingMessage : list (string * Json.t) -> string + list (string * Json.t).

Local Abbreviation receive :=
  (receive json_loads JoinMessage LeaveMessage MessageMessage
           AttachmentMessage TypingMessage).

Lemma unknown_tag tag :
  bool_decide (tag ∈ ["join"; "leave"; "message"; "attachment"; "typing"]) = false ->
  String.eqb tag "join" = false /\ String.eqb tag "leave" = false
  /\ String.eqb tag "message" = false /\ String.eqb tag "attachment" = false
  /\ String.eqb tag "typing" = false.
Proof.
  intros H%bool_decide_eq_false.
  repeat split; apply String.eqb_neq; intros ->; apply H;
    repeat first [apply list_elem_of_here | apply list_elem_of_further].
Qed.

(** C6.  A frame that is not JSON, or whose decoded value is routed
    to none of the five handlers (no dict, no [type], an unknown
    tag), gets one local [error] frame: it is appended to the
    sender's socket, the connection is neither closed nor otherwise
    changed, and the database, the presence store and the channel
    layer are untouched, so nothing is broadcast. *)
Theorem receive_rejects_locally now text_data w c :
  (json_loads text_data = None
   \/ exists j, json_loads text_data = Some j /\ known_type j = false) ->
  exists message,
    receive now text_data w c = (w, send_error message c)
    /\ outbox (send_error message c) = (outbox c ++ [f_error message])%list
    /\ close_code (send_error message c) = close_code c
    /\ accepted (send_error message c) = accepted c.
Proof.
  intros H.
  assert (exists message, receive now text_data w c = (w, send_error message c))
    as [message E].
  { unfold Consumers.receive. destruct H as [->|(j & -> & Hk)]; [eauto|].
    destruct j as [| | | | |items|data]; eauto.
    unfold known_type in Hk.
    destruct (negb (Json.truthy (Json.get "type" data))); [eauto|].
    destruct (negb (Json.hashable (Json.get "type" data))); [eauto|].
    destruct (Json.get "type" data) as [| | | |tag| |]; eauto.
    destruct (unknown_tag tag Hk) as (-> & -> & -> & -> & ->). eauto. }
  exists message. split; [exact E|]. repeat split.
Qed.



Lemma serialize_without_reply now sender m db :
  Message.reply_to m = None ->
  exists sm, serialize_message now sender m db = inr sm
             /\ Channels.s_content sm = Message.content m
             /\ Channels.s_id sm = Message.id m
             /\ Channels.s_reply_to sm = None
             /\ Channels.s_message_type sm = Message.message_type m
             /\ Channels.s_sender sm = sender.
Proof.
  intros H. unfold serialize_message. rewrite H. cbn [Py.bind Py.ret].
  eexists. split; [reflexivity|]. repeat split.
Qed.


(** C2 (what the code does).  A [message] envelope whose content is
    empty or whitespace is not rejected: the blank text message,
    which [Message.clean] refuses, is appended to the table and
    broadcast to the room, and no error frame is sent. *)
Theorem blank_message_is_persisted now text_data data content w c room_id u :
  json_loads text_data = Some (Json.Obj data) ->
  Json.get "type" data = Json.Str "message" ->
  MessageMessage data = inr (mk_message_data content None) ->
  Py.strip content = EmptyString ->
  joined c room_id u ->
  let m := Message.mk (Db.message_seq (World.db w) + 1) now now room_id (User.id u)
                      content "text" false None None in
  Message.clean m = Py.raise (Py.DjangoValidationError "Text messages must have content.")
  /\ exists sm,
      receive now text_data w c
      = (World.mk
           (Db.set_messages (Db.messages (World.db w) ++ [m]) (Message.id m) (World.db w))
           (World.redis w)
           (Channels.group_send (Utils.get_room_channel_group room_id)
                                (Channels.chat_message sm) (World.layer w)),
         c)
      /\ Channels.s_content sm = content.
Proof.
  intros Hj Ht Hv Hblank (Hroom & Huser & Hgroup) m. split.
  { unfold Message.clean. cbn [Message.message_type Message.content m].
    rewrite Hblank. reflexivity. }
  unfold Consumers.receive. rewrite Hj, Ht. cbn [Json.truthy Json.hashable negb String.eqb].
  replace (String.eqb "message" EmptyString) with false by reflexivity.
  replace (String.eqb "message" "join") with false by reflexivity.
  replace (String.eqb "message" "leave") with false by reflexivity.
  replace (String.eqb "message" "message") with true by reflexivity.
  cbn [negb].
  unfold handle_message. rewrite Hv, Hroom, Huser, Hgroup.
  cbn [Consumers.content Consumers.reply_to]. unfold create_message, Db.create_message. cbn [option_map]. fold m.
  destruct (serialize_without_reply now u m
              (Db.set_messages (Db.messages (World.db w) ++ [m])
                               (Db.message_seq (World.db w) + 1) (World.db w)) eq_refl)
    as (sm & -> & Hcontent & _).
  exists sm. split; [reflexivity|exact Hcontent].
Qed.

(** C9 (what the code does).  A valid [attachment] envelope adds a
    message of type attachment, then subscripting the pydantic model
    raises: no attachment record is stored, nothing is broadcast,
    and the sender gets the error frame of a failed attachment. *)
Theorem attachment_record_is_never_stored
        now text_data data attachment w c room_id u :
  json_loads text_data = Some (Json.Obj data) ->
  Json.get "type" data = Json.Str "attachment" ->
  AttachmentMessage data = inr attachment ->
  joined c room_id u ->
  let m := Message.mk (Db.message_seq (World.db w) + 1) now now room_id (User.id u)
                      EmptyString "attachment" false None None in
  receive now text_data w c
  = (World.set_db
       (Db.set_messages (Db.messages (World.db w) ++ [m]) (Message.id m) (World.db w)) w,
     send_error "Failed to send attachment" c)
  /\ Db.attachments (World.db (receive now text_data w c).1)
     = Db.attachments (World.db w)
  /\ World.layer (receive now text_data w c).1 = World.layer w.
Proof.
  intros Hj Ht Hv (Hroom & Huser & Hgroup) m.
  assert (receive now text_data w c
          = (World.set_db
               (Db.set_messages (Db.messages (World.db w) ++ [m]) (Message.id m)
                                (World.db w)) w,
             send_error "Failed to send attachment" c)) as E.
  { unfold Consumers.receive. rewrite Hj, Ht.
    cbn [Json.truthy Json.hashable negb].
    replace (String.eqb "attachment" EmptyString) with false by reflexivity.
    replace (String.eqb "attachment" "join") with false by reflexivity.
    replace (String.eqb "attachment" "leave") with false by reflexivity.
    replace (String.eqb "attachment" "message") with false by reflexivity.
    replace (String.eqb "attachment" "attachment") with true by reflexivity.
    cbn [negb].
    unfold handle_attachment. rewrite Hv, Hroom, Huser, Hgroup. reflexivity. }
  rewrite E. repeat split.
Qed.
End Receive.
End ConsumerFacts.

Module QueryFacts.
Import Query.

#[global] Instance asc_total {A} (key : A -> Z) : Total (asc key).
Proof. intros a b. unfold asc. lia. Qed.

#[global] Instance desc_total {A} (key : A -> Z) : Total (desc key).
Proof. intros a b. unfold desc. lia. Qed.

Lemma order_by_sorted {A} (descending : bool) (key : A -> Z) rows :
  Sorted (if descending then desc key else asc key) (order_by descending key rows).
Proof. destruct descending; apply Sorted_merge_sort; apply _. Qed.

Lemma order_by_permutation {A} (descending : bool) (key : A -> Z) rows :
  order_by descending key rows ≡ₚ rows.
Proof. destruct descending; apply merge_sort_Permutation. Qed.

Lemma Sorted_skipn {A} (R : relation A) n l : Sorted R l -> Sorted R (skipn n l).
Proof.
  revert l. induction n as [|n IH]; intros l H; [exact H|].
  destruct l as [|x l]; [constructor|]. cbn [skipn]. apply IH.
  inversion H; assumption.
Qed.

Lemma HdRel_firstn {A} (R : relation A) x n l : HdRel R x l -> HdRel R x (firstn n l).
Proof. intros H. destruct n, l; cbn; try constructor. inversion H; assumption. Qed.

Lemma Sorted_firstn {A} (R : relation A) n l : Sorted R l -> Sorted R (firstn n l).
Proof.
  revert l. induction n as [|n IH]; intros l H; [constructor|].
  destruct l as [|x l]; [constructor|]. cbn [firstn].
  inversion H; subst. constructor; [apply IH; assumption|apply HdRel_firstn; assumption].
Qed.
End QueryFacts.

Module ViewsFacts.
Import Views Spec QueryFacts.

Lemma slice_sorted {A} (R : relation A) bottom top l :
  Sorted R l -> Sorted R (slice bottom top l).
Proof. intros H. apply Sorted_firstn, Sorted_skipn, H. Qed.

Lemma slice_elem_of {A} bottom top (l : list A) x : x ∈ slice bottom top l -> x ∈ l.
Proof.
  unfold slice. intros H.
  apply (subseteq_drop (Z.to_nat bottom) l), (subseteq_take (Z.to_nat (top - bottom))), H.
Qed.

Lemma paginate_queryset_slice {A} page size (rows page_rows : list A) :
  paginate_queryset page size rows = inr page_rows ->
  exists bottom top, page_rows = slice bottom top rows.
Proof.
  unfold paginate_queryset.
  destruct (match page with
            | Some text => _
            | None => _
            end) as [e|number]; [discriminate|].
  destruct (_ || _); [discriminate|]. intros [= <-]. eauto.
Qed.

Lemma get_page_size_positive size : 1 <= get_page_size size.
Proof.
  unfold get_page_size, page_size, max_page_size.
  destruct size as [text|]; [|lia]. destruct (Py.int text) as [|n]; [lia|].
  destruct (Z.leb_spec n 0); lia.
Qed.

(** The page the paginator returns: its number, and its rows as a
    stretch of the queryset. *)
Lemma paginate_queryset_page {A} page size (rows page_rows : list A) :
  paginate_queryset page size rows = inr page_rows ->
  let per_page := get_page_size size in
  exists number,
    1 <= number <= num_pages (Z.of_nat (length rows)) per_page
    /\ (page = None -> number = 1)
    /\ (forall text, page = Some text -> text <> EmptyString -> text <> "last" ->
                     Py.int text = inr number)
    /\ page_rows = firstn (Z.to_nat per_page)
                          (skipn (Z.to_nat ((number - 1) * per_page)) rows).
Proof.
  intros H per_page. pose proof (get_page_size_positive size) as Hsize.
  fold per_page in Hsize. unfold paginate_queryset in H. fold per_page in H.
  set (count := Z.of_nat (length rows)) in *.
  destruct (match page with
            | Some text => _
            | None => _
            end) as [e|number] eqn:Hnumber; [discriminate|].
  destruct (Z.ltb_spec number 1) as [|Hlow]; [discriminate|].
  destruct (Z.ltb_spec (num_pages count per_page) number) as [|Hhigh]; [discriminate|].
  cbn [orb] in H. injection H as <-. exists number.
  split; [lia|]. split; [|split].
  - intros ->. congruence.
  - intros text -> Hne Hlast.
    destruct (String.eqb_spec text EmptyString); [contradiction|].
    destruct (String.eqb_spec text "last"); [contradiction|]. exact Hnumber.
  - unfold slice. set (bottom := (number - 1) * per_page).
    assert (0 <= bottom) by (unfold bottom; nia).
    set (rest := skipn (Z.to_nat bottom) rows).
    assert (length rest = (length rows - Z.to_nat bottom)%nat) as Hrest
        by apply length_skipn.
    destruct (Z.min_spec (bottom + per_page) count) as [[_ ->]|[Hle ->]].
    + f_equal. lia.
    + rewrite !firstn_all2; [reflexivity| |]; subst count; lia.
Qed.

(** C3, counterexample.  Without an [ordering] parameter the history
    of a room starts with its newest message. *)
Lemma history_default_is_newest_first :
  messages Sample.no_search 1 7 (mk_params None None None None) Sample.db
  = inr [Sample.second; Sample.first]
  /\ ~ Sorted history_le [Sample.second; Sample.first].
Proof.
  split; [vm_compute; reflexivity|].
  intros H. inversion H as [|? ? _ Hd]; subst. inversion Hd as [|? ? Hle]; subst.
  unfold history_le in Hle. cbn in Hle. lia.
Qed.

Section Messages.
Variable search_matches : string -> Db.t -> Message.t -> bool.

(** C3, amended.  What [messages] returns is the requested page of
    the room's messages in the requested order.  The messages of the
    room (those matching the search, when one is given) are put in an
    order that is non-increasing in creation time when no ordering is
    asked for and non-decreasing in creation time when [created_at]
    is asked for, whatever the order of the rows in the table; no
    message is lost or repeated, and nothing is said of messages with
    equal creation times.  The answer is then the stretch of that
    sequence that starts after [(number - 1)] pages and is one page
    long, where [number] is the requested page (the first when none
    is named) and lies within the pages there are. *)
Theorem history_follows_requested_ordering user pk params db rows :
  messages search_matches user pk params db = inr rows ->
  let in_room := List.filter (fun m => Message.room m =? pk) (Db.messages db) in
  let found :=
    match p_search params with
    | Some search =>
        if String.eqb search EmptyString then in_room
        else List.filter (search_matches search db) in_room
    | None => in_room
    end in
  let per_page := get_page_size (p_page_size params) in
  exists ordered number,
    ordered ≡ₚ found
    /\ (p_ordering params = None -> Sorted (Query.desc Message.created_at) ordered)
    /\ (p_ordering params = Some "created_at" ->
        Sorted (Query.asc Message.created_at) ordered)
    /\ 1 <= number <= num_pages (Z.of_nat (length found)) per_page
    /\ (p_page params = None -> number = 1)
    /\ (forall text, p_page params = Some text ->
                     text <> EmptyString -> text <> "last" ->
                     Py.int text = inr number)
    /\ rows = firstn (Z.to_nat per_page)
                     (skipn (Z.to_nat ((number - 1) * per_page)) ordered)
    /\ (forall m, m ∈ rows -> m ∈ Db.messages db /\ Message.room m = pk).
Proof.
  unfold messages.
  destruct (get_room user pk db) as [e|room] eqn:Hroom; [discriminate|].
  assert (ChatRoom.id room = pk) as Hpk.
  { unfold get_room in Hroom.
    destruct (List.find _ _) as [room'|] eqn:E; [|discriminate].
    injection Hroom as <-. apply find_some in E as [_ E].
    apply andb_true_iff in E as [[E _]%andb_true_iff _]. apply Z.eqb_eq, E. }
  rewrite Hpk. destruct (negb _); [discriminate|].
  intros H. cbv zeta.
  set (in_room := List.filter (fun m => Message.room m =? pk) (Db.messages db)) in *.
  set (found := match p_search params with Some _ => _ | None => _ end) in *.
  set (per_page := get_page_size (p_page_size params)).
  assert (forall m, m ∈ found -> m ∈ Db.messages db /\ Message.room m = pk) as Hfound.
  { assert (forall m, m ∈ in_room -> m ∈ Db.messages db /\ Message.room m = pk) as Hin.
    { intros m. unfold in_room. rewrite !list_elem_of_In, filter_In.
      intros [? ?%Z.eqb_eq]. split; assumption. }
    intros m. unfold found. destruct (p_search params) as [search|]; [|apply Hin].
    destruct (String.eqb search EmptyString); [apply Hin|].
    rewrite list_elem_of_In, filter_In, <- list_elem_of_In. intros [? _]. auto. }
  destruct (order_by _ found) as [e|ordered] eqn:Hord; [discriminate|].
  assert (ordered ≡ₚ found) as Hperm.
  { revert Hord. unfold order_by.
    destruct (match default "-created_at" (p_ordering params) with
              | EmptyString => _
              | String c name => _
              end) as [descending name].
    destruct (message_column name) as [key|]; [|discriminate].
    intros [= <-]. apply order_by_permutation. }
  destruct (paginate_queryset_page _ _ _ _ H) as (number & Hnumber & Hfirst & Hint & ->).
  fold per_page in Hnumber |- *.
  exists ordered, number.
  split; [exact Hperm|]. split; [|split; [|split; [|split; [|split; [|split]]]]].
  - intros Hnone. rewrite Hnone in Hord. cbn in Hord. injection Hord as <-.
    apply (order_by_sorted true).
  - intros Hsome. rewrite Hsome in Hord. cbn in Hord. injection Hord as <-.
    apply (order_by_sorted false).
  - rewrite <- (Permutation_length Hperm). exact Hnumber.
  - exact Hfirst.
  - exact Hint.
  - reflexivity.
  - intros m Hm. apply Hfound. rewrite <- Hperm.
    apply (subseteq_drop (Z.to_nat ((number - 1) * per_page)) ordered),
          (subseteq_take (Z.to_nat per_page)), Hm.
Qed.
End Messages.

(** C4, counterexample.  The sender of a message in a deactivated
    room edits it within the window and gets [NotFound]. *)
Lemma sender_cannot_edit_in_inactive_room :
  Message.sender Sample.stale = 1
  /\ 40 - Message.created_at Sample.stale <= minutes 15
  /\ Sample.stale ∈ Db.messages Sample.db
  /\ edit Sample.content_field 40 1 3 (Some "edited") Sample.db
     = (inl (NotFound "Not found."), Sample.db).
Proof.
  repeat split; try (vm_compute; congruence).
  unfold Sample.db. cbn [Db.messages]. repeat constructor.
Qed.

Lemma get_message_found user pk db m :
  get_message user pk db = inr m ->
  m ∈ Db.messages db /\ Message.id m = pk /\ visible user db m = true.
Proof.
  unfold get_message. destruct (List.find _ _) as [m'|] eqn:E; [|discriminate].
  intros [= <-]. apply find_some in E as [Hin [Hid Hv]%andb_true_iff].
  split; [apply list_elem_of_In, Hin|]. split; [apply Z.eqb_eq, Hid|exact Hv].
Qed.

Section Edit.
Variable content_field : string -> option string.

(** C4, amended.  When the message is among those the editor can
    see (an active room in which the editor holds an active
    membership) and the submitted content passes validation, the edit
    succeeds exactly when the editor is the sender and at most 15
    minutes have passed since creation; a successful edit sets the
    edited flag and the edited timestamp and keeps identifier, sender
    and creation time; every other edit fails with [PermissionDenied]
    and leaves the database unchanged.  When the editor cannot see
    the message the edit fails with [NotFound] and changes nothing. *)
Theorem edit_by_sender_within_window now user pk new_content db :
  match new_content with
  | Some text => is_Some (content_field text)
  | None => True
  end ->
  let r := edit content_field now user pk new_content db in
  match get_message user pk db with
  | inl e => r = (inl e, db)
  | inr m =>
      ((exists m', r.1 = inr m')
       <-> Message.sender m = user /\ now - Message.created_at m <= minutes 15)
      /\ (forall m', r.1 = inr m' ->
            Message.is_edited m' = true /\ Message.edited_at m' = Some now
            /\ Message.id m' = Message.id m /\ Message.sender m' = Message.sender m
            /\ Message.created_at m' = Message.created_at m
            /\ m' ∈ Db.messages r.2)
      /\ ((forall m', r.1 <> inr m') ->
          (exists detail, r.1 = inl (PermissionDenied detail)) /\ r.2 = db)
  end.
Proof.
  intros Hvalid r. subst r. unfold edit.
  destruct (get_message user pk db) as [e|m] eqn:Hget; [reflexivity|].
  apply get_message_found in Hget as (Hin & _ & _).
  destruct (Message.sender m =? user) eqn:Hs; cbn [negb].
  2:{ apply Z.eqb_neq in Hs. cbn [fst snd]. split; [|split].
      - split; [intros [m' [=]]|intros [? _]; contradiction].
      - intros m' [=].
      - intros _. eauto. }
  apply Z.eqb_eq in Hs.
  destruct (minutes 15 <? now - Message.created_at m) eqn:Ht.
  { apply Z.ltb_lt in Ht. cbn [fst snd]. split; [|split].
    - split; [intros [m' [=]]|intros [_ ?]; lia].
    - intros m' [=].
    - intros _. eauto. }
  apply Z.ltb_ge in Ht.
  assert (exists validated,
             match new_content with
             | Some text => option_map Some (content_field text)
             | None => Some None
             end = Some validated) as [validated ->].
  { destruct new_content as [text|]; [|eauto].
    destruct Hvalid as [v ->]. cbn. eauto. }
  cbn [fst snd]. split; [|split].
  - split; [intros _; split; assumption|intros _; eauto].
  - intros m' [= <-]. cbn [edited Message.is_edited Message.edited_at Message.id
                             Message.sender Message.created_at Db.messages Db.set_messages].
    repeat split. apply list_elem_of_In, in_map_iff. exists m.
    rewrite Z.eqb_refl. split; [reflexivity|apply list_elem_of_In, Hin].
  - intros Hno. exfalso. eapply Hno. reflexivity.
Qed.
End Edit.
End ViewsFacts.

Module PresenceClaims.
Import Presence PresenceFacts.

(** The guard [if room_id:] of [set_user_online] treats a room
    identifier [0] like a missing room: the user is marked online and
    no room set is written.  The database hands out room identifiers
    from 1, and the one caller passes the identifier of a room it has
    just found, so no call of the program has this argument. *)
Lemma room_zero_is_never_joined :
  exists d' : Redis.db,
    set_user_online 100 5 (Some 0) ∅ = (inr tt, d')
    /\ is_user_online 100 5 d' = (inr 1, d')
    /\ get_online_users_in_room 100 0 d' = (inr [], d').
Proof. eexists. repeat split; vm_compute; reflexivity. Qed.


End PresenceClaims.

Module Witnesses.
Import Spec.

Lemma receive_rejects_locally_witness :
  Sample.loads_none "{" = None
  /\ exists message,
      Consumers.receive Sample.loads_none Pydantic.JoinMessage Pydantic.LeaveMessage
                        Pydantic.MessageMessage Pydantic.AttachmentMessage
                        Pydantic.TypingMessage 100 "{" Sample.world Sample.connection
      = (Sample.world, Consumers.send_error message Sample.connection).
Proof.
  split; [reflexivity|].
  destruct (ConsumerFacts.receive_rejects_locally
              Sample.loads_none Pydantic.JoinMessage Pydantic.LeaveMessage
              Pydantic.MessageMessage Pydantic.AttachmentMessage
              Pydantic.TypingMessage 100 "{" Sample.world Sample.connection)
    as (message & E & _); [left; reflexivity|].
  exists message. exact E.
Defined.

Lemma sample_joined : joined Sample.connection 7 Sample.alice.
Proof. repeat split. Qed.


Lemma blank_message_is_persisted_witness :
  Py.strip "   " = EmptyString
  /\ exists m,
      Message.content m = "   "
      /\ Db.messages
           (World.db
              (Consumers.receive
                 (Sample.loads_as (Json.Obj Sample.blank_message))
                 Pydantic.JoinMessage Pydantic.LeaveMessage
                 Pydantic.MessageMessage Pydantic.AttachmentMessage
                 Pydantic.TypingMessage 100 "frame" Sample.world Sample.connection).1)
         = (Db.messages Sample.db ++ [m])%list.
Proof.
  split; [reflexivity|].
  destruct (ConsumerFacts.blank_message_is_persisted
              (Sample.loads_as (Json.Obj Sample.blank_message))
              Pydantic.JoinMessage Pydantic.LeaveMessage
              Pydantic.MessageMessage Pydantic.AttachmentMessage
              Pydantic.TypingMessage 100 "frame" Sample.blank_message "   "
              Sample.world Sample.connection 7 Sample.alice
              eq_refl eq_refl eq_refl eq_refl sample_joined)
    as (_ & sm & E & _).
  rewrite E. eexists. split; [|reflexivity]. reflexivity.
Defined.

Lemma attachment_record_is_never_stored_witness :
  Pydantic.AttachmentMessage Sample.picture
  = inr (Consumers.mk_attachment_data (Some 1) "cat.png"
           "https://example.org/cat.png" "image" 2048)
  /\ Db.attachments
       (World.db
          (Consumers.receive
             (Sample.loads_as (Json.Obj Sample.picture))
             Pydantic.JoinMessage Pydantic.LeaveMessage
             Pydantic.MessageMessage Pydantic.AttachmentMessage
             Pydantic.TypingMessage 100 "frame" Sample.world Sample.connection).1)
     = [].
Proof.
  split; [reflexivity|].
  destruct (ConsumerFacts.attachment_record_is_never_stored
              (Sample.loads_as (Json.Obj Sample.picture))
              Pydantic.JoinMessage Pydantic.LeaveMessage
              Pydantic.MessageMessage Pydantic.AttachmentMessage
              Pydantic.TypingMessage 100 "frame" Sample.picture
              (Consumers.mk_attachment_data (Some 1) "cat.png"
                 "https://example.org/cat.png" "image" 2048)
              Sample.world Sample.connection 7 Sample.alice
              eq_refl eq_refl eq_refl sample_joined)
    as (_ & E & _).
  rewrite E. reflexivity.
Defined.

Lemma history_follows_requested_ordering_witness :
  Views.messages Sample.no_search 1 7
                 (Views.mk_params None (Some "created_at") (Some "2") (Some "1"))
                 Sample.db
  = inr [Sample.second]
  /\ exists ordered,
      ordered ≡ₚ [Sample.first; Sample.second]
      /\ Sorted (Query.asc Message.created_at) ordered
      /\ [Sample.second] = firstn 1 (skipn 1 ordered).
Proof.
  assert (Views.messages Sample.no_search 1 7
            (Views.mk_params None (Some "created_at") (Some "2") (Some "1")) Sample.db
          = inr [Sample.second]) as E by (vm_compute; reflexivity).
  split; [exact E|].
  destruct (ViewsFacts.history_follows_requested_ordering
              Sample.no_search 1 7
              (Views.mk_params None (Some "created_at") (Some "2") (Some "1"))
              Sample.db [Sample.second] E)
    as (ordered & number & Hperm & _ & Hsorted & _ & _ & Hint & Hrows & _).
  assert (number = 2) as ->.
  { specialize (Hint "2" eq_refl). vm_compute in Hint.
    assert (inr 2 = (inr number : Py.result Z)) as [= <-];
      [apply Hint; discriminate|reflexivity]. }
  exists ordered. split; [exact Hperm|]. split; [apply Hsorted; reflexivity|].
  exact Hrows.
Defined.

Lemma edit_by_sender_within_window_witness :
  is_Some (Sample.content_field " edited ")
  /\ exists m',
      (Views.edit Sample.content_field 40 1 1 (Some " edited ") Sample.db).1 = inr m'.
Proof.
  assert (is_Some (Sample.content_field " edited ")) as Hv by (eexists; reflexivity).
  split; [exact Hv|].
  pose proof (ViewsFacts.edit_by_sender_within_window
                Sample.content_field 40 1 1 (Some " edited ") Sample.db Hv) as H.
  cbv zeta in H.
  change (Views.get_message 1 1 Sample.db) with (inr Sample.first : Views.response _) in H.
  destruct H as [[_ H] _]. apply H. split; [reflexivity|]. vm_compute. discriminate.
Defined.
End Witnesses.

(** ** Further properties of the presence store *)

Module PresenceMore.
Import Py PyFacts Redis Presence PresenceFacts.

Lemma append_inj p a b : String.append p a = String.append p b -> a = b.
Proof. induction p as [|c p IH]; cbn; [auto|]. intros [= H]. auto. Qed.

Lemma user_key_inj u v : get_user_presence_key u = get_user_presence_key v -> u = v.
Proof. intros H%append_inj. apply str_int_inj, H. Qed.

Lemma room_key_inj r s : get_room_presence_key r = get_room_presence_key s -> r = s.
Proof. intros H%append_inj. apply str_int_inj, H. Qed.

(** The room entry that [set_user_online] leaves. *)
Lemma set_user_online_room_entry now u r (d : db) :
  well_formed d -> r <> 0 ->
  (set_user_online now u (Some r) d).2 !! get_room_presence_key r
  = Some (mk_entry (VSet ({[str_int u]} ∪ members_at now d (get_room_presence_key r)))
                   (Some (now + seconds 60))).
Proof.
  intros Hwf Hr. unfold set_user_online, members_at.
  rewrite (proj2 (Z.eqb_neq r 0) Hr).
  pose proof (user_key_ne_room_key u r) as Hne.
  unfold sbind, sret, sadd, expire, get, setex.
  rewrite lookup_insert_ne by exact Hne.
  destruct (d !! get_room_presence_key r) as [e|] eqn:E.
  - destruct (Hwf _ _ E (room_key_prefix r)) as (s & Hv & Hs).
    destruct e as [v ex]. cbn in Hv. subst v.
    destruct (live now (mk_entry (VSet s) ex)) eqn:Hl.
    + rewrite lookup_insert_eq. cbn [live expires_at val].
      replace (live now (mk_entry (VSet ({[str_int u]} ∪ s)) ex)) with true
        by (symmetry; exact Hl).
      cbn [snd]. apply lookup_insert_eq.
    + rewrite lookup_insert_eq. cbn [live expires_at val snd].
      rewrite lookup_insert_eq, (right_id_L ∅ (∪)). reflexivity.
  - rewrite lookup_insert_eq. cbn [live expires_at val snd].
    rewrite lookup_insert_eq, (right_id_L ∅ (∪)). reflexivity.
Qed.

Lemma set_user_online_no_room now u room (d : db) :
  room = None \/ room = Some 0 ->
  set_user_online now u room d
  = (inr tt, <[get_user_presence_key u
               := mk_entry (VString "online") (Some (now + seconds 60))]> d).
Proof. intros [->| ->]; reflexivity. Qed.

(** What [set_user_online] leaves alone. *)
Lemma set_user_online_other_keys now u room (d : db) k :
  well_formed d ->
  k <> get_user_presence_key u ->
  (forall r, room = Some r -> k <> get_room_presence_key r) ->
  (set_user_online now u room d).2 !! k = d !! k.
Proof.
  intros Hwf Hk Hroom.
  destruct room as [r|]; [destruct (Z.eq_dec r 0) as [->|Hr]|].
  - rewrite set_user_online_no_room by auto. cbn [snd].
    apply lookup_insert_ne. congruence.
  - destruct (set_user_online_lookup now u r d Hwf Hr) as (s & d' & E & _ & _ & _ & H).
    rewrite E. cbn [snd]. apply H; [exact Hk|]. apply Hroom. reflexivity.
  - rewrite set_user_online_no_room by auto. cbn [snd].
    apply lookup_insert_ne. congruence.
Qed.

Lemma get_online_users_lookup now r (d d' : db) :
  d' !! get_room_presence_key r = d !! get_room_presence_key r ->
  (get_online_users_in_room now r d').1 = (get_online_users_in_room now r d).1.
Proof.
  intros H. unfold get_online_users_in_room, smembers, sbind, get. rewrite H.
  destruct (d !! get_room_presence_key r) as [[[v|s] ex]|]; try reflexivity;
    destruct (live now _); reflexivity.
Qed.

Lemma is_user_online_lookup now u (d d' : db) :
  d' !! get_user_presence_key u = d !! get_user_presence_key u ->
  (is_user_online now u d').1 = (is_user_online now u d).1.
Proof.
  intros H. unfold is_user_online, exists_, get. rewrite H.
  destruct (d !! get_user_presence_key u) as [e|]; [|reflexivity].
  destruct (live now e); reflexivity.
Qed.

Lemma get_online_users_well_formed now r (d : db) :
  well_formed d ->
  exists users, get_online_users_in_room now r d = (inr users, d)
                /\ forall x, x ∈ users
                             <-> str_int x ∈ members_at now d (get_room_presence_key r).
Proof.
  intros Hwf. unfold get_online_users_in_room, smembers, sbind, members_at, get.
  destruct (d !! get_room_presence_key r) as [[v ex]|] eqn:E.
  - destruct (Hwf _ _ E (room_key_prefix r)) as (s & Hv & Hs). cbn in Hv. subst v.
    destruct (live now _).
    + destruct (int_each_printed (elements s)) as (users & Eu & Hus).
      { intros m Hm%elem_of_elements. auto. }
      exists users. rewrite Eu. split; [reflexivity|].
      intros x. rewrite Hus. apply elem_of_elements.
    + exists []. split; [reflexivity|]. intros x. split; intros H; inversion H.
  - exists []. split; [reflexivity|]. intros x. split; intros H; inversion H.
Qed.

(** X1.  In every presence store that the presence functions themselves
    built up from an empty Redis database, none of the four presence
    functions raises: marking a user online or offline returns normally,
    the online check answers 0 or 1, the member list of any room is
    returned as a list of integers (every stored member parses back with
    int), and the store stays of that kind afterwards. *)
Theorem presence_functions_never_raise (d : db) now u room r :
  reachable d ->
  (set_user_online now u room d).1 = inr tt
  /\ (set_user_offline now u d).1 = inr tt
  /\ (exists flag, (is_user_online now u d).1 = inr flag /\ (flag = 0 \/ flag = 1))
  /\ (exists users, (get_online_users_in_room now r d).1 = inr users)
  /\ reachable (set_user_online now u room d).2
  /\ reachable (set_user_offline now u d).2.
Proof.
  intros Hreach. pose proof (reachable_well_formed d Hreach) as Hwf.
  split; [|split; [|split; [|split; [|split]]]].
  - destruct room as [r0|]; [destruct (Z.eq_dec r0 0) as [->|Hr]|]; try reflexivity.
    destruct (set_user_online_lookup now u r0 d Hwf Hr) as (s & d' & -> & _). reflexivity.
  - destruct (set_user_offline_lookup now u d Hwf) as (d' & -> & _). reflexivity.
  - unfold is_user_online, exists_. destruct (get now d _); eauto.
  - destruct (get_online_users_well_formed now r d Hwf) as (users & -> & _). eauto.
  - eapply reachable_step; [exact Hreach|constructor].
  - eapply reachable_step; [exact Hreach|constructor].
Qed.

Lemma presence_functions_never_raise_witness :
  reachable (∅ : db)
  /\ (set_user_online 100 5 (Some 7) (∅ : db)).1 = inr tt.
Proof.
  split; [constructor|].
  apply (presence_functions_never_raise ∅ 100 5 (Some 7) 7). constructor.
Defined.

(** X2.  Marking a user online in a room changes the presence of nobody
    else: the online check of every other user and the member list of
    every other room answer as before, at any time. *)
Theorem set_user_online_frame now u room (d : db) t :
  reachable d ->
  let d' := (set_user_online now u room d).2 in
  (forall v, v <> u -> (is_user_online t v d').1 = (is_user_online t v d).1)
  /\ (forall r, room <> Some r ->
                (get_online_users_in_room t r d').1
                = (get_online_users_in_room t r d).1).
Proof.
  intros Hwf%reachable_well_formed d'. split.
  - intros v Hv. apply is_user_online_lookup, set_user_online_other_keys; [exact Hwf| |].
    + intros H%user_key_inj. contradiction.
    + intros r _ H. exact (user_key_ne_room_key v r H).
  - intros r Hr. apply get_online_users_lookup, set_user_online_other_keys; [exact Hwf| |].
    + intros H. exact (user_key_ne_room_key u r (eq_sym H)).
    + intros r0 -> H%room_key_inj. congruence.
Qed.

Lemma set_user_online_frame_witness :
  reachable (∅ : db)
  /\ (is_user_online 100 6 (set_user_online 100 5 (Some 7) (∅ : db)).2).1
     = (is_user_online 100 6 (∅ : db)).1.
Proof.
  split; [constructor|].
  destruct (set_user_online_frame 100 5 (Some 7) ∅ 100) as [H _]; [constructor|].
  apply H. lia.
Defined.

(** X3.  Presence lasts 60 seconds: once 60 seconds have passed since a
    user was marked online in a room (other than room 0) and nothing else
    was written, the user is no longer online and the member list of the
    room is empty. *)
Theorem presence_expires_after_ttl now u r (d : db) t :
  reachable d -> r <> 0 -> now + seconds 60 <= t ->
  let d' := (set_user_online now u (Some r) d).2 in
  is_user_online t u d' = (inr 0, d')
  /\ get_online_users_in_room t r d' = (inr [], d').
Proof.
  intros Hwf%reachable_well_formed Hr Ht d'.
  destruct (set_user_online_lookup now u r d Hwf Hr) as (s & d1 & E & Hu & Hroom & _).
  assert (d' = d1) as -> by (unfold d'; rewrite E; reflexivity).
  assert ((t <? now + seconds 60) = false) as Hexp by (apply Z.ltb_ge; lia).
  split.
  - unfold is_user_online, exists_, get. rewrite Hu. cbn [live expires_at].
    rewrite Hexp. reflexivity.
  - unfold get_online_users_in_room, smembers, sbind, get. rewrite Hroom.
    cbn [live expires_at]. rewrite Hexp. reflexivity.
Qed.

Lemma presence_expires_after_ttl_witness :
  reachable (∅ : db) /\ 7 <> 0 /\ 100 + seconds 60 <= 100 + seconds 60
  /\ (is_user_online (100 + seconds 60) 5 (set_user_online 100 5 (Some 7) (∅ : db)).2).1
     = inr 0.
Proof.
  split; [constructor|]. split; [lia|]. split; [lia|].
  destruct (presence_expires_after_ttl 100 5 7 ∅ (100 + seconds 60)) as [H _];
    [constructor|lia|lia|].
  rewrite H. reflexivity.
Defined.

(** X4.  The expiry of a room set is renewed by whoever comes next, so the
    room list can name a user who is no longer online: when a second user
    joins the room less than 60 seconds after the first, then between the
    first user's expiry and the second's the first user is not online and
    is still in the member list of the room. *)
Theorem expired_user_stays_listed t1 t2 t u v r (d : db) :
  reachable d -> r <> 0 -> u <> v ->
  t1 <= t2 < t1 + seconds 60 ->
  t1 + seconds 60 <= t < t2 + seconds 60 ->
  let d1 := (set_user_online t1 u (Some r) d).2 in
  let d2 := (set_user_online t2 v (Some r) d1).2 in
  is_user_online t u d2 = (inr 0, d2)
  /\ exists users, get_online_users_in_room t r d2 = (inr users, d2) /\ u ∈ users.
Proof.
  intros Hreach Hr Huv Ht2 Ht d1 d2.
  pose proof (reachable_well_formed d Hreach) as Hwf.
  assert (well_formed d1) as Hwf1 by apply set_user_online_well_formed, Hwf.
  assert (well_formed d2) as Hwf2 by apply set_user_online_well_formed, Hwf1.
  destruct (set_user_online_lookup t1 u r d Hwf Hr) as (s1 & d1' & E1 & Hu1 & _).
  assert (d1 = d1') as Hd1 by (unfold d1; rewrite E1; reflexivity).
  pose proof (set_user_online_room_entry t1 u r d Hwf Hr) as Hroom1. fold d1 in Hroom1.
  pose proof (set_user_online_room_entry t2 v r d1 Hwf1 Hr) as Hroom2. fold d2 in Hroom2.
  split.
  - unfold is_user_online, exists_, get.
    replace (d2 !! get_user_presence_key u) with (d1 !! get_user_presence_key u).
    + rewrite Hd1, Hu1. cbn [live expires_at].
      replace (t <? t1 + seconds 60) with false by (symmetry; apply Z.ltb_ge; lia).
      reflexivity.
    + symmetry. apply set_user_online_other_keys; [exact Hwf1| |].
      * intros H%user_key_inj. contradiction.
      * intros r0 _ H. exact (user_key_ne_room_key u r0 H).
  - destruct (get_online_users_well_formed t r d2 Hwf2) as (users & E & Hus).
    exists users. split; [exact E|]. apply Hus.
    unfold members_at at 1, get. rewrite Hroom2. cbn [live expires_at].
    replace (t <? t2 + seconds 60) with true by (symmetry; apply Z.ltb_lt; lia).
    apply elem_of_union_r. unfold members_at, get. rewrite Hroom1. cbn [live expires_at].
    replace (t2 <? t1 + seconds 60) with true by (symmetry; apply Z.ltb_lt; lia).
    apply elem_of_union_l, elem_of_singleton. reflexivity.
Qed.

Lemma expired_user_stays_listed_witness :
  reachable (∅ : db)
  /\ (let d1 := (set_user_online 0 5 (Some 7) (∅ : db)).2 in
      let d2 := (set_user_online (seconds 30) 6 (Some 7) d1).2 in
      (is_user_online (seconds 70) 5 d2).1 = inr 0
      /\ (get_online_users_in_room (seconds 70) 7 d2).1 = inr [5; 6]).
Proof.
  split; [constructor|].
  destruct (expired_user_stays_listed 0 (seconds 30) (seconds 70) 5 6 7 ∅)
    as [H _]; [constructor|lia|lia|unfold seconds; lia|unfold seconds; lia|].
  cbv zeta in *. rewrite H. split; [reflexivity|vm_compute; reflexivity].
Defined.

(** X5.  Marking a user offline twice is the same as doing it once: the
    second call returns normally and leaves the store exactly as the first
    one left it. *)
Theorem set_user_offline_idempotent t1 t2 u (d : db) :
  reachable d -> t1 <= t2 ->
  let d' := (set_user_offline t1 u d).2 in
  set_user_offline t2 u d' = (inr tt, d').
Proof.
  intros Hwf%reachable_well_formed Ht d'.
  destruct (set_user_offline_lookup t1 u d Hwf) as (d1 & E1 & L1).
  assert (d' = d1) as -> by (unfold d'; rewrite E1; reflexivity).
  assert (well_formed d1) as Hwf1.
  { pose proof (set_user_offline_well_formed t1 u d Hwf) as H. rewrite E1 in H. exact H. }
  destruct (set_user_offline_lookup t2 u d1 Hwf1) as (d2 & E2 & L2).
  rewrite E2. f_equal. apply map_eq. intros k. rewrite L2.
  assert (d1 !! get_user_presence_key u = None) as Hgone.
  { rewrite L1, lookup_delete_eq. case_bool_decide; reflexivity. }
  assert (base.delete (get_user_presence_key u) d1 = d1) as ->.
  { apply map_eq. intros k'. destruct (decide (k' = get_user_presence_key u)) as [->|Hne].
    - rewrite lookup_delete_eq, Hgone. reflexivity.
    - apply lookup_delete_ne. congruence. }
  case_bool_decide as Hin; [|reflexivity].
  rewrite L1. set (d0 := base.delete (get_user_presence_key u) d) in *.
  case_bool_decide as Hin1.
  - apply elem_of_scan_keys in Hin1 as (e & Hg & _). unfold get in Hg.
    destruct (d0 !! k) as [[[v|s] ex]|] eqn:He; try discriminate; cbn [srem_entry].
    + destruct (live t1 _); discriminate || reflexivity.
    + destruct (live t1 (mk_entry (VSet s) ex)) eqn:Hl1; [|discriminate].
      case_bool_decide as Hempty; [reflexivity|].
      cbn [srem_entry]. destruct (live t2 _); [|reflexivity].
      replace (s ∖ {[str_int u]} ∖ {[str_int u]}) with (s ∖ {[str_int u]})
        by (apply set_eq; intros x; rewrite !elem_of_difference; tauto).
      rewrite bool_decide_false by exact Hempty. reflexivity.
  - (* not scanned at [t1]: not alive then, not alive now *)
    apply elem_of_scan_keys in Hin as (e & Hg & Hglob). unfold get in Hg.
    rewrite L1 in Hg. fold d0 in Hg.
    rewrite bool_decide_false in Hg by exact Hin1.
    exfalso. apply Hin1, elem_of_scan_keys.
    unfold get. destruct (d0 !! k) as [e0|]; [|discriminate].
    exists e0. split; [|exact Hglob].
    replace (live t1 e0) with true; [reflexivity|].
    destruct (live t2 e0) eqn:Hl2; [|discriminate].
    symmetry. unfold live in *. destruct (expires_at e0); [|reflexivity].
    apply Z.ltb_lt. apply Z.ltb_lt in Hl2. lia.
Qed.

Lemma set_user_offline_idempotent_witness :
  reachable (set_user_online 0 5 (Some 7) (∅ : db)).2 /\ 10 <= 20
  /\ (let d' := (set_user_offline 10 5 (set_user_online 0 5 (Some 7) (∅ : db)).2).2 in
      set_user_offline 20 5 d' = (inr tt, d')).
Proof.
  assert (reachable (set_user_online 0 5 (Some 7) (∅ : db)).2) as Hr
    by (eapply reachable_step; constructor).
  split; [exact Hr|]. split; [lia|].
  apply (set_user_offline_idempotent 10 20 5 _ Hr). lia.
Defined.
End PresenceMore.

(** ** Group names, time formatting and page counts *)

Module UtilsFacts.
Import Utils PyFacts.

(** Linear arithmetic with quotients and remainders. *)
Ltac div_lia := Z.to_euclidean_division_equations; lia.

Lemma room_group_inj r s :
  get_room_channel_group r = get_room_channel_group s -> r = s.
Proof. intros H%PresenceMore.append_inj. apply str_int_inj, H. Qed.

Lemma user_group_inj u v :
  get_user_channel_group u = get_user_channel_group v -> u = v.
Proof. intros H%PresenceMore.append_inj. apply str_int_inj, H. Qed.

Lemma room_group_ne_user_group r u :
  get_room_channel_group r <> get_user_channel_group u.
Proof. unfold get_room_channel_group, get_user_channel_group. cbn. discriminate. Qed.

(** X6.  Group names and presence keys identify their object: two rooms
    share a channel group name only when they are the same room, likewise
    two users; a room group is never a user's notification group, and a
    room presence key is never a user presence key. *)
Theorem group_names_do_not_collide r s u v :
  (get_room_channel_group r = get_room_channel_group s <-> r = s)
  /\ (get_user_channel_group u = get_user_channel_group v <-> u = v)
  /\ get_room_channel_group r <> get_user_channel_group u
  /\ Presence.get_room_presence_key r <> Presence.get_user_presence_key u.
Proof.
  split; [|split; [|split]].
  - split; [apply room_group_inj|congruence].
  - split; [apply user_group_inj|congruence].
  - apply room_group_ne_user_group.
  - intros H. exact (PresenceFacts.user_key_ne_room_key u r (eq_sym H)).
Qed.

(** X7.  get_time_ago answers either Just now or a count of at least 1 in
    years, months, days, hours or minutes; a missing date and any age
    under 61 seconds give Just now; from 61 seconds to under 3601 seconds
    the answer is in minutes (1 to 60), and from 3601 seconds to under a
    day it is in hours (1 to 23). *)
Theorem get_time_ago_counts_from_one now dt :
  (get_time_ago now dt = "Just now"
   \/ exists n unit, 1 <= n /\ unit ∈ Spec.time_units /\ get_time_ago now dt = ago n unit)
  /\ get_time_ago now None = "Just now"
  /\ (forall t, 0 <= now - t < seconds 61 -> get_time_ago now (Some t) = "Just now")
  /\ (forall t, seconds 61 <= now - t < seconds 3601 ->
                exists n, 1 <= n <= 60 /\ get_time_ago now (Some t) = ago n "minute")
  /\ (forall t, seconds 3601 <= now - t < day ->
                exists n, 1 <= n <= 23 /\ get_time_ago now (Some t) = ago n "hour").
Proof.
  split; [|split; [reflexivity|split; [|split]]].
  - unfold get_time_ago, Spec.time_units.
    set (diff := match dt with Some t => now - t | None => 0 end).
    generalize (days diff) (secs diff). intros dd ss.
    destruct (365 <? dd) eqn:H1.
    { right. exists (dd / 365), "year". apply Z.ltb_lt in H1.
      split; [div_lia|]. split; [set_solver|reflexivity]. }
    destruct (30 <? dd) eqn:H2.
    { right. exists (dd / 30), "month". apply Z.ltb_lt in H2.
      split; [div_lia|]. split; [set_solver|reflexivity]. }
    destruct (0 <? dd) eqn:H3.
    { right. exists (dd), "day". apply Z.ltb_lt in H3.
      split; [div_lia|]. split; [set_solver|reflexivity]. }
    destruct (3600 <? ss) eqn:H4.
    { right. exists (ss / 3600), "hour". apply Z.ltb_lt in H4.
      split; [div_lia|]. split; [set_solver|reflexivity]. }
    destruct (60 <? ss) eqn:H5.
    { right. exists (ss / 60), "minute". apply Z.ltb_lt in H5.
      split; [div_lia|]. split; [set_solver|reflexivity]. }
    left. reflexivity.
  - intros t Ht. unfold get_time_ago, days, secs, day, seconds in *.
    replace ((now - t) / (86400 * 1000000)) with 0 by div_lia.
    cbn [Z.ltb Z.compare].
    replace (3600 <? (now - t) mod (86400 * 1000000) / (1 * 1000000)) with false
      by (symmetry; apply Z.ltb_ge; div_lia).
    replace (60 <? (now - t) mod (86400 * 1000000) / (1 * 1000000)) with false
      by (symmetry; apply Z.ltb_ge; div_lia).
    reflexivity.
  - intros t Ht. unfold get_time_ago, days, secs, day, seconds in *.
    replace ((now - t) / (86400 * 1000000)) with 0 by div_lia.
    cbn [Z.ltb Z.compare].
    replace (3600 <? (now - t) mod (86400 * 1000000) / (1 * 1000000)) with false
      by (symmetry; apply Z.ltb_ge; div_lia).
    replace (60 <? (now - t) mod (86400 * 1000000) / (1 * 1000000)) with true
      by (symmetry; apply Z.ltb_lt; div_lia).
    eexists. split; [|reflexivity]. div_lia.
  - intros t Ht. unfold get_time_ago, days, secs, day, seconds in *.
    replace ((now - t) / (86400 * 1000000)) with 0 by div_lia.
    cbn [Z.ltb Z.compare].
    replace (3600 <? (now - t) mod (86400 * 1000000) / (1 * 1000000)) with true
      by (symmetry; apply Z.ltb_lt; div_lia).
    eexists. split; [|reflexivity]. div_lia.
Qed.

(** X8.  A date in the future is reported as hours ago: for a date up to
    20 hours ahead of the clock, get_time_ago answers a number of hours
    between 4 and 23, because a negative timedelta has days = -1 and its
    seconds counted up from the previous midnight. *)
Theorem get_time_ago_of_a_future_date now t :
  0 < t - now <= seconds (20 * 3600) ->
  exists n, 4 <= n <= 23 /\ get_time_ago now (Some t) = ago n "hour".
Proof.
  intros Ht. unfold get_time_ago, days, secs, day, seconds in *.
  replace ((now - t) / (86400 * 1000000)) with (-1) by div_lia.
  cbn [Z.ltb Z.compare].
  replace (3600 <? (now - t) mod (86400 * 1000000) / (1 * 1000000)) with true
    by (symmetry; apply Z.ltb_lt; div_lia).
  eexists. split; [|reflexivity]. div_lia.
Qed.

Lemma get_time_ago_of_a_future_date_witness :
  0 < 101 - 100 <= seconds (20 * 3600)
  /\ get_time_ago 100 (Some 101) = "23 hours ago".
Proof.
  split; [unfold seconds; lia|].
  destruct (get_time_ago_of_a_future_date 100 101) as (n & _ & _);
    [unfold seconds; lia|]. reflexivity.
Defined.

(** X9.  For a positive page size and a queryset of count rows,
    get_pagination_info reports that count and the least number of pages
    that holds the rows (none for an empty queryset); has_next holds
    exactly for pages before the last and has_previous exactly for pages
    after the first; a page size of 0 raises instead. *)
Theorem get_pagination_info_counts_pages count page_size page :
  0 < page_size -> 0 <= count ->
  exists info,
    get_pagination_info count page_size page = Some info
    /\ total_count info = count
    /\ count <= total_pages info * page_size < count + page_size
    /\ (total_pages info = 0 <-> count = 0)
    /\ (has_next info = true <-> page < total_pages info)
    /\ (has_previous info = true <-> 1 < page)
    /\ get_pagination_info count 0 page = None.
Proof.
  intros Hps Hc. unfold get_pagination_info.
  rewrite (proj2 (Z.eqb_neq page_size 0)) by lia.
  eexists. split; [reflexivity|].
  cbn [total_count total_pages has_next has_previous].
  pose proof (Z.div_mod (count + page_size - 1) page_size ltac:(lia)) as Hdm.
  pose proof (Z.mod_pos_bound (count + page_size - 1) page_size Hps) as Hm.
  set (q := (count + page_size - 1) / page_size) in *.
  repeat split; nia.
Qed.

Lemma get_pagination_info_counts_pages_witness :
  0 < 20 /\ 0 <= 41
  /\ option_map total_pages (get_pagination_info 41 20 1) = Some 3.
Proof.
  split; [lia|]. split; [lia|].
  destruct (get_pagination_info_counts_pages 41 20 1) as (info & E & _); [lia|lia|].
  reflexivity.
Defined.
End UtilsFacts.

(** ** Accounts: the online flag, blank content, the token of the query *)

Module AccountsMore.
Import Accounts AccountsFacts.

(** X10.  User.set_online and User.set_offline write the presence flag and
    last_seen of that user's row and nothing else: every other row of the
    user table is as before, and, although a post_save receiver is there
    to announce presence changes to the user's rooms, no event is
    published and Redis is not touched, because the receiver compares the
    saved instance with the row it has just written. *)
Theorem presence_flag_is_saved_silently now self w :
  let online := set_online now self w in
  let offline := set_offline now self w in
  World.layer online.2 = World.layer w
  /\ World.layer offline.2 = World.layer w
  /\ World.redis online.2 = World.redis w
  /\ World.redis offline.2 = World.redis w
  /\ User.is_online online.1 = true /\ User.last_seen online.1 = None
  /\ User.is_online offline.1 = false /\ User.last_seen offline.1 = Some now
  /\ Forall2 (fun old new =>
                new = if User.id old =? User.id self
                      then User.set_presence true None old else old)
             (Db.users (World.db w)) (Db.users (World.db online.2))
  /\ Forall2 (fun old new =>
                new = if User.id old =? User.id self
                      then User.set_presence false (Some now) old else old)
             (Db.users (World.db w)) (Db.users (World.db offline.2)).
Proof.
  intros online offline. subst online offline.
  unfold set_online, set_offline. rewrite !save_presence_silent. cbv zeta.
  cbn [fst snd World.layer World.redis World.set_db World.db Db.users Db.set_users].
  assert (forall b seen,
             Forall2 (fun old new =>
                        new = if User.id old =? User.id self
                              then User.set_presence b seen old else old)
                     (Db.users (World.db w))
                     (map (fun row =>
                             if User.id row =? User.id self
                             then User.set_presence b seen row else row)
                          (Db.users (World.db w)))) as Hrows.
  { intros b seen. induction (Db.users (World.db w)); constructor; auto. }
  repeat split; try (destruct (User.id _ =? 0); reflexivity).
  - destruct (User.id (User.set_presence true None self) =? 0); apply Hrows.
  - destruct (User.id (User.set_presence false (Some now) self) =? 0); apply Hrows.
Qed.

Lemma split_nonempty sep s : PyStr.split sep s <> [].
Proof.
  destruct s as [|c s]; cbn [PyStr.split]; [discriminate|].
  destruct (Ascii.eqb c sep); [discriminate|]. destruct (PyStr.split sep s); discriminate.
Qed.

Lemma split_app sep a b :
  PyStr.split sep (String.append a (String sep b))
  = (PyStr.split sep a ++ PyStr.split sep b)%list.
Proof.
  induction a as [|c a IH].
  - change (String.append EmptyString (String sep b)) with (String sep b).
    cbn [PyStr.split]. rewrite (Ascii.eqb_refl sep). reflexivity.
  - change (String.append (String c a) (String sep b))
      with (String c (String.append a (String sep b))).
    cbn [PyStr.split]. rewrite IH. destruct (Ascii.eqb c sep); [reflexivity|].
    destruct (PyStr.split sep a) as [|piece rest] eqn:E; [|reflexivity].
    exfalso. exact (split_nonempty sep a E).
Qed.

Lemma split_without sep s :
  PyStr.contains_char sep s = false -> PyStr.split sep s = [s].
Proof.
  induction s as [|c s IH]; cbn [PyStr.contains_char PyStr.split]; [reflexivity|].
  intros [Hc Hs]%orb_false_iff. rewrite Hc, (IH Hs). reflexivity.
Qed.

Lemma dict_get_last {A} key (v : A) pairs :
  PyStr.dict_get key (pairs ++ [(key, v)]) = Some v.
Proof.
  induction pairs as [|[k x] pairs IH]; cbn [PyStr.dict_get app].
  - rewrite String.eqb_refl. reflexivity.
  - rewrite IH. reflexivity.
Qed.

(** X12.  The WebSocket middleware reads the token from the query string
    as the value of the last token parameter: whatever stands before it, a
    query string that ends in &token=value (value without an ampersand)
    yields value, also when value contains an equals sign; an empty query
    string yields no token. *)
Theorem query_token_is_the_last_token_parameter query value :
  PyStr.contains_char "&" value = false ->
  query_token (String.append query (String.append "&token=" value)) = Some value
  /\ query_token (String.append "token=" value) = Some value
  /\ query_token EmptyString = None.
Proof.
  intros Hv.
  assert (PyStr.split "&" (String.append "token=" value)
          = [String.append "token=" value]) as Hsplit.
  { apply split_without. cbn. exact Hv. }
  split; [|split; [|reflexivity]].
  - unfold query_token, query_params.
    replace (String.eqb (String.append query (String.append "&token=" value)) EmptyString)
      with false by (destruct query; reflexivity).
    change (String.append "&token=" value) with (String "&" (String.append "token=" value)).
    rewrite split_app, Hsplit, List.filter_app, List.map_app. cbn [List.filter].
    replace (PyStr.contains_char "=" (String.append "token=" value)) with true
      by reflexivity.
    cbn [map]. replace (PyStr.split_once "=" (String.append "token=" value))
      with ("token", value) by (cbn; destruct (PyStr.split_once "=" value); reflexivity).
    apply dict_get_last.
  - unfold query_token, query_params. cbn [String.append String.eqb].
    change (String "t" (String "o" (String "k" (String "e" (String "n" (String "=" value))))))
      with (String.append "token=" value).
    rewrite Hsplit. cbn [List.filter].
    replace (PyStr.contains_char "=" (String.append "token=" value)) with true
      by reflexivity.
    cbn [map]. replace (PyStr.split_once "=" (String.append "token=" value))
      with ("token", value) by (cbn; destruct (PyStr.split_once "=" value); reflexivity).
    apply (dict_get_last "token" value []).
Qed.

Lemma query_token_is_the_last_token_parameter_witness :
  PyStr.contains_char "&" "b=c" = false
  /\ query_token "token=a&x&token=b=c" = Some "b=c".
Proof.
  split; [reflexivity|].
  destruct (query_token_is_the_last_token_parameter "token=a&x" "b=c") as [H _];
    [reflexivity|]. exact H.
Defined.

Section Unauthenticated.
Variable access_token_user_id : string -> option (option Z).

(** X13.  When the middleware resolves a connection to the anonymous
    user (no token, a token that fails validation, or an unknown user),
    it changes nothing, and ChatConsumer.connect closes the socket with
    code 4001 without accepting it, without sending a frame, and without
    touching the database, Redis or any group. *)
Theorem anonymous_connection_is_closed_4001 now query_string room_id w c :
  (jwt_auth_middleware access_token_user_id now query_string w).1 = AnonymousUser ->
  (jwt_auth_middleware access_token_user_id now query_string w).2 = w
  /\ exists c',
      Consumers.connect now room_id (Some AnonymousUser) w c = (w, c')
      /\ Consumers.close_code c' = Some 4001
      /\ Consumers.accepted c' = Consumers.accepted c
      /\ Consumers.outbox c' = Consumers.outbox c.
Proof.
  intros H. split.
  - revert H. unfold jwt_auth_middleware.
    destruct (query_token query_string) as [token|]; [|reflexivity].
    destruct (String.eqb token EmptyString); [reflexivity|].
    destruct (get_user_from_token _ token (World.db w)); [reflexivity|].
    destruct (set_online now u w). discriminate.
  - eexists. split; [reflexivity|]. repeat split.
Qed.
End Unauthenticated.

Lemma anonymous_connection_is_closed_4001_witness :
  (jwt_auth_middleware Sample.access_token 100 "token=forged" Sample.world).1
  = AnonymousUser
  /\ (jwt_auth_middleware Sample.access_token 100 "token=forged" Sample.world).2
     = Sample.world.
Proof.
  split; [reflexivity|].
  apply (anonymous_connection_is_closed_4001 Sample.access_token 100 "token=forged" 7
           Sample.world (Consumers.init "specific.mallory")).
  reflexivity.
Defined.
End AccountsMore.

Module BlankContent.
Import Py PyStr.

Lemma lstrip_empty s : lstrip s = EmptyString <-> all_space s = true.
Proof.
  induction s as [|c s IH]; cbn [lstrip all_space]; [tauto|].
  destruct (is_space c); cbn [andb]; [exact IH|]. split; discriminate.
Qed.

Lemma rstrip_empty s : rstrip s = EmptyString <-> all_space s = true.
Proof.
  induction s as [|c s IH]; cbn [rstrip all_space]; [tauto|].
  destruct (rstrip s) eqn:E.
  - destruct (is_space c); cbn [andb]; [|split; discriminate].
    split; intros _; [apply IH|]; reflexivity.
  - split; [discriminate|]. intros [_ H]%andb_true_iff. apply IH in H. discriminate.
Qed.

Lemma lstrip_head s c s' : lstrip s = String c s' -> is_space c = false.
Proof.
  induction s as [|a s IH]; cbn [lstrip]; [discriminate|].
  destruct (is_space a) eqn:E; [exact IH|]. intros [= <- _]. exact E.
Qed.

Lemma strip_empty s : strip s = EmptyString <-> all_space s = true.
Proof.
  unfold strip. rewrite rstrip_empty. split.
  - intros H. apply lstrip_empty. destruct (lstrip s) as [|c s'] eqn:E; [reflexivity|].
    apply lstrip_head in E. cbn [all_space] in H. rewrite E in H. discriminate.
  - intros H%lstrip_empty. rewrite H. reflexivity.
Qed.

(** X11.  Message.clean and MessageCreateSerializer.validate reject the
    same messages, and only those: a message is refused exactly when its
    type is text and its content is empty or white space only;
    Message.clean has no other outcome than success or that one
    ValidationError. *)
Theorem blank_text_is_what_validation_rejects (m : Message.t) message_type content :
  (Message.clean m = Py.ret tt
   <-> ~ (Message.message_type m = "text" /\ all_space (Message.content m) = true))
  /\ (Message.clean m = Py.ret tt
      \/ Message.clean m
         = Py.raise (DjangoValidationError "Text messages must have content."))
  /\ (Views.validate_create message_type content = inr tt
      <-> ~ (default "text" message_type = "text"
             /\ all_space (default EmptyString content) = true)).
Proof.
  split; [|split].
  - unfold Message.clean.
    destruct (String.eqb_spec (Message.message_type m) "text") as [Ht|Ht];
      cbn [andb]; [|split; [tauto|reflexivity]].
    destruct (String.eqb_spec (strip (Message.content m)) EmptyString) as [Hs|Hs].
    + apply strip_empty in Hs. split; [discriminate|tauto].
    + rewrite strip_empty in Hs. split; [tauto|reflexivity].
  - unfold Message.clean. destruct (_ && _); auto.
  - unfold Views.validate_create.
    destruct (String.eqb_spec (default "text" message_type) "text") as [Ht|Ht];
      cbn [andb]; [|split; [tauto|reflexivity]].
    destruct (String.eqb_spec (strip (default EmptyString content)) EmptyString) as [Hs|Hs].
    + apply strip_empty in Hs. split; [discriminate|tauto].
    + rewrite strip_empty in Hs. split; [tauto|reflexivity].
Qed.
End BlankContent.

(** ** The channel layer *)

Module ChannelFacts.
Import Channels.

Lemma copies_for channel ev (channels : list string) :
  NoDup channels ->
  map snd (List.filter (fun d : string * event => String.eqb (fst d) channel)
                       (map (fun c => (c, ev)) channels))
  = if bool_decide (channel ∈ channels) then [ev] else [].
Proof.
  induction 1 as [|c channels Hc _ IH]; [reflexivity|].
  cbn [map List.filter fst]. destruct (String.eqb_spec c channel) as [->|Hne].
  - cbn [map snd]. rewrite bool_decide_true by left.
    rewrite IH, bool_decide_false by exact Hc. reflexivity.
  - rewrite IH. apply (f_equal (fun b : bool => if b then [ev] else [])).
    apply bool_decide_ext. rewrite elem_of_cons. intuition congruence.
Qed.

(** A [group_send] hands one copy to each channel of the group and
    nothing to any other channel. *)
Lemma inbox_group_send channel group ev l :
  inbox channel (group_send group ev l)
  = (inbox channel l
     ++ if bool_decide (channel ∈ members group l) then [ev] else [])%list.
Proof.
  unfold inbox, group_send. cbn [delivered].
  rewrite List.filter_app, List.map_app. f_equal.
  rewrite copies_for by apply NoDup_elements.
  apply (f_equal (fun b : bool => if b then [ev] else [])).
  apply bool_decide_ext, elem_of_elements.
Qed.

Lemma members_group_add group channel l g :
  members g (group_add group channel l)
  = if decide (g = group) then {[channel]} ∪ members group l else members g l.
Proof.
  unfold members at 1, group_add. cbn [groups].
  destruct (decide (g = group)) as [->|Hne].
  - rewrite lookup_insert_eq. reflexivity.
  - rewrite lookup_insert_ne by congruence. reflexivity.
Qed.

Lemma members_group_send group ev l g :
  members g (group_send group ev l) = members g l.
Proof. reflexivity. Qed.

Lemma members_group_discard group channel l g :
  members g (group_discard group channel l)
  = if decide (g = group) then members group l ∖ {[channel]} else members g l.
Proof.
  unfold members at 1, group_discard. cbn [groups].
  destruct (decide (g = group)) as [->|Hne].
  - rewrite lookup_insert_eq. reflexivity.
  - rewrite lookup_insert_ne by congruence. reflexivity.
Qed.
End ChannelFacts.

(** ** Connection lifecycle *)

Module LifecycleFacts.
Import Consumers Spec ChannelFacts.

Lemma is_room_member_true user room_id db :
  room_exists room_id db -> active_member (User.id user) room_id db ->
  is_room_member user room_id db = true.
Proof.
  intros (room & Hroom & Hid) (m & Hm & Hu & Hr & Ha).
  unfold is_room_member. apply existsb_exists. exists room.
  split; [apply list_elem_of_In, Hroom|]. apply andb_true_iff.
  split; [apply Z.eqb_eq, Hid|]. apply existsb_exists. exists m.
  split; [apply list_elem_of_In, Hm|]. unfold Db.active_membership.
  rewrite Hr, Hu, Ha, !Z.eqb_refl. reflexivity.
Qed.

(** X14.  For an active member of an existing room (other than room 0),
    ChatConsumer.connect accepts the socket without closing it or sending
    a frame of its own, attaches the channel to the room group, marks the
    user online in the room, and publishes one user_joined event to the
    room group, which the new channel itself receives; the database is
    unchanged. *)
Theorem connect_joins_and_announces now room_id u w c :
  room_exists room_id (World.db w) ->
  active_member (User.id u) room_id (World.db w) ->
  Presence.reachable (World.redis w) ->
  room_id <> 0 ->
  let group := Utils.get_room_channel_group room_id in
  let joined_event := Channels.user_joined (User.id u) (User.get_full_name u) in
  let r := connect now room_id (Some (Accounts.Authenticated u)) w c in
  accepted r.2 = true
  /\ close_code r.2 = close_code c
  /\ outbox r.2 = outbox c
  /\ joined r.2 room_id u
  /\ World.db r.1 = World.db w
  /\ Channels.members group (World.layer r.1)
     = {[channel_name c]} ∪ Channels.members group (World.layer w)
  /\ Channels.published (World.layer r.1)
     = (Channels.published (World.layer w) ++ [(group, joined_event)])%list
  /\ Channels.inbox (channel_name c) (World.layer r.1)
     = (Channels.inbox (channel_name c) (World.layer w) ++ [joined_event])%list
  /\ World.redis r.1
     = (Presence.set_user_online now (User.id u) (Some room_id) (World.redis w)).2
  /\ (Presence.is_user_online now (User.id u) (World.redis r.1)).1 = inr 1.
Proof.
  intros Hroom Hmember Hreach Hr group joined_event r.
  pose proof (PresenceFacts.reachable_well_formed _ Hreach) as Hwf.
  destruct (PresenceFacts.online_after_set_user_online now (User.id u) room_id
              (World.redis w) Hwf Hr) as (d' & E & Hon).
  assert (r = (World.mk (World.db w) d'
                 (Channels.group_send group joined_event
                    (Channels.group_add group (channel_name c) (World.layer w))),
               mk (channel_name c) (Some room_id) (Some group)
                  (Some (Accounts.Authenticated u)) true (close_code c) (outbox c)))
    as ->.
  { unfold r, connect. rewrite (is_room_member_true u room_id _ Hroom Hmember).
    cbn [negb World.redis World.set_layer channel_name]. rewrite E. reflexivity. }
  cbn [fst snd accepted close_code outbox World.db World.layer World.redis].
  split; [reflexivity|]. split; [reflexivity|]. split; [reflexivity|].
  split; [repeat split|]. split; [reflexivity|].
  split; [rewrite members_group_send, members_group_add;
          destruct (decide (group = group)); [reflexivity|congruence]|].
  split; [reflexivity|]. split.
  - rewrite inbox_group_send, members_group_add.
    destruct (decide (group = group)); [|congruence].
    rewrite bool_decide_true by (apply elem_of_union_l, elem_of_singleton; reflexivity).
    reflexivity.
  - split; [rewrite E; reflexivity|].
    destruct (Hon now) as [-> _]; [unfold seconds; lia|]. reflexivity.
Qed.

Ltac row_of_sample :=
  cbn; repeat first [apply list_elem_of_here | apply list_elem_of_further].

Lemma connect_joins_and_announces_witness :
  room_exists 7 (World.db Sample.world)
  /\ active_member (User.id Sample.alice) 7 (World.db Sample.world)
  /\ Presence.reachable (World.redis Sample.world)
  /\ accepted (connect 100 7 (Some (Accounts.Authenticated Sample.alice))
                       Sample.world (init "specific.alice")).2 = true.
Proof.
  assert (room_exists 7 (World.db Sample.world)) as H1.
  { exists Sample.lounge. split; [row_of_sample|reflexivity]. }
  assert (active_member (User.id Sample.alice) 7 (World.db Sample.world)) as H2.
  { eexists. split; [apply list_elem_of_here|]. repeat split. }
  assert (Presence.reachable (World.redis Sample.world)) as H3 by constructor.
  split; [exact H1|]. split; [exact H2|]. split; [exact H3|].
  apply (connect_joins_and_announces 100 7 Sample.alice Sample.world
           (init "specific.alice") H1 H2 H3). lia.
Defined.

(** X15.  connect stores the room and the user before it checks
    membership, so when disconnect runs on a connection that was refused
    with code 4003, the room is still told that the user left: one
    user_left event for that user is published to the room group and
    delivered to every member channel, and the user is marked offline,
    although the user never joined. *)
Theorem refused_connection_still_announces_departure now later code room_id u w c :
  is_room_member u room_id (World.db w) = false ->
  let group := Utils.get_room_channel_group room_id in
  let refused := connect now room_id (Some (Accounts.Authenticated u)) w c in
  let r := disconnect later code refused.1 refused.2 in
  close_code refused.2 = Some 4003
  /\ Channels.published (World.layer r.1)
     = (Channels.published (World.layer w)
        ++ [(group, Channels.user_left (Some (User.id u)) (User.get_full_name u))])%list
  /\ World.redis r.1
     = (Presence.set_user_offline later (User.id u) (World.redis w)).2
  /\ forall channel,
       channel <> channel_name c ->
       channel ∈ Channels.members group (World.layer w) ->
       Channels.inbox channel (World.layer r.1)
       = (Channels.inbox channel (World.layer w)
          ++ [Channels.user_left (Some (User.id u)) (User.get_full_name u)])%list.
Proof.
  intros Hnot group refused r.
  assert (refused = (w, mk (channel_name c) (Some room_id) (Some group)
                           (Some (Accounts.Authenticated u)) (accepted c)
                           (Some 4003) (outbox c))) as Hrefused.
  { unfold refused, connect. rewrite Hnot. reflexivity. }
  unfold r. rewrite Hrefused.
  cbn [fst snd disconnect close_code room_group_name user channel_name
       World.layer World.redis World.set_layer World.set_redis].
  split; [reflexivity|]. split; [reflexivity|]. split; [reflexivity|].
  intros channel Hne Hin. rewrite inbox_group_send, members_group_discard.
  destruct (decide (group = group)); [|congruence].
  rewrite bool_decide_true; [reflexivity|].
  apply elem_of_difference. split; [exact Hin|].
  intros ->%elem_of_singleton. contradiction.
Qed.

Lemma refused_connection_still_announces_departure_witness :
  is_room_member Sample.carol 7 (World.db Sample.world) = false
  /\ Channels.published
       (World.layer
          (disconnect 200 1006
             (connect 100 7 (Some (Accounts.Authenticated Sample.carol))
                      Sample.world (init "specific.carol")).1
             (connect 100 7 (Some (Accounts.Authenticated Sample.carol))
                      Sample.world (init "specific.carol")).2).1)
     = [("chat_7", Channels.user_left (Some 3) "carol@example.org")].
Proof.
  split; [reflexivity|].
  destruct (refused_connection_still_announces_departure
              100 200 1006 7 Sample.carol Sample.world (init "specific.carol"))
    as (_ & H & _); [reflexivity|]. exact H.
Defined.

(** X16.  ChatConsumer.disconnect on a joined connection detaches the
    channel from the room group first and then publishes user_left, so
    every remaining channel of the group receives the event once and the
    leaving channel does not; from then on the user is offline and in the
    member list of no room; the database is unchanged. *)
Theorem disconnect_leaves_announces_and_goes_offline later code room_id u w c :
  joined c room_id u ->
  Presence.reachable (World.redis w) ->
  let group := Utils.get_room_channel_group room_id in
  let left_event := Channels.user_left (Some (User.id u)) (User.get_full_name u) in
  let r := disconnect later code w c in
  r.2 = c
  /\ World.db r.1 = World.db w
  /\ Channels.members group (World.layer r.1)
     = Channels.members group (World.layer w) ∖ {[channel_name c]}
  /\ Channels.inbox (channel_name c) (World.layer r.1)
     = Channels.inbox (channel_name c) (World.layer w)
  /\ (forall channel,
        channel <> channel_name c ->
        Channels.inbox channel (World.layer r.1)
        = (Channels.inbox channel (World.layer w)
           ++ if bool_decide (channel ∈ Channels.members group (World.layer w))
              then [left_event] else [])%list)
  /\ (forall t, later <= t ->
        (Presence.is_user_online t (User.id u) (World.redis r.1)).1 = inr 0
        /\ forall room, exists users,
             (Presence.get_online_users_in_room t room (World.redis r.1)).1 = inr users
             /\ User.id u ∉ users).
Proof.
  intros (Hroom & Huser & Hgroup) Hreach group left_event r.
  pose proof (PresenceFacts.reachable_well_formed _ Hreach) as Hwf.
  destruct (PresenceFacts.offline_after_set_user_offline later (User.id u)
              (World.redis w) Hwf) as (d' & E & Hoff).
  assert (r = (World.mk (World.db w) d'
                 (Channels.group_send group left_event
                    (Channels.group_discard group (channel_name c) (World.layer w))),
               c)) as ->.
  { unfold r, disconnect. rewrite Hgroup, Huser.
    cbn [World.redis World.set_layer]. rewrite E. reflexivity. }
  cbn [fst snd World.db World.layer World.redis].
  split; [reflexivity|]. split; [reflexivity|]. split.
  { rewrite members_group_send, members_group_discard.
    destruct (decide (group = group)); [reflexivity|congruence]. }
  split.
  { rewrite inbox_group_send, members_group_discard.
    destruct (decide (group = group)); [|congruence].
    rewrite bool_decide_false; [apply app_nil_r|].
    intros [_ H]%elem_of_difference. apply H, elem_of_singleton. reflexivity. }
  split.
  { intros channel Hne. rewrite inbox_group_send, members_group_discard.
    destruct (decide (group = group)); [|congruence]. f_equal.
    apply (f_equal (fun b : bool => if b then [left_event] else [])).
    apply bool_decide_ext. rewrite elem_of_difference, elem_of_singleton. tauto. }
  intros t Ht. destruct (Hoff t Ht) as [-> Hrooms]. split; [reflexivity|].
  intros room. destruct (Hrooms room) as (users & -> & Hu). eauto.
Qed.

Lemma disconnect_leaves_announces_and_goes_offline_witness :
  joined Sample.connection 7 Sample.alice
  /\ Presence.reachable (World.redis Sample.world)
  /\ (disconnect 200 1000 Sample.world Sample.connection).2 = Sample.connection.
Proof.
  assert (joined Sample.connection 7 Sample.alice) as H1 by (repeat split).
  assert (Presence.reachable (World.redis Sample.world)) as H2 by constructor.
  split; [exact H1|]. split; [exact H2|].
  apply (disconnect_leaves_announces_and_goes_offline 200 1000 7 Sample.alice
           Sample.world Sample.connection H1 H2).
Defined.
End LifecycleFacts.

(** ** Inbound frames *)

Module FrameFacts.
Import Consumers Spec ChannelFacts.

Lemma frame_effect_send w c f : frame_effect w w c (send f c).
Proof. unfold frame_effect. cbn. repeat split; eauto. Qed.

Lemma frame_effect_publish w c group ev :
  frame_effect w (World.set_layer (Channels.group_send group ev (World.layer w)) w) c c.
Proof. unfold frame_effect. cbn. repeat split; eauto. Qed.

Section Receive.
Variable json_loads : string -> option Json.t.
Variable JoinMessage LeaveMessage : list (string * Json.t) -> string + unit.
Variable MessageMessage : list (string * Json.t) -> string + MessageData.
Variable AttachmentMessage : list (string * Json.t) -> string + AttachmentData.
Variable TypingMessage : list (string * Json.t) -> string + list (string * Json.t).

Local Abbreviation receive :=
  (receive json_loads JoinMessage LeaveMessage MessageMessage
           AttachmentMessage TypingMessage).
Local Abbreviation receive_each :=
  (receive_each json_loads JoinMessage LeaveMessage MessageMessage
                AttachmentMessage TypingMessage).

Lemma handle_message_effect now data w c :
  frame_effect w (handle_message MessageMessage now data w c).1 c
               (handle_message MessageMessage now data w c).2.
Proof.
  unfold handle_message.
  destruct (MessageMessage data) as [e|message]; [apply frame_effect_send|].
  destruct (room_id c) as [room|]; [|apply frame_effect_send].
  destruct (user c) as [[|sender]|]; try apply frame_effect_send.
  destruct (room_group_name c) as [group|]; [|apply frame_effect_send].
  destruct (create_message _ _ _ _ _ _) as [db_message db] eqn:E.
  assert (Db.users db = Db.users (World.db w)
          /\ Db.rooms db = Db.rooms (World.db w)
          /\ Db.memberships db = Db.memberships (World.db w)) as (Hu & Hr & Hm).
  { unfold create_message, Db.create_message in E. injection E as _ <-.
    repeat split. }
  destruct (serialize_message _ _ _ _); unfold frame_effect; cbn;
    rewrite Hu, Hr, Hm; repeat split; eauto.
Qed.

Lemma handle_attachment_effect now data w c :
  frame_effect w (handle_attachment AttachmentMessage now data w c).1 c
               (handle_attachment AttachmentMessage now data w c).2.
Proof.
  unfold handle_attachment.
  destruct (AttachmentMessage data) as [e|message]; [apply frame_effect_send|].
  destruct (room_id c) as [room|]; [|apply frame_effect_send].
  destruct (user c) as [[|sender]|]; try apply frame_effect_send.
  destruct (room_group_name c) as [group|]; [|apply frame_effect_send].
  unfold frame_effect. cbn. repeat split; eauto.
Qed.

Lemma receive_effect now text_data w c :
  frame_effect w (receive now text_data w c).1 c (receive now text_data w c).2.
Proof.
  unfold Consumers.receive.
  destruct (json_loads text_data) as [[| | | | | |data]|];
    try apply frame_effect_send.
  destruct (negb (Json.truthy _)); [apply frame_effect_send|].
  destruct (negb (Json.hashable _)); [apply frame_effect_send|].
  destruct (Json.get "type" data) as [| | | |tag| |]; try apply frame_effect_send.
  destruct (String.eqb tag "join").
  { unfold handle_join. destruct (JoinMessage data); apply frame_effect_send. }
  destruct (String.eqb tag "leave").
  { unfold handle_leave. destruct (LeaveMessage data); [apply frame_effect_send|].
    unfold frame_effect. cbn. repeat split; eauto. }
  destruct (String.eqb tag "message"); [apply handle_message_effect|].
  destruct (String.eqb tag "attachment"); [apply handle_attachment_effect|].
  destruct (String.eqb tag "typing"); [|apply frame_effect_send].
  unfold handle_typing. destruct (TypingMessage data); [apply frame_effect_send|].
  destruct (user c) as [[|u]|]; try apply frame_effect_send.
  destruct (room_group_name c); [apply frame_effect_publish|apply frame_effect_send].
Qed.

Lemma receive_each_redis frames : forall w c,
  World.redis (receive_each frames w c).1 = World.redis w.
Proof.
  induction frames as [|[now text_data] frames IH]; intros w c; [reflexivity|].
  cbn [Consumers.receive_each].
  pose proof (receive_effect now text_data w c) as (Hredis & _).
  destruct (receive now text_data w c) as [w1 c1]. cbn [fst] in Hredis.
  rewrite IH. exact Hredis.
Qed.

(** X18.  Whatever text arrives on the socket, receive returns, and it
    never changes Redis, the groups of the channel layer, or the users,
    rooms and memberships of the database; it never accepts a
    connection, closes it with no code other than 1000, and writes at
    most one frame to the socket. *)
Theorem a_frame_changes_little now text_data w c :
  let r := receive now text_data w c in
  World.redis r.1 = World.redis w
  /\ Channels.groups (World.layer r.1) = Channels.groups (World.layer w)
  /\ Db.users (World.db r.1) = Db.users (World.db w)
  /\ Db.rooms (World.db r.1) = Db.rooms (World.db w)
  /\ Db.memberships (World.db r.1) = Db.memberships (World.db w)
  /\ accepted r.2 = accepted c
  /\ (close_code r.2 = close_code c \/ close_code r.2 = Some 1000)
  /\ (outbox r.2 = outbox c \/ exists f, outbox r.2 = (outbox c ++ [f])%list).
Proof.
  intros r. pose proof (receive_effect now text_data w c) as H.
  unfold frame_effect in H. fold r in H. tauto.
Qed.

(** X19.  Presence is written at connect only; no frame renews it.
    However many frames a member sends after an accepted connect, and
    whatever they contain, 60 seconds after the connect the user is no
    longer online and the member list of the room is empty. *)
Theorem no_frame_refreshes_presence now room_id u w c frames t :
  room_exists room_id (World.db w) ->
  active_member (User.id u) room_id (World.db w) ->
  Presence.reachable (World.redis w) ->
  room_id <> 0 ->
  now + seconds 60 <= t ->
  let connected := connect now room_id (Some (Accounts.Authenticated u)) w c in
  let r := receive_each frames connected.1 connected.2 in
  accepted connected.2 = true
  /\ Presence.is_user_online t (User.id u) (World.redis r.1)
     = (inr 0, World.redis r.1)
  /\ Presence.get_online_users_in_room t room_id (World.redis r.1)
     = (inr [], World.redis r.1).
Proof.
  intros Hroom Hmember Hreach Hr Ht connected r.
  pose proof (PresenceFacts.reachable_well_formed _ Hreach) as Hwf.
  destruct (PresenceFacts.set_user_online_lookup now (User.id u) room_id
              (World.redis w) Hwf Hr) as (s & d' & E & Hu & Hrm & _).
  assert (accepted connected.2 = true /\ World.redis connected.1 = d') as [Hacc Hd].
  { unfold connected, connect.
    rewrite (LifecycleFacts.is_room_member_true u room_id _ Hroom Hmember).
    cbn [negb World.redis World.set_layer]. rewrite E. split; reflexivity. }
  split; [exact Hacc|]. unfold r. rewrite receive_each_redis, Hd.
  assert ((t <? now + seconds 60) = false) as Hexp by (apply Z.ltb_ge; lia).
  split.
  - unfold Presence.is_user_online, Redis.exists_, Redis.get. rewrite Hu.
    cbn [Redis.live Redis.expires_at]. rewrite Hexp. reflexivity.
  - unfold Presence.get_online_users_in_room, Redis.smembers, Py.sbind, Redis.get.
    rewrite Hrm. cbn [Redis.live Redis.expires_at]. rewrite Hexp. reflexivity.
Qed.

End Receive.

Lemma no_frame_refreshes_presence_witness :
  room_exists 7 (World.db Sample.world)
  /\ active_member (User.id Sample.alice) 7 (World.db Sample.world)
  /\ Presence.reachable (World.redis Sample.world)
  /\ Presence.is_user_online (100 + seconds 60) 1
       (World.redis
          (receive_each (Sample.loads_as (Json.Obj Sample.reply_message))
             Pydantic.JoinMessage Pydantic.LeaveMessage Pydantic.MessageMessage
             Pydantic.AttachmentMessage Pydantic.TypingMessage
             [(110, "one"); (120, "two")]
             (connect 100 7 (Some (Accounts.Authenticated Sample.alice))
                      Sample.world (init "specific.alice")).1
             (connect 100 7 (Some (Accounts.Authenticated Sample.alice))
                      Sample.world (init "specific.alice")).2).1)
     = (inr 0,
        World.redis
          (receive_each (Sample.loads_as (Json.Obj Sample.reply_message))
             Pydantic.JoinMessage Pydantic.LeaveMessage Pydantic.MessageMessage
             Pydantic.AttachmentMessage Pydantic.TypingMessage
             [(110, "one"); (120, "two")]
             (connect 100 7 (Some (Accounts.Authenticated Sample.alice))
                      Sample.world (init "specific.alice")).1
             (connect 100 7 (Some (Accounts.Authenticated Sample.alice))
                      Sample.world (init "specific.alice")).2).1).
Proof.
  assert (room_exists 7 (World.db Sample.world)) as H1.
  { exists Sample.lounge. split; [LifecycleFacts.row_of_sample|reflexivity]. }
  assert (active_member (User.id Sample.alice) 7 (World.db Sample.world)) as H2.
  { eexists. split; [apply list_elem_of_here|]. repeat split. }
  assert (Presence.reachable (World.redis Sample.world)) as H3 by constructor.
  split; [exact H1|]. split; [exact H2|]. split; [exact H3|].
  apply (no_frame_refreshes_presence
           (Sample.loads_as (Json.Obj Sample.reply_message))
           Pydantic.JoinMessage Pydantic.LeaveMessage Pydantic.MessageMessage
           Pydantic.AttachmentMessage Pydantic.TypingMessage
           100 7 Sample.alice Sample.world (init "specific.alice")
           [(110, "one"); (120, "two")] (100 + seconds 60) H1 H2 H3); lia.
Defined.

End FrameFacts.

(** ** Notification delivery and retention *)

Module NotificationMore.
Import Notification NotificationTasks ChannelFacts.

(** X20.  send_notification_async stores one new unread notification for
    the recipient and publishes it once, to the recipient's notification
    group, leaving the room groups as they were; a notification socket
    opened by the recipient receives it, and a socket opened by another
    user, whose channel is not in the recipient's group, does not. *)
Theorem a_notification_reaches_its_recipient_only
        now recipient_id notification_type title message kwargs u w c :
  let group := Utils.get_user_channel_group recipient_id in
  let n := new_row now (Db.notification_seq (World.db w) + 1) recipient_id
                   notification_type title message kwargs in
  let connected :=
    Consumers.notification_connect (Some (Accounts.Authenticated u)) w c in
  let sent w := send_notification_async now recipient_id notification_type
                                        title message kwargs w in
  Db.notifications (World.db (sent w)) = (Db.notifications (World.db w) ++ [n])%list
  /\ is_read n = false /\ read_at n = None /\ recipient n = recipient_id
  /\ Channels.published (World.layer (sent w))
     = (Channels.published (World.layer w)
        ++ [(group, Channels.notification_message n)])%list
  /\ (forall channel,
        Channels.inbox channel (World.layer (sent w))
        = (Channels.inbox channel (World.layer w)
           ++ if bool_decide (channel ∈ Channels.members group (World.layer w))
              then [Channels.notification_message n] else [])%list)
  /\ (forall room_id,
        Channels.members (Utils.get_room_channel_group room_id) (World.layer (sent w))
        = Channels.members (Utils.get_room_channel_group room_id) (World.layer w))
  /\ Consumers.accepted connected.2 = true
  /\ (recipient_id = User.id u ->
      Channels.inbox (Consumers.channel_name c) (World.layer (sent connected.1))
      = (Channels.inbox (Consumers.channel_name c) (World.layer w)
         ++ [Channels.notification_message n])%list)
  /\ (recipient_id <> User.id u ->
      Consumers.channel_name c ∉ Channels.members group (World.layer w) ->
      Channels.inbox (Consumers.channel_name c) (World.layer (sent connected.1))
      = Channels.inbox (Consumers.channel_name c) (World.layer w)).
Proof.
  intros group n connected sent. subst sent. cbv beta.
  unfold send_notification_async.
  cbn [World.layer World.db World.set_layer World.set_db Db.notifications
       Db.set_notifications].
  fold n. fold group.
  split; [reflexivity|]. split; [reflexivity|]. split; [reflexivity|].
  split; [reflexivity|]. split; [reflexivity|].
  split; [intros channel; apply inbox_group_send|].
  split; [reflexivity|]. split; [reflexivity|].
  assert (connected
          = (World.set_layer
               (Channels.group_add (Utils.get_user_channel_group (User.id u))
                                   (Consumers.channel_name c) (World.layer w)) w,
             Consumers.accept
               (Consumers.mk (Consumers.channel_name c) (Consumers.room_id c)
                  (Some (Utils.get_user_channel_group (User.id u)))
                  (Some (Accounts.Authenticated u)) (Consumers.accepted c)
                  (Consumers.close_code c) (Consumers.outbox c)))) as -> by reflexivity.
  cbn [fst World.layer World.set_layer World.db].
  split.
  - intros Hr. rewrite inbox_group_send, members_group_add. unfold group. rewrite Hr.
    destruct (decide _) as [_|Hne]; [|congruence].
    rewrite bool_decide_true by (apply elem_of_union_l, elem_of_singleton; reflexivity).
    subst n. rewrite Hr. reflexivity.
  - intros Hr Hout. rewrite inbox_group_send, members_group_add.
    destruct (decide _) as [Heq|_].
    + apply UtilsFacts.user_group_inj in Heq. contradiction.
    + rewrite bool_decide_false by exact Hout. rewrite app_nil_r. reflexivity.
Qed.

Lemma bulk_rows_spec now notification_type title message kwargs recipient_ids :
  forall seq,
    let rows := bulk_rows now seq recipient_ids notification_type title message kwargs in
    map recipient rows = recipient_ids
    /\ length rows = length recipient_ids
    /\ Forall (fun n => is_read n = false /\ read_at n = None
                        /\ seq < id n <= seq + Z.of_nat (length recipient_ids)) rows
    /\ NoDup (map id rows).
Proof.
  induction recipient_ids as [|r rest IH]; intros seq rows.
  - repeat split; constructor.
  - subst rows. cbn [bulk_rows map length].
    destruct (IH (seq + 1)) as (Hrec & Hlen & Hall & Hnd). cbv zeta in *.
    rewrite Hrec, Hlen. repeat split.
    + constructor; [cbn; repeat split; lia|].
      eapply Forall_impl; [exact Hall|]. cbn beta. intros n (? & ? & ?).
      repeat split; try assumption; lia.
    + constructor; [|exact Hnd]. cbn [id new_row].
      intros Hin. apply list_elem_of_fmap in Hin as (n & Hid & Hn).
      rewrite Forall_forall in Hall. destruct (Hall n Hn) as (_ & _ & Hrange). lia.
Qed.

Lemma publish_each_published ns : forall l,
  Channels.published (publish_each ns l)
  = (Channels.published l
     ++ map (fun n => (Utils.get_user_channel_group (recipient n),
                       Channels.notification_message n)) ns)%list.
Proof.
  induction ns as [|n ns IH]; intros l; cbn [publish_each map].
  - symmetry. apply app_nil_r.
  - rewrite IH. cbn [Channels.published Channels.group_send].
    rewrite <- app_assoc. reflexivity.
Qed.

(** X21.  send_bulk_notifications stores one unread notification per entry
    of the recipient list, in the order of the list and with fresh,
    distinct identifiers (a recipient listed twice gets two), and then
    publishes one event per stored row, in the same order, each to the
    group of its recipient. *)
Theorem bulk_notifications_one_per_recipient
        now recipient_ids notification_type title message kwargs w :
  let w' := send_bulk_notifications now recipient_ids notification_type
                                    title message kwargs w in
  exists rows,
    Db.notifications (World.db w') = (Db.notifications (World.db w) ++ rows)%list
    /\ map recipient rows = recipient_ids
    /\ NoDup (map id rows)
    /\ Forall (fun n => is_read n = false /\ read_at n = None
                        /\ Db.notification_seq (World.db w) < id n
                           <= Db.notification_seq (World.db w'))
              rows
    /\ Db.notification_seq (World.db w')
       = Db.notification_seq (World.db w) + Z.of_nat (length recipient_ids)
    /\ Channels.published (World.layer w')
       = (Channels.published (World.layer w)
          ++ map (fun n => (Utils.get_user_channel_group (recipient n),
                            Channels.notification_message n)) rows)%list.
Proof.
  intros w'. subst w'. unfold send_bulk_notifications.
  set (rows := bulk_rows now (Db.notification_seq (World.db w)) recipient_ids
                         notification_type title message kwargs).
  destruct (bulk_rows_spec now notification_type title message kwargs recipient_ids
              (Db.notification_seq (World.db w))) as (Hrec & Hlen & Hall & Hnd).
  fold rows in Hrec, Hlen, Hall, Hnd.
  exists rows.
  cbn [World.db World.layer World.set_db World.set_layer Db.notifications
       Db.set_notifications Db.notification_seq].
  rewrite Hlen. repeat split; try assumption. apply publish_each_published.
Qed.

(** X22.  cleanup_old_notifications keeps a notification exactly when it
    is unread or was created at most 90 days ago (a read notification
    created exactly 90 days ago is kept), keeps the rows in their order,
    and reports as deleted the number of rows it removed. *)
Theorem cleanup_keeps_unread_and_recent now (tbl : list Notification.t) :
  let r := cleanup_old_notifications now tbl in
  (forall n, n ∈ r.1 <-> n ∈ tbl /\ (is_read n = false
                                     \/ now - 90 * Utils.day <= created_at n))
  /\ r.1 `sublist_of` tbl
  /\ r.2 = Z.of_nat (length tbl) - Z.of_nat (length r.1).
Proof.
  intros r. subst r. unfold cleanup_old_notifications. cbn [fst snd].
  split; [|split].
  - intros n. rewrite !list_elem_of_In, filter_In.
    destruct (is_read n); cbn [andb negb];
      rewrite ?negb_true_iff, ?Z.ltb_ge; intuition (discriminate || lia).
  - induction tbl as [|n tbl IH]; cbn [List.filter]; [constructor|].
    destruct (negb _); [apply sublist_skip|apply sublist_cons]; exact IH.
  - induction tbl as [|n tbl IH]; cbn [List.filter length]; [reflexivity|].
    destruct (is_read n && (created_at n <? now - 90 * Utils.day));
      cbn [negb length]; lia.
Qed.

Lemma unread_after_update sel user tbl :
  (forall row, in_queryset user row && negb (is_read row) = true -> sel row = true) ->
  unread_count user (update_is_read_true sel tbl) = 0.
Proof.
  intros Hsel. unfold unread_count, update_is_read_true.
  induction tbl as [|n tbl IH]; [reflexivity|]. cbn [map List.filter].
  destruct (sel n) eqn:E.
  - unfold in_queryset at 1. cbn [recipient set_is_read is_read negb].
    rewrite andb_false_r. exact IH.
  - destruct (in_queryset user n && negb (is_read n)) eqn:E'; [|exact IH].
    rewrite (Hsel n E') in E. discriminate.
Qed.

Lemma unread_of_others sel user other tbl :
  (forall row, sel row = true -> in_queryset user row = true) ->
  other <> user ->
  unread_count other (update_is_read_true sel tbl) = unread_count other tbl.
Proof.
  intros Hsel Hne. unfold unread_count, update_is_read_true. f_equal. f_equal.
  induction tbl as [|n tbl IH]; [reflexivity|]. cbn [map List.filter].
  destruct (sel n) eqn:E.
  - apply Hsel in E. unfold in_queryset in *. apply Z.eqb_eq in E.
    cbn [recipient set_is_read]. rewrite E, (proj2 (Z.eqb_neq user other)) by congruence.
    exact IH.
  - rewrite IH. reflexivity.
Qed.

Lemma filter_is_true {A} (f : A -> bool) (l : list A) :
  filter (fun x => f x = true) l = List.filter f l.
Proof.
  induction l as [|x l IH]; [reflexivity|].
  cbn [List.filter]. rewrite <- IH.
  destruct (f x) eqn:E.
  - apply filter_cons_True, E.
  - apply filter_cons_False. rewrite E. discriminate.
Qed.

(** X23.  After mark_all_read the unread count of the user is 0, and
    neither mark_all_read nor bulk_mark_read changes the unread count of
    another user, whatever identifiers are submitted; the count
    bulk_mark_read reports is the amount by which the user's unread count
    went down, between 0 and the former unread count. *)
Theorem mark_all_read_clears_the_unread_count user other (ids : list Z) tbl :
  other <> user ->
  unread_count user (mark_all_read user tbl) = 0
  /\ unread_count other (mark_all_read user tbl) = unread_count other tbl
  /\ unread_count other (bulk_mark_read user ids tbl).1 = unread_count other tbl
  /\ (bulk_mark_read user ids tbl).2
     = unread_count user tbl - unread_count user (bulk_mark_read user ids tbl).1
  /\ 0 <= (bulk_mark_read user ids tbl).2 <= unread_count user tbl.
Proof.
  intros Hne.
  assert ((bulk_mark_read user ids tbl).2
          = unread_count user tbl - unread_count user (bulk_mark_read user ids tbl).1
          /\ 0 <= unread_count user (bulk_mark_read user ids tbl).1) as [Hcount Hpos].
  { unfold bulk_mark_read, unread_count, update_is_read_true, table. cbn [fst snd].
    rewrite filter_is_true. split; [|lia].
    induction tbl as [|n tbl IH]; [reflexivity|].
    cbn [map List.filter]. unfold in_queryset in *.
    destruct (recipient n =? user) eqn:Hq, (bool_decide (id n ∈ ids)),
      (is_read n) eqn:Hr;
      cbn [andb negb recipient set_is_read is_read length];
      rewrite ?Hr, ?Hq; cbn [andb negb length]; lia. }
  split; [|split; [|split; [|split]]].
  - apply unread_after_update. auto.
  - apply (unread_of_others _ user); [|exact Hne].
    intros row [H _]%andb_true_iff. exact H.
  - apply (unread_of_others _ user); [|exact Hne].
    intros row [[H _]%andb_true_iff _]%andb_true_iff. exact H.
  - exact Hcount.
  - split; [unfold bulk_mark_read; cbn [snd]|]; lia.
Qed.

Lemma mark_all_read_clears_the_unread_count_witness :
  2 <> 1
  /\ unread_count 1 [Sample.notice] = 1
  /\ unread_count 1 (mark_all_read 1 [Sample.notice]) = 0.
Proof.
  split; [lia|]. split; [reflexivity|].
  apply (mark_all_read_clears_the_unread_count 1 2 [] [Sample.notice]). lia.
Defined.
End NotificationMore.

(** ** The REST views of rooms and messages *)

Module ViewsMore.
Import Views Spec.

Lemma get_room_found user pk db room :
  get_room user pk db = inr room ->
  room ∈ Db.rooms db /\ ChatRoom.id room = pk /\ ChatRoom.is_active room = true
  /\ participant user pk db = true.
Proof.
  unfold get_room. destruct (List.find _ _) as [room'|] eqn:E; [|discriminate].
  intros [= <-]. apply find_some in E as [Hin [[Hid Ha]%andb_true_iff Hp]%andb_true_iff].
  split; [apply list_elem_of_In, Hin|]. split; [apply Z.eqb_eq, Hid|]. split; assumption.
Qed.

Lemma get_room_not_found user pk db e :
  get_room user pk db = inl e -> e = NotFound "Not found.".
Proof.
  unfold get_room. destruct (List.find _ _); [discriminate|]. congruence.
Qed.

Lemma get_room_some user pk db room :
  room ∈ Db.rooms db -> ChatRoom.id room = pk -> ChatRoom.is_active room = true ->
  participant user pk db = true ->
  exists room', get_room user pk db = inr room'.
Proof.
  intros Hin Hid Ha Hp. unfold get_room.
  destruct (List.find _ _) as [room'|] eqn:E; [eauto|].
  pose proof (find_none _ _ E room (proj1 (list_elem_of_In _ _) Hin)) as Hf.
  cbn beta in Hf. rewrite Hid, Z.eqb_refl, Ha, Hp in Hf. discriminate.
Qed.

Lemma paginate_first_page {A} size (rows : list A) :
  paginate_queryset None size rows
  = inr (firstn (Z.to_nat (get_page_size size)) rows).
Proof.
  unfold paginate_queryset.
  assert (1 <= get_page_size size <= 100) as Hsize.
  { unfold get_page_size, page_size, max_page_size.
    destruct size as [text|]; [|lia]. destruct (Py.int text) as [|n]; [lia|].
    destruct (Z.leb_spec n 0); lia. }
  set (per_page := get_page_size size) in *.
  set (count := Z.of_nat (length rows)).
  assert (1 <= num_pages count per_page) as Hpages.
  { unfold num_pages. apply Z.div_le_lower_bound; lia. }
  destruct (Z.ltb_spec 1 1); [lia|].
  destruct (Z.ltb_spec (num_pages count per_page) 1); [lia|]. cbn [orb].
  f_equal. unfold slice. cbn [skipn Z.to_nat]. replace ((1 - 1) * per_page) with 0 by lia.
  cbn [Z.to_nat skipn]. rewrite Z.add_0_l, Z.sub_0_r.
  destruct (Z.min_spec per_page count) as [[Hlt ->]|[Hle ->]]; [reflexivity|].
  subst count. rewrite Nat2Z.id, !firstn_all2; [reflexivity|lia|exact (Nat.le_refl _)].
Qed.

Section Messages.
Variable search_matches : string -> Db.t -> Message.t -> bool.

(** X24.  The messages action of a room never answers PermissionDenied:
    its membership check repeats what get_object has already required.
    Whoever has a membership row in an active room, active or not, gets
    the first page of the room's history, newest first; for a user whose
    membership is not active this is history that the message endpoints
    hide, since no message of the room is visible to that user there. *)
Theorem history_is_open_to_former_members user pk size db room m :
  room ∈ Db.rooms db -> ChatRoom.id room = pk -> ChatRoom.is_active room = true ->
  m ∈ Db.memberships db ->
  RoomMembership.user m = user -> RoomMembership.room m = pk ->
  (forall user pk params db detail,
      messages search_matches user pk params db <> inl (PermissionDenied detail))
  /\ messages search_matches user pk (mk_params None None None size) db
     = inr (firstn (Z.to_nat (get_page_size size))
                   (Query.order_by true Message.created_at
                      (List.filter (fun row => Message.room row =? pk)
                                   (Db.messages db))))
  /\ (¬ active_member user pk db ->
      forall row, Message.room row = pk -> visible user db row = false).
Proof.
  intros Hroom Hid Hactive Hm Huser Hmroom.
  assert (participant user pk db = true) as Hp.
  { apply existsb_exists. exists m. split; [apply list_elem_of_In, Hm|].
    rewrite Huser, Hmroom, !Z.eqb_refl. reflexivity. }
  split; [|split].
  - clear. intros user pk params db detail. unfold messages.
    destruct (get_room user pk db) as [e|room] eqn:E.
    + apply get_room_not_found in E. subst e. discriminate.
    + apply get_room_found in E as (_ & Hid & _ & Hp). rewrite Hid, Hp. cbn [negb].
      destruct (order_by _ _) as [e|rows] eqn:Ho.
      * assert (e = OtherOrdering) as ->
            by (unfold order_by in Ho; repeat case_match; congruence).
        discriminate.
      * unfold paginate_queryset. repeat case_match; discriminate.
  - destruct (get_room_some user pk db room Hroom Hid Hactive Hp) as [room' E].
    unfold messages. rewrite E.
    apply get_room_found in E as (_ & Hid' & _ & _). rewrite Hid', Hp. cbn [negb p_search p_ordering default p_page p_page_size].
    change (order_by "-created_at" ?rows)
      with (inr (Query.order_by true Message.created_at rows) : response _).
    apply paginate_first_page.
  - intros Hnot row Hrow. unfold visible.
    apply not_true_is_false. intros (r & _ & [[Hr _]%andb_true_iff Hex]%andb_true_iff)%existsb_exists.
    apply Z.eqb_eq in Hr. apply existsb_exists in Hex as (m' & Hm' & Ham).
    apply Hnot. exists m'. unfold Db.active_membership in Ham.
    apply andb_true_iff in Ham as [[H1 H2]%andb_true_iff H3].
    apply Z.eqb_eq in H1, H2.
    split; [apply list_elem_of_In, Hm'|]. split; [exact H2|]. split; [congruence|exact H3].
Qed.
End Messages.

Lemma history_is_open_to_former_members_witness :
  ¬ active_member 3 7 Sample.db
  /\ messages Sample.no_search 3 7 (mk_params None None None None) Sample.db
     = inr [Sample.second; Sample.first]
  /\ visible 3 Sample.db Sample.second = false.
Proof.
  assert (¬ active_member 3 7 Sample.db) as Hnot.
  { intros (m & Hm & Hu & Hr & Ha). cbn in Hm.
    repeat (apply elem_of_cons in Hm as [->|Hm]; [cbn in *; congruence|]).
    inversion Hm. }
  destruct (history_is_open_to_former_members
              Sample.no_search 3 7 None Sample.db Sample.lounge
              (RoomMembership.mk 3 0 0 3 7 "member" 0 false))
    as (_ & Hhist & Hvis).
  - cbn. apply list_elem_of_here.
  - reflexivity.
  - reflexivity.
  - cbn. do 2 apply list_elem_of_further. apply list_elem_of_here.
  - reflexivity.
  - reflexivity.
  - split; [exact Hnot|]. split; [rewrite Hhist; reflexivity|].
    apply Hvis; [exact Hnot|reflexivity].
Defined.
Lemma get_page_size_bounds size : 1 <= get_page_size size <= max_page_size.
Proof.
  unfold get_page_size, page_size, max_page_size.
  destruct size as [text|]; [|lia]. destruct (Py.int text) as [|n]; [lia|].
  destruct (Z.leb_spec n 0); lia.
Qed.

(** X25.  A page that the paginator returns holds at most page_size rows,
    where the page size never exceeds 100 whatever the client asks for;
    its rows are rows of the queryset in queryset order; and a page of a
    queryset that is not empty is not empty. *)
Theorem a_page_holds_at_most_100_rows {A} page size (rows l : list A) :
  paginate_queryset page size rows = inr l ->
  Z.of_nat (length l) <= get_page_size size <= 100
  /\ l `sublist_of` rows
  /\ (rows <> [] -> l <> []).
Proof.
  pose proof (get_page_size_bounds size) as Hsize. unfold max_page_size in Hsize.
  unfold paginate_queryset.
  set (per_page := get_page_size size) in *.
  set (count := Z.of_nat (length rows)).
  destruct (match page with
            | Some text => _
            | None => _
            end) as [e|number]; [discriminate|].
  destruct (Z.ltb_spec number 1) as [|Hlow]; [discriminate|].
  destruct (Z.ltb_spec (num_pages count per_page) number) as [|Hhigh]; [discriminate|].
  cbn [orb]. intros [= <-]. unfold slice.
  split; [|split].
  - split; [|lia]. rewrite length_firstn. lia.
  - etransitivity; [apply sublist_take|apply sublist_drop].
  - intros Hrows Hnil. apply (f_equal (@length A)) in Hnil.
    rewrite length_firstn, length_skipn in Hnil. cbn [length] in Hnil.
    assert (0 < count) by (subst count; destruct rows; [congruence|cbn [length]; lia]).
    unfold num_pages in Hhigh.
    assert ((number - 1) * per_page < count).
    { assert (number * per_page <= Z.max 1 count + per_page - 1); [|lia].
      etransitivity; [apply Z.mul_le_mono_nonneg_r; [lia|exact Hhigh]|].
      rewrite Z.mul_comm. apply Z.mul_div_le. lia. }
    subst count. lia.
Qed.

Lemma a_page_holds_at_most_100_rows_witness :
  Z.of_nat (length [2; 3]) <= get_page_size (Some "2") <= 100
  /\ [2; 3] `sublist_of` [0; 1; 2; 3; 4]
  /\ ([0; 1; 2; 3; 4] <> [] -> [2; 3] <> []).
Proof.
  apply (a_page_holds_at_most_100_rows (Some "2") (Some "2") [0; 1; 2; 3; 4] [2; 3]).
  reflexivity.
Defined.

(** X26.  soft_delete succeeds only for a user who holds an active
    membership in the room of the message and who is either the sender of
    the message or an admin or owner of that room; what it then does is
    delete the row and what depends on it, not flag it. *)
Theorem delete_needs_the_sender_or_a_moderator user pk db db' :
  soft_delete user pk db = (inr tt, db') ->
  exists message membership,
    message ∈ Db.messages db /\ Message.id message = pk
    /\ membership ∈ Db.memberships db
    /\ RoomMembership.user membership = user
    /\ RoomMembership.room membership = Message.room message
    /\ RoomMembership.is_active membership = true
    /\ (Message.sender message = user
        \/ RoomMembership.role membership = "admin"
        \/ RoomMembership.role membership = "owner")
    /\ db' = delete_message pk db.
Proof.
  unfold soft_delete. destruct (get_message user pk db) as [e|message] eqn:E; [discriminate|].
  destruct (_ && _) eqn:Hauth; [discriminate|]. intros [= <-].
  unfold get_message in E. destruct (List.find _ _) as [m|] eqn:F; [|discriminate].
  injection E as ->. apply find_some in F as [Hin [Hid Hv]%andb_true_iff].
  apply Z.eqb_eq in Hid. exists message.
  unfold visible in Hv.
  apply existsb_exists in Hv as (room & _ & [[Hr _]%andb_true_iff Hex]%andb_true_iff).
  apply Z.eqb_eq in Hr.
  apply existsb_exists in Hex as (member & Hmember & Ham).
  unfold Db.active_membership in Ham.
  apply andb_true_iff in Ham as [[H1 H2]%andb_true_iff H3]. apply Z.eqb_eq in H1, H2.
  apply andb_false_iff in Hauth as [Hs|Hm].
  - apply negb_false_iff, Z.eqb_eq in Hs. exists member.
    split; [apply list_elem_of_In, Hin|]. split; [exact Hid|].
    split; [apply list_elem_of_In, Hmember|]. split; [exact H2|].
    split; [congruence|]. split; [exact H3|]. split; [left; exact Hs|]. rewrite Hid.
    reflexivity.
  - apply negb_false_iff in Hm. unfold moderator in Hm.
    apply existsb_exists in Hm as (mod_ & Hmod & [[[Hu Hroom]%andb_true_iff Hrole]%andb_true_iff Hact]%andb_true_iff).
    apply Z.eqb_eq in Hu, Hroom. exists mod_.
    split; [apply list_elem_of_In, Hin|]. split; [exact Hid|].
    split; [apply list_elem_of_In, Hmod|]. split; [exact Hu|].
    split; [exact Hroom|]. split; [exact Hact|].
    split; [right; apply orb_true_iff in Hrole as [H|H]; apply String.eqb_eq in H; auto|].
    rewrite Hid. reflexivity.
Qed.

Lemma delete_needs_the_sender_or_a_moderator_witness :
  exists message membership,
    message ∈ Db.messages Sample.db /\ Message.id message = 2
    /\ membership ∈ Db.memberships Sample.db
    /\ RoomMembership.user membership = 1
    /\ RoomMembership.room membership = Message.room message
    /\ RoomMembership.is_active membership = true
    /\ (Message.sender message = 1
        \/ RoomMembership.role membership = "admin"
        \/ RoomMembership.role membership = "owner")
    /\ delete_message 2 Sample.db = delete_message 2 Sample.db.
Proof.
  apply (delete_needs_the_sender_or_a_moderator 1 2 Sample.db). reflexivity.
Defined.

(** X27.  Deleting a message leaves nothing that points to it: no message
    has its identifier or names it as reply_to (replies stay, with an
    empty reply_to and their content), its attachments and the
    notifications about it are gone and no others, and users, rooms and
    memberships are unchanged. *)
Theorem a_deleted_message_leaves_no_reference message_id db :
  let db' := delete_message message_id db in
  (forall m, m ∈ Db.messages db' ->
             Message.id m <> message_id /\ Message.reply_to m <> Some message_id)
  /\ (forall a, a ∈ Db.attachments db' <->
                a ∈ Db.attachments db /\ Attachment.message a <> message_id)
  /\ (forall n, n ∈ Db.notifications db' <->
                n ∈ Db.notifications db
                /\ Notification.related_message n <> Some message_id)
  /\ map Message.id (Db.messages db')
     = List.filter (fun i => negb (i =? message_id)) (map Message.id (Db.messages db))
  /\ map Message.content (Db.messages db')
     = map Message.content
           (List.filter (fun m => negb (Message.id m =? message_id)) (Db.messages db))
  /\ Db.users db' = Db.users db /\ Db.rooms db' = Db.rooms db
  /\ Db.memberships db' = Db.memberships db
  /\ Db.message_seq db' = Db.message_seq db.
Proof.
  intros db'. subst db'. unfold delete_message.
  cbn [Db.messages Db.attachments Db.notifications Db.users Db.rooms Db.memberships
       Db.message_seq].
  split; [|split; [|split; [|split; [|split]]]].
  - intros m Hm. apply list_elem_of_fmap in Hm as (m0 & -> & Hm0).
    apply list_elem_of_In, filter_In in Hm0 as [_ Hid].
    apply negb_true_iff, Z.eqb_neq in Hid.
    destruct (bool_decide_reflect (Message.reply_to m0 = Some message_id)) as [|Hr];
      cbn [Message.id Message.reply_to]; split; congruence.
  - intros a. rewrite !list_elem_of_In, filter_In, negb_true_iff, Z.eqb_neq. reflexivity.
  - intros n. rewrite !list_elem_of_In, filter_In, negb_true_iff, bool_decide_eq_false.
    reflexivity.
  - induction (Db.messages db) as [|m l IH]; [reflexivity|]. cbn [map List.filter].
    destruct (negb (Message.id m =? message_id)); [|exact IH].
    cbn [map]. rewrite IH. f_equal.
    destruct (bool_decide _); reflexivity.
  - induction (Db.messages db) as [|m l IH]; [reflexivity|]. cbn [map List.filter].
    destruct (negb (Message.id m =? message_id)); [|exact IH].
    cbn [map]. rewrite IH. f_equal.
    destruct (bool_decide _); reflexivity.
  - repeat split.
Qed.

Lemma find_membership_of_participant user pk db :
  participant user pk db = true ->
  exists m, List.find (fun m => (RoomMembership.user m =? user)
                                && (RoomMembership.room m =? pk))
                      (Db.memberships db) = Some m.
Proof.
  intros (m & Hm & [Hr Hu]%andb_true_iff)%existsb_exists.
  destruct (List.find _ _) as [m'|] eqn:E; [eauto|].
  pose proof (find_none _ _ E m Hm) as Hf. cbn beta in Hf.
  rewrite Hr, Hu in Hf. discriminate.
Qed.

(** X28.  The join action never creates a membership: the room is looked
    up among the rooms the user already takes part in, so a user without a
    membership row gets NotFound and the database is unchanged, and for
    everyone else the membership table keeps the same row identifiers in
    the same order and the identifier sequence does not advance. *)
Theorem join_never_adds_a_member now user pk db :
  let r := join now user pk db in
  map RoomMembership.id (Db.memberships r.2) = map RoomMembership.id (Db.memberships db)
  /\ Db.membership_seq r.2 = Db.membership_seq db
  /\ (participant user pk db = false -> r = (inl (NotFound "Not found."), db)).
Proof.
  intros r. subst r. unfold join.
  destruct (get_room user pk db) as [e|room] eqn:E.
  - apply get_room_not_found in E as ->. cbn [snd]. repeat split.
  - apply get_room_found in E as (_ & Hid & _ & Hp). rewrite Hid.
    destruct (find_membership_of_participant user pk db Hp) as [m ->].
    rewrite Hp.
    destruct (RoomMembership.is_active m); cbn [negb snd];
      [repeat split; discriminate|].
    unfold save_membership.
    cbn [Db.memberships Db.set_memberships Db.membership_seq].
    rewrite !map_map.
    repeat split; try discriminate.
    apply map_ext. intros row.
    destruct (Z.eqb_spec (RoomMembership.id row)
                         (RoomMembership.id (set_active now true m)));
      [symmetry; assumption|reflexivity].
Qed.
Lemma leave_found now user pk db db' :
  leave now user pk db = (inr tt, db') ->
  exists room m,
    get_room user pk db = inr room
    /\ m ∈ Db.memberships db
    /\ RoomMembership.user m = user /\ RoomMembership.room m = pk
    /\ db' = save_membership (set_active now false m) db.
Proof.
  unfold leave. destruct (get_room user pk db) as [e|room] eqn:E; [discriminate|].
  destruct (get_room_found _ _ _ _ E) as (_ & Hid & _ & _). rewrite Hid.
  destruct (List.find _ _) as [m|] eqn:F; [|discriminate]. intros [= <-].
  apply find_some in F as [Hin Ham]. unfold Db.active_membership in Ham.
  apply andb_true_iff in Ham as [[H1 H2]%andb_true_iff _]. apply Z.eqb_eq in H1, H2.
  exists room, m. split; [reflexivity|]. split; [apply list_elem_of_In, Hin|].
  split; [exact H2|]. split; [exact H1|reflexivity].
Qed.

Lemma no_active_membership_after_leave now user pk db m row :
  unique_membership db -> m ∈ Db.memberships db ->
  RoomMembership.user m = user -> RoomMembership.room m = pk ->
  In row (Db.memberships (save_membership (set_active now false m) db)) ->
  Db.active_membership user pk row = false.
Proof.
  intros Huniq Hm Hu Hr Hrow. unfold save_membership in Hrow.
  cbn [Db.memberships Db.set_memberships] in Hrow.
  apply in_map_iff in Hrow as (row0 & <- & Hrow0).
  destruct (Z.eqb_spec (RoomMembership.id row0)
                       (RoomMembership.id (set_active now false m))) as [_|Hne].
  - unfold Db.active_membership. cbn [set_active RoomMembership.is_active].
    apply andb_false_r.
  - apply not_true_is_false. intros Ham. unfold Db.active_membership in Ham.
    apply andb_true_iff in Ham as [[H1 H2]%andb_true_iff _]. apply Z.eqb_eq in H1, H2.
    apply Hne. cbn [set_active RoomMembership.id]. f_equal.
    apply Huniq; [apply list_elem_of_In, Hrow0|exact Hm|]. left. split; congruence.
Qed.

(** X29.  After a successful leave, with at most one membership per user
    and room, the user no longer passes the membership check of the chat
    socket and a second leave answers NotFound, but the user still counts
    as a participant of the room for the room endpoints; messages and
    rooms are unchanged. *)
Theorem leaving_closes_the_socket_not_the_history now later (u : User.t) pk db db' :
  unique_membership db ->
  leave now (User.id u) pk db = (inr tt, db') ->
  Consumers.is_room_member u pk db' = false
  /\ participant (User.id u) pk db' = true
  /\ leave later (User.id u) pk db'
     = (inl (NotFound "You are not a member of this room."), db')
  /\ Db.messages db' = Db.messages db /\ Db.rooms db' = Db.rooms db.
Proof.
  intros Huniq Hleave.
  destruct (leave_found _ _ _ _ _ Hleave) as (room & m & Hroom & Hm & Hu & Hr & ->).
  pose proof (fun row => no_active_membership_after_leave
                            now (User.id u) pk db m row Huniq Hm Hu Hr) as Hnone.
  assert (participant (User.id u) pk (save_membership (set_active now false m) db) = true)
    as Hp.
  { apply existsb_exists. exists (set_active now false m). split.
    - unfold save_membership. cbn [Db.memberships Db.set_memberships].
      apply in_map_iff. exists m. split; [|apply list_elem_of_In, Hm].
      cbn [set_active RoomMembership.id]. rewrite Z.eqb_refl. reflexivity.
    - cbn [set_active RoomMembership.room RoomMembership.user].
      rewrite Hu, Hr, !Z.eqb_refl. reflexivity. }
  split; [|split; [|split; [|split; reflexivity]]].
  - unfold Consumers.is_room_member. apply not_true_is_false.
    intros (r & _ & [_ Hex]%andb_true_iff)%existsb_exists.
    apply existsb_exists in Hex as (row & Hrow & Ham).
    rewrite (Hnone row Hrow) in Ham. discriminate.
  - exact Hp.
  - unfold leave.
    assert (get_room (User.id u) pk (save_membership (set_active now false m) db)
            = inr room) as ->.
    { rewrite <- Hroom. unfold get_room.
      destruct (get_room_found _ _ _ _ Hroom) as (_ & _ & _ & Hp0).
      rewrite Hp, Hp0. reflexivity. }
    destruct (get_room_found _ _ _ _ Hroom) as (_ & -> & _ & _).
    destruct (List.find _ _) as [row|] eqn:F; [|reflexivity].
    apply find_some in F as [Hin Ham]. rewrite (Hnone row Hin) in Ham. discriminate.
Qed.
Lemma sample_unique_membership : unique_membership Sample.db.
Proof.
  intros m1 m2 H1 H2 H. cbn in H1, H2.
  repeat (apply elem_of_cons in H1 as [->|H1]);
    try (inversion H1; fail);
    repeat (apply elem_of_cons in H2 as [->|H2]);
    try (inversion H2; fail);
    try reflexivity; cbn in H; destruct H as [[? ?]|?]; discriminate.
Qed.

Lemma leaving_closes_the_socket_not_the_history_witness :
  let db' := (leave 100 1 7 Sample.db).2 in
  Consumers.is_room_member Sample.alice 7 db' = false
  /\ participant 1 7 db' = true
  /\ leave 200 1 7 db' = (inl (NotFound "You are not a member of this room."), db')
  /\ Db.messages db' = Db.messages Sample.db /\ Db.rooms db' = Db.rooms Sample.db.
Proof.
  apply (leaving_closes_the_socket_not_the_history 100 200 Sample.alice 7 Sample.db).
  - exact sample_unique_membership.
  - reflexivity.
Defined.
End ViewsMore.

(** ** The notification socket *)

Module NotificationSocket.
Import Consumers ChannelFacts.

(** X30.  Connecting a notification socket and disconnecting it leaves the
    channel out of the user's notification group and every other group as
    it was; a notification sent to the user afterwards is not delivered to
    that channel and is still stored, raising the user's unread count by
    one. *)
Theorem a_closed_notification_socket_gets_nothing
        now u w c notification_type title message kwargs :
  let group := Utils.get_user_channel_group (User.id u) in
  let connected := notification_connect (Some (Accounts.Authenticated u)) w c in
  let closed := notification_disconnect connected.1 connected.2 in
  let w' := NotificationTasks.send_notification_async
              now (User.id u) notification_type title message kwargs (closed.1) in
  (channel_name c ∉ Channels.members group (World.layer closed.1))
  /\ (forall g, g <> group ->
                Channels.members g (World.layer closed.1)
                = Channels.members g (World.layer w))
  /\ Channels.inbox (channel_name c) (World.layer w')
     = Channels.inbox (channel_name c) (World.layer w)
  /\ Notification.unread_count (User.id u) (Db.notifications (World.db w'))
     = Notification.unread_count (User.id u) (Db.notifications (World.db w)) + 1.
Proof.
  intros group connected closed w'.
  assert (World.layer closed.1
          = Channels.group_discard group (channel_name c)
              (Channels.group_add group (channel_name c) (World.layer w))) as Hlayer
      by reflexivity.
  assert (channel_name c ∉ Channels.members group (World.layer closed.1)) as Hout.
  { rewrite Hlayer, members_group_discard, decide_True by reflexivity.
    rewrite elem_of_difference, elem_of_singleton. tauto. }
  split; [exact Hout|]. split; [|split].
  - intros g Hg. rewrite Hlayer, members_group_discard, decide_False by exact Hg.
    rewrite members_group_add, decide_False by exact Hg. reflexivity.
  - subst w'. unfold NotificationTasks.send_notification_async.
    cbn [World.layer World.set_layer]. rewrite inbox_group_send.
    change (World.layer (World.set_db ?d ?x)) with (World.layer x).
    fold group. rewrite bool_decide_false by exact Hout. rewrite app_nil_r.
    reflexivity.
  - subst w'. unfold NotificationTasks.send_notification_async.
    change (Db.notifications (World.db (World.set_layer ?l (World.set_db ?d ?x))))
      with (Db.notifications d).
    change (World.db closed.1) with (World.db w).
    cbn [Db.notifications Db.set_notifications].
    unfold Notification.unread_count. rewrite List.filter_app, length_app.
    cbn [List.filter]. unfold Notification.in_queryset at 2.
    cbn [NotificationTasks.new_row Notification.recipient Notification.is_read].
    rewrite Z.eqb_refl. cbn [andb negb length]. lia.
Qed.
End NotificationSocket.

(** ** A refused connection, from handshake to teardown *)

Module RefusedConnection.
Import Consumers Spec ChannelFacts.

(** C1 (what the code does).  A connection attempt to a room, by a user
    whom the token middleware authenticated and who holds no active
    membership of the room, is closed with code 4003 without being
    accepted and without a frame being sent, and up to that point the
    presence store and the channel layer are what they were.  But
    [connect] has stored the room group and the user on the consumer
    before it checked membership, and [disconnect], which ends every
    connection, acts on them: it publishes one [user_left] event for
    that user to the room group, which every channel attached to the
    room receives, and it runs [set_user_offline], which deletes the
    user's liveness marker and removes the user from the online set of
    every room.  So the refused attempt does publish an event and does
    change presence state. *)
Theorem refused_attempt_is_announced_and_clears_presence
        validator now later code query_string room_id w c u w1 :
  Accounts.jwt_auth_middleware validator now query_string w
  = (Accounts.Authenticated u, w1) ->
  ~ active_member (User.id u) room_id (World.db w) ->
  Presence.reachable (World.redis w) ->
  let group := Utils.get_room_channel_group room_id in
  let left_event := Channels.user_left (Some (User.id u)) (User.get_full_name u) in
  let refused := connect now room_id (Some (Accounts.Authenticated u)) w1 c in
  let r := disconnect later code refused.1 refused.2 in
  refused.1 = w1
  /\ close_code refused.2 = Some 4003
  /\ accepted refused.2 = accepted c
  /\ outbox refused.2 = outbox c
  /\ World.redis w1 = World.redis w
  /\ World.layer w1 = World.layer w
  /\ Channels.published (World.layer r.1)
     = (Channels.published (World.layer w) ++ [(group, left_event)])%list
  /\ (forall channel,
        channel <> channel_name c ->
        channel ∈ Channels.members group (World.layer w) ->
        Channels.inbox channel (World.layer r.1)
        = (Channels.inbox channel (World.layer w) ++ [left_event])%list)
  /\ World.redis r.1
     = (Presence.set_user_offline later (User.id u) (World.redis w)).2
  /\ (forall t, later <= t ->
        (Presence.is_user_online t (User.id u) (World.redis r.1)).1 = inr 0
        /\ forall room, exists users,
             (Presence.get_online_users_in_room t room (World.redis r.1)).1 = inr users
             /\ User.id u ∉ users).
Proof.
  intros Hmw Hnot Hreach group left_event refused r.
  pose proof (AccountsFacts.jwt_auth_middleware_frame validator now query_string w) as H.
  cbv zeta in H. rewrite Hmw in H. cbn [snd] in H.
  destruct H as (Hredis & Hlayer & Hms & _).
  assert (is_room_member u room_id (World.db w1) = false) as Hmember.
  { destruct (is_room_member u room_id (World.db w1)) eqn:E; [|reflexivity].
    exfalso. apply Hnot. apply ConsumerFacts.is_room_member_active_member in E.
    destruct E as (m & Hin & Hm). exists m. rewrite <- Hms. auto. }
  assert (refused = (w1, mk (channel_name c) (Some room_id) (Some group)
                            (Some (Accounts.Authenticated u)) (accepted c)
                            (Some 4003) (outbox c))) as Hrefused.
  { unfold refused, connect. rewrite Hmember. reflexivity. }
  pose proof (PresenceFacts.reachable_well_formed _ Hreach) as Hwf.
  destruct (PresenceFacts.offline_after_set_user_offline later (User.id u)
              (World.redis w) Hwf) as (d' & E & Hoff).
  unfold r. rewrite Hrefused.
  cbn [fst snd disconnect close_code accepted outbox room_group_name user channel_name
       World.layer World.redis World.set_layer World.set_redis].
  rewrite Hredis, Hlayer, E. cbn [snd].
  split; [reflexivity|]. split; [reflexivity|]. split; [reflexivity|].
  split; [reflexivity|]. split; [reflexivity|]. split; [reflexivity|].
  split; [reflexivity|]. split; [|split; [reflexivity|]].
  - intros channel Hne Hin. rewrite inbox_group_send, members_group_discard.
    destruct (decide (group = group)); [|congruence].
    rewrite bool_decide_true; [reflexivity|].
    apply elem_of_difference. split; [exact Hin|].
    intros ->%elem_of_singleton. contradiction.
  - intros t Ht. destruct (Hoff t Ht) as [-> Hrooms]. split; [reflexivity|].
    intros room. destruct (Hrooms room) as (users & -> & Hu). eauto.
Qed.

Lemma refused_attempt_is_announced_and_clears_presence_witness :
  let u := User.set_presence true None Sample.carol in
  let w1 := (Accounts.jwt_auth_middleware Sample.access_token 100
               "token=carol-token" Sample.busy_world).2 in
  let refused := connect 100 7 (Some (Accounts.Authenticated u)) w1
                         (init "specific.carol") in
  let r := disconnect 200 1006 refused.1 refused.2 in
  ~ active_member (User.id u) 7 (World.db Sample.busy_world)
  /\ Presence.reachable (World.redis Sample.busy_world)
  /\ (Presence.is_user_online 200 3 (World.redis Sample.busy_world)).1 = inr 1
  /\ (Presence.get_online_users_in_room 200 8 (World.redis Sample.busy_world)).1
     = inr [3]
  /\ Channels.inbox "specific.alice" (World.layer Sample.busy_world) = []
  /\ close_code refused.2 = Some 4003
  /\ Channels.inbox "specific.alice" (World.layer r.1)
     = [Channels.user_left (Some 3) "carol@example.org"]
  /\ (Presence.is_user_online 200 3 (World.redis r.1)).1 = inr 0
  /\ exists users,
      (Presence.get_online_users_in_room 200 8 (World.redis r.1)).1 = inr users
      /\ 3 ∉ users.
Proof.
  intros u w1 refused r.
  assert (~ active_member (User.id u) 7 (World.db Sample.busy_world)) as Hnot.
  { intros (m & Hin & Hu & Hr & Ha). cbn in Hin.
    repeat (apply elem_of_cons in Hin as [->|Hin]; [cbn in *; congruence|]).
    inversion Hin. }
  assert (Presence.reachable (World.redis Sample.busy_world)) as Hreach.
  { apply (Presence.reachable_step ∅); [constructor|apply Presence.step_online]. }
  split; [exact Hnot|]. split; [exact Hreach|].
  split; [vm_compute; reflexivity|]. split; [vm_compute; reflexivity|].
  split; [reflexivity|].
  pose proof (refused_attempt_is_announced_and_clears_presence
                Sample.access_token 100 200 1006 "token=carol-token" 7
                Sample.busy_world (init "specific.carol") u w1) as H.
  cbv zeta in H. fold refused in H. fold r in H.
  destruct H as (_ & Hcode & _ & _ & _ & _ & _ & Hinbox & _ & Hoff);
    [vm_compute; reflexivity|exact Hnot|exact Hreach|].
  split; [exact Hcode|]. split.
  - rewrite (Hinbox "specific.alice"); [reflexivity|discriminate|].
    vm_compute. reflexivity.
  - destruct (Hoff 200) as [Hflag Hrooms]; [lia|]. split; [exact Hflag|].
    exact (Hrooms 8).
Defined.
End RefusedConnection.
